(** * MediScanner API: the prescription extraction pipeline

    A shallow embedding of [app/utils/image_processor.py]
    ([PrescriptionImageProcessor]) and of the upload route of
    [app/routes/medical.py] ([extract_prescription_data]), with the records of
    [app/models/medical.py]; then of the listing route
    ([get_all_prescriptions]), of the queries of [app/db/queries.py] it and
    the upload route call, of the current user of [app/utils/auth.py], and of
    the logging and pagination helpers of [app/utils/helpers.py].

    Python values are an inductive type, exceptions are an explicit result
    type, and the effects of a request (image downloads, model calls, database
    inserts) are collected in a log of events; what the program prints is not
    modelled.  The libraries the code calls
    ([json.loads], pydantic's field validation, [str()] of a non-string, the
    OpenAI client, httpx, the database driver) are parameters of the model;
    concrete instances are given for running examples. *)

From Stdlib Require Import String Ascii List ZArith Lia Bool Arith.
From Stdlib Require Import DecimalString SpecFloat.
Import ListNotations.
Open Scope string_scope.
Open Scope list_scope.

(** ** Exceptions and results *)

(** The exception classes the pipeline can see.  [HTTPException] is FastAPI's;
    [HTTPError] is httpx's (status and transport errors); [OtherError] stands
    for any other subclass of [Exception] raised by a library. *)
Inductive exn : Type :=
| JSONDecodeError
| AttributeError
| TypeError
| KeyError
| IndexError
| ValidationError
| HTTPError
| UnboundLocalError
| HTTPException (status_code : Z) (detail : string)
| OtherError (msg : string).

Inductive result (A : Type) : Type :=
| Ok (a : A)
| Raise (e : exn).
Arguments Ok {A} a.
Arguments Raise {A} e.

Definition rbind {A B} (m : result A) (f : A -> result B) : result B :=
  match m with
  | Ok a => f a
  | Raise e => Raise e
  end.

Declare Scope result_scope.
Delimit Scope result_scope with result.
Notation "x <- m ;; k" := (rbind m (fun x => k))
  (at level 61, m at next level, right associativity) : result_scope.

(** ** Python values *)

(** A value of the dynamically typed parts of the program: what [json.loads]
    returns, and what the model client returns ([PObj] is an object with
    attributes, such as the client's response classes).  A [dict] has string
    keys and is read through [lookup], which takes the first binding of a key.
    A [float] is an IEEE 754 value. *)
#[warnings="-register-all"]
Inductive pyval : Type :=
| PNone
| PBool (b : bool)
| PInt (z : Z)
| PFloat (f : spec_float)
| PStr (s : string)
| PList (l : list pyval)
| PDict (d : list (string * pyval))
| PObj (attrs : list (string * pyval)).

Fixpoint lookup {A} (k : string) (d : list (string * A)) : option A :=
  match d with
  | [] => None
  | (k', v) :: d' => if String.eqb k k' then Some v else lookup k d'
  end.

(** [bool(v)]. *)
Definition truthy (v : pyval) : bool :=
  match v with
  | PNone => false
  | PBool b => b
  | PInt z => negb (Z.eqb z 0)
  | PFloat (S754_zero _) => false
  | PFloat _ => true
  | PStr s => negb (String.eqb s "")
  | PList l => match l with [] => false | _ => true end
  | PDict d => match d with [] => false | _ => true end
  | PObj _ => true
  end.

(** [a or b]. *)
Definition py_or (a b : pyval) : pyval := if truthy a then a else b.

(** [hasattr(v, name)] and [v.name]. *)
Definition hasattr (v : pyval) (name : string) : bool :=
  match v with
  | PObj attrs => match lookup name attrs with Some _ => true | None => false end
  | _ => false
  end.

Definition getattr (v : pyval) (name : string) : result pyval :=
  match v with
  | PObj attrs =>
      match lookup name attrs with Some x => Ok x | None => Raise AttributeError end
  | _ => Raise AttributeError
  end.

(** [isinstance(v, dict)], [isinstance(v, str)], [isinstance(v, list)]. *)
Definition is_dict (v : pyval) : bool := match v with PDict _ => true | _ => false end.
Definition is_str (v : pyval) : bool := match v with PStr _ => true | _ => false end.
Definition is_list (v : pyval) : bool := match v with PList _ => true | _ => false end.

(** [d.get(k)] and [d.get(k, default)] on a dict. *)
Definition dict_get (d : list (string * pyval)) (k : string) (default : pyval) : pyval :=
  match lookup k d with Some v => v | None => default end.

(** [v.get(k, default)] on any value: only a dict has the method. *)
Definition py_get (v : pyval) (k : string) (default : pyval) : result pyval :=
  match v with
  | PDict d => Ok (dict_get d k default)
  | _ => Raise AttributeError
  end.

(** [len(v)]. *)
Definition py_len (v : pyval) : result nat :=
  match v with
  | PStr s => Ok (String.length s)
  | PList l => Ok (List.length l)
  | PDict d => Ok (List.length d)
  | _ => Raise TypeError
  end.

(** [v[0]]. *)
Definition py_first (v : pyval) : result pyval :=
  match v with
  | PList (x :: _) => Ok x
  | PList [] => Raise IndexError
  | PStr (String c _) => Ok (PStr (String c ""))
  | PStr "" => Raise IndexError
  | PDict _ => Raise KeyError
  | _ => Raise TypeError
  end.

(** Iteration ([for x in v]): the elements of a list, the keys of a dict, the
    characters of a string. *)
Definition py_iter (v : pyval) : result (list pyval) :=
  match v with
  | PList l => Ok l
  | PDict d => Ok (map (fun kv => PStr (fst kv)) d)
  | PStr s => Ok (map (fun c => PStr (String c "")) (list_ascii_of_string s))
  | _ => Raise TypeError
  end.

(** ** Strings *)

(** A [str] is a [string]; its characters are the code points 0..255.
    [str.isspace] on these code points. *)
Definition is_space (c : ascii) : bool :=
  let n := nat_of_ascii c in
  (((9 <=? n) && (n <=? 13)) || ((28 <=? n) && (n <=? 32))
   || (n =? 133) || (n =? 160))%nat.

(** [str.lower] on one character. *)
Definition lower_char (c : ascii) : ascii :=
  let n := nat_of_ascii c in
  if (((65 <=? n) && (n <=? 90))
      || ((192 <=? n) && (n <=? 222) && negb (n =? 215)))%nat
  then ascii_of_nat (n + 32) else c.

Fixpoint lower (s : string) : string :=
  match s with
  | "" => ""
  | String c r => String (lower_char c) (lower r)
  end.

(** [s.split(sep)] for a one-character separator: never the empty list. *)
Fixpoint split (sep : ascii) (s : string) : list string :=
  match s with
  | "" => [""]
  | String c r =>
      if Ascii.eqb c sep then "" :: split sep r
      else match split sep r with
           | h :: t => String c h :: t
           | [] => [String c ""]
           end
  end.

(** [s.lower().split('.')[-1]], as both the processor and the route compute it. *)
Definition last_component (s : string) : string :=
  last (split "." (lower s)) "".

Fixpoint lstrip (s : string) : string :=
  match s with
  | "" => ""
  | String c r => if is_space c then lstrip r else s
  end.

Fixpoint rstrip (s : string) : string :=
  match s with
  | "" => ""
  | String c r =>
      match rstrip r with
      | "" => if is_space c then "" else String c ""
      | r' => String c r'
      end
  end.

(** [s.strip()]. *)
Definition strip (s : string) : string := rstrip (lstrip s).

(** [s.startswith(p)]. *)
Definition startswith (s p : string) : bool := String.prefix p s.

(** [s.endswith(p)]: some tail of [s] is [p]. *)
Fixpoint endswith (s p : string) : bool :=
  String.eqb s p ||
  match s with
  | "" => false
  | String _ r => endswith r p
  end.

(** [s[n:]] and [s[:n]]. *)
Fixpoint drop (n : nat) (s : string) : string :=
  match n, s with
  | O, _ => s
  | S n', String _ r => drop n' r
  | S _, "" => ""
  end.

Fixpoint take (n : nat) (s : string) : string :=
  match n, s with
  | O, _ => ""
  | S n', String c r => String c (take n' r)
  | S _, "" => ""
  end.

(** [s[:-n]] for [0 < n]. *)
Definition drop_last (n : nat) (s : string) : string :=
  take (String.length s - n) s.

(** ["\n".join(ps)]. *)
Definition join_lines (ps : list string) : string :=
  String.concat (String "010" "") ps.

(** [str(n)] for a natural number. *)
Definition str_of_nat (n : nat) : string :=
  NilEmpty.string_of_uint (Nat.to_uint n).

(** ** Records of [app/models/medical.py] *)

Definition bytes := list Byte.byte.
Definition datetime := Z.

(** [class Medicine(BaseModel)]: [id: str], the other fields [Optional]. *)
Record Medicine : Type := {
  med_id : string;
  med_name : option string;
  quantity : option Z;
  timeOfIntake : option string;
  beforeOrAfterMeals : option string
}.

(** [class PrescriptionData(BaseModel)]. *)
Record PrescriptionData : Type := {
  rec_id : option string;
  userId : option string;
  serialNo : option Z;
  patientName : option string;
  age : option Z;
  weight : option spec_float;
  height : option spec_float;
  temperature : option spec_float;
  hospitalName : option string;
  doctorName : option string;
  date : option string;
  medicines : list Medicine;
  reportImages : list string;
  createdAt : option datetime;
  updatedAt : option datetime
}.

(** [prescription.serialNo = idx]. *)
Definition set_serialNo (p : PrescriptionData) (idx : Z) : PrescriptionData :=
  {| rec_id := rec_id p; userId := userId p; serialNo := Some idx;
     patientName := patientName p; age := age p; weight := weight p;
     height := height p; temperature := temperature p;
     hospitalName := hospitalName p; doctorName := doctorName p;
     date := date p; medicines := medicines p;
     reportImages := reportImages p;
     createdAt := createdAt p; updatedAt := updatedAt p |}.

(** [class FileDetail(BaseModel)] and [class PrescriptionUploadRequest(BaseModel)]. *)
Record FileDetail : Type := {
  url : string;
  fileId : string;
  name : string
}.

Record PrescriptionUploadRequest : Type := {
  prescriptionUrls : list string;
  fileDetails : list FileDetail
}.

(** [class PrescriptionResponse(BaseModel)]. *)
Record PrescriptionResponse : Type := {
  success : bool;
  message : string;
  count : nat;
  data : list PrescriptionData
}.

(** The document handed to [PrescriptionQueries.create_prescription]:
    [prescription.model_dump()] with the four keys the route adds. *)
Record prescription_dict : Type := {
  dumped : PrescriptionData;
  imagekit_url : string;
  imagekit_file_id : string;
  original_filename : string;
  user_id : pyval
}.

(** ** Effects *)

(** What a request does to the outside world, in the order it does it: an
    HTTP GET of an image (and whether it succeeded), a call of the model with
    a MIME type and an image, an insert into the database. *)
Inductive event : Type :=
| EvGet (u : string) (ok : bool)
| EvModelCall (mime_type : string) (image : bytes)
| EvInsert (doc : prescription_dict).

(** A computation returns or raises, and leaves a log of events. *)
Definition M (A : Type) : Type := (result A * list event)%type.

Definition ret {A} (a : A) : M A := (Ok a, []).
Definition raise {A} (e : exn) : M A := (Raise e, []).
Definition lift {A} (r : result A) : M A := (r, []).
Definition emit (ev : event) : M unit := (Ok tt, [ev]).

Definition bind {A B} (m : M A) (f : A -> M B) : M B :=
  match m with
  | (Ok a, l) => let '(r, l') := f a in (r, l ++ l')
  | (Raise e, l) => (Raise e, l)
  end.

(** [try: m  except Exception as e: h e]. *)
Definition try_except {A} (m : M A) (h : exn -> M A) : M A :=
  match m with
  | (Ok a, l) => (Ok a, l)
  | (Raise e, l) => let '(r, l') := h e in (r, l ++ l')
  end.

Definition outcome {A} (m : M A) : result A := fst m.
Definition log {A} (m : M A) : list event := snd m.

Declare Scope effect_scope.
Delimit Scope effect_scope with effect.
Notation "x <~ m ;; k" := (bind m (fun x => k))
  (at level 61, m at next level, right associativity) : effect_scope.

(** ** Library functions the code calls *)

(** [json_loads] is [json.loads]; the validators are pydantic's for a non-null
    input of a [str], [int] and [float] field ([None] is a validation error);
    [py_repr] is [str(v)] for a [v] that is not a string. *)
Record Libraries : Type := {
  json_loads : string -> result pyval;
  str_validator : pyval -> option string;
  int_validator : pyval -> option Z;
  float_validator : pyval -> option spec_float;
  py_repr : pyval -> string
}.

(** [self] of [PrescriptionImageProcessor]: [self.client.chat.completions.create]
    as a function of what varies in the request, the MIME type and the image
    bytes of the data URI (the prompt and the sampling options are constants). *)
Record PrescriptionImageProcessor : Type := {
  chat_completions_create : string -> bytes -> result pyval
}.

(** ** [app/utils/image_processor.py] *)

Section ImageProcessor.

Variable L : Libraries.

Local Open Scope result_scope.

(** [str(v)]. *)
Definition py_str (v : pyval) : string :=
  match v with
  | PStr s => s
  | _ => py_repr L v
  end.

(** A field declared [Optional[T]]: [None] is accepted as it is, anything
    else goes through the validator of [T]. *)
Definition optional {A} (validator : pyval -> option A) (x : pyval)
  : result (option A) :=
  match x with
  | PNone => Ok None
  | _ => match validator x with
         | Some a => Ok (Some a)
         | None => Raise ValidationError
         end
  end.

(** [Medicine(id=..., name=..., quantity=..., timeOfIntake=..., beforeOrAfterMeals=...)]. *)
Definition new_Medicine (id : string) (name quantity timeOfIntake beforeOrAfterMeals : pyval)
  : result Medicine :=
  n <- optional (str_validator L) name ;;
  q <- optional (int_validator L) quantity ;;
  t <- optional (str_validator L) timeOfIntake ;;
  b <- optional (str_validator L) beforeOrAfterMeals ;;
  Ok {| med_id := id; med_name := n; quantity := q;
        timeOfIntake := t; beforeOrAfterMeals := b |}.

(** [PrescriptionData(patientName=..., ..., medicines=medicines,
    reportImages=[image_filename])]; the fields not given take their defaults. *)
Definition new_PrescriptionData
  (patientName age weight height temperature hospitalName doctorName date : pyval)
  (medicines : list Medicine) (reportImages : list string)
  : result PrescriptionData :=
  pn <- optional (str_validator L) patientName ;;
  a <- optional (int_validator L) age ;;
  w <- optional (float_validator L) weight ;;
  h <- optional (float_validator L) height ;;
  t <- optional (float_validator L) temperature ;;
  hn <- optional (str_validator L) hospitalName ;;
  dn <- optional (str_validator L) doctorName ;;
  d <- optional (str_validator L) date ;;
  Ok {| rec_id := None; userId := None; serialNo := None;
        patientName := pn; age := a; weight := w; height := h;
        temperature := t; hospitalName := hn; doctorName := dn; date := d;
        medicines := medicines; reportImages := reportImages;
        createdAt := None; updatedAt := None |}.

Definition mime_type_map : list (string * string) :=
  [("jpg", "image/jpeg"); ("jpeg", "image/jpeg"); ("png", "image/png");
   ("gif", "image/gif"); ("webp", "image/webp")].

(** [mime_type_map.get(image_filename.lower().split('.')[-1], 'image/jpeg')]. *)
Definition mime_type_of (image_filename : string) : string :=
  match lookup (last_component image_filename) mime_type_map with
  | Some m => m
  | None => "image/jpeg"
  end.

(** Lines 137-141: the first choice of the response, or [None]. *)
Definition response_choice (response : pyval) : result pyval :=
  has_choices <-
    (if hasattr response "choices"
     then choices <- getattr response "choices" ;;
          n <- py_len choices ;;
          Ok (0 <? n)%nat
     else Ok false) ;;
  if has_choices
  then choices <- getattr response "choices" ;; py_first choices
  else match response with
       | PDict d =>
           let choices := dict_get d "choices" PNone in
           if truthy choices then py_first choices else Ok PNone
       | _ => Ok PNone
       end.

(** Lines 143-155: the content of the choice, or [None]. *)
Definition choice_content (choice : pyval) : result pyval :=
  match choice with
  | PNone => Ok PNone
  | _ =>
      has_content <-
        (if hasattr choice "message"
         then msg <- getattr choice "message" ;; Ok (hasattr msg "content")
         else Ok false) ;;
      if has_content
      then msg <- getattr choice "message" ;; getattr msg "content"
      else match choice with
           | PDict d =>
               let other :=
                 py_or (dict_get d "text" PNone) (dict_get d "content" PNone) in
               match py_or (dict_get d "message" PNone) (PDict []) with
               | PDict msg =>
                   match dict_get msg "content" PNone with
                   | PNone => Ok other
                   | content => Ok content
                   end
               | _ => Ok other
               end
           | _ => Ok PNone
           end
  end.

Definition response_content (response : pyval) : result pyval :=
  choice <- response_choice response ;;
  choice_content choice.

(** [d.get("text") or d.get("value") or d.get("content") or ""]. *)
Definition text_like (d : list (string * pyval)) : pyval :=
  py_or (py_or (py_or (dict_get d "text" PNone) (dict_get d "value" PNone))
               (dict_get d "content" PNone))
        (PStr "").

(** Lines 162-166: what one part of a list content appends to [parts]. *)
Definition part_text (part : pyval) : list string :=
  match part with
  | PStr s => [s]
  | PDict d => [py_str (text_like d)]
  | _ => []
  end.

Definition nonempty (p : string) : bool := negb (String.eqb p "").

(** Lines 157-175: the text of the content. *)
Definition content_text (content : pyval) : string :=
  match content with
  | PStr s => strip s
  | PList l => strip (join_lines (filter nonempty (flat_map part_text l)))
  | PDict d =>
      match text_like d with
      | PStr s => strip s
      | v => py_str v
      end
  | _ => ""
  end.

(** Lines 136-189: the inner [try]; any exception leaves the empty text. *)
Definition extract_text (response : pyval) : string :=
  match response_content response with
  | Ok content => content_text content
  | Raise _ => ""
  end.

(** Lines 191-198: the markdown clean-up. *)
Definition clean_markdown (extracted_text : string) : string :=
  let extracted_text :=
    if startswith extracted_text "```json" then drop 7 extracted_text
    else extracted_text in
  let extracted_text :=
    if startswith extracted_text "```" then drop 3 extracted_text
    else extracted_text in
  let extracted_text :=
    if endswith extracted_text "```" then drop_last 3 extracted_text
    else extracted_text in
  strip extracted_text.

(** Lines 202-211: the loop over [enumerate(...)], from index [idx]. *)
Fixpoint build_medicines (idx : nat) (meds : list pyval) : result (list Medicine) :=
  match meds with
  | [] => Ok []
  | med :: rest =>
      name <- py_get med "name" PNone ;;
      quantity <- py_get med "quantity" PNone ;;
      timeOfIntake <- py_get med "timeOfIntake" PNone ;;
      beforeOrAfterMeals <- py_get med "beforeOrAfterMeals" PNone ;;
      medicine <- new_Medicine ("med_" ++ str_of_nat (idx + 1))
                               name quantity timeOfIntake beforeOrAfterMeals ;;
      medicines <- build_medicines (S idx) rest ;;
      Ok (medicine :: medicines)
  end.

(** Lines 200-226: from the decoded data to the record. *)
Definition build_prescription (extracted_data : pyval) (image_filename : string)
  : result PrescriptionData :=
  meds <- py_get extracted_data "medicines" (PList []) ;;
  meds <- py_iter meds ;;
  medicines <- build_medicines 0 meds ;;
  patientName <- py_get extracted_data "patientName" PNone ;;
  age <- py_get extracted_data "age" PNone ;;
  weight <- py_get extracted_data "weight" PNone ;;
  height <- py_get extracted_data "height" PNone ;;
  temperature <- py_get extracted_data "temperature" PNone ;;
  hospitalName <- py_get extracted_data "hospitalName" PNone ;;
  doctorName <- py_get extracted_data "doctorName" PNone ;;
  date <- py_get extracted_data "date" PNone ;;
  new_PrescriptionData patientName age weight height temperature
                       hospitalName doctorName date medicines [image_filename].

Definition _create_empty_prescription (image_filename : string) : PrescriptionData :=
  {| rec_id := None; userId := None; serialNo := None;
     patientName := None; age := None; weight := None; height := None;
     temperature := None; hospitalName := None; doctorName := None;
     date := None; medicines := []; reportImages := [image_filename];
     createdAt := None; updatedAt := None |}.

(** Lines 228-236: the two [except] clauses.  [extracted_text] is the local
    variable of that name when the exception is raised, [None] while it is not
    yet bound: the first clause formats it into a message, which raises
    [UnboundLocalError] in that case. *)
Definition except_clauses (image_filename : string) (extracted_text : option string)
  (e : exn) : result PrescriptionData :=
  match e with
  | JSONDecodeError =>
      match extracted_text with
      | Some _ => Ok (_create_empty_prescription image_filename)
      | None => Raise UnboundLocalError
      end
  | _ => Ok (_create_empty_prescription image_filename)
  end.

(** [extract_from_image(self, image_bytes, image_filename)].  The model call
    is the only effect; console output is not modelled. *)
Definition extract_from_image (self : PrescriptionImageProcessor)
  (image_bytes : bytes) (image_filename : string) : M PrescriptionData :=
  let mime_type := mime_type_of image_filename in
  match chat_completions_create self mime_type image_bytes with
  | Raise e =>
      (except_clauses image_filename None e, [EvModelCall mime_type image_bytes])
  | Ok response =>
      let extracted_text := clean_markdown (extract_text response) in
      match (extracted_data <- json_loads L extracted_text ;;
             build_prescription extracted_data image_filename) with
      | Ok prescription => (Ok prescription, [EvModelCall mime_type image_bytes])
      | Raise e =>
          (except_clauses image_filename (Some extracted_text) e,
           [EvModelCall mime_type image_bytes])
      end
  end.

Local Open Scope effect_scope.

(** The loop of [process_multiple_images], from index [idx]. *)
Fixpoint process_from (self : PrescriptionImageProcessor) (idx : nat)
  (images : list (bytes * string)) : M (list PrescriptionData) :=
  match images with
  | [] => ret []
  | (image_bytes, filename) :: rest =>
      prescription <~ extract_from_image self image_bytes filename ;;
      let prescription := set_serialNo prescription (Z.of_nat idx) in
      results <~ process_from self (S idx) rest ;;
      ret (prescription :: results)
  end.

Definition process_multiple_images (self : PrescriptionImageProcessor)
  (images : list (bytes * string)) : M (list PrescriptionData) :=
  process_from self 0 images.

End ImageProcessor.

(** ** Instances of the library functions, for running the model *)

(** A text with double quotes, written with apostrophes in their place. *)
Fixpoint dq (s : string) : string :=
  match s with
  | "" => ""
  | String c r => String (if Ascii.eqb c "'" then "034"%char else c) (dq r)
  end.

(** A decoder for the fragment of JSON without fractional or exponent numbers
    and without [\u] escapes (it raises on those, and on the names [NaN] and
    [Infinity] that Python accepts): objects, arrays, strings with the
    one-character escapes, integers, [true], [false], [null]. *)
Module Json.

Definition is_ws (c : ascii) : bool :=
  let n := nat_of_ascii c in
  ((n =? 32) || (n =? 9) || (n =? 10) || (n =? 13))%nat.

Fixpoint skip_ws (s : string) : string :=
  match s with
  | "" => ""
  | String c r => if is_ws c then skip_ws r else s
  end.

Definition digit (c : ascii) : option Z :=
  let n := nat_of_ascii c in
  if ((48 <=? n) && (n <=? 57))%nat then Some (Z.of_nat (n - 48)) else None.

Definition unescape (c : ascii) : option ascii :=
  match c with
  | "034"%char => Some "034"%char
  | "\"%char => Some "\"%char
  | "/"%char => Some "/"%char
  | "b"%char => Some "008"%char
  | "f"%char => Some "012"%char
  | "n"%char => Some "010"%char
  | "r"%char => Some "013"%char
  | "t"%char => Some "009"%char
  | _ => None
  end.

Definition prepend (c : ascii) (r : option (string * string)) : option (string * string) :=
  match r with
  | Some (s, rest) => Some (String c s, rest)
  | None => None
  end.

(** The characters after an opening quote, up to the closing one. *)
Fixpoint scan_string (s : string) : option (string * string) :=
  match s with
  | "" => None
  | String c r =>
      if Ascii.eqb c "034" then Some ("", r)
      else if Ascii.eqb c "\" then
        match r with
        | String e r' =>
            match unescape e with
            | Some ch => prepend ch (scan_string r')
            | None => None
            end
        | "" => None
        end
      else if (nat_of_ascii c <? 32)%nat then None
      else prepend c (scan_string r)
  end.

Fixpoint scan_digits (acc : Z) (s : string) : Z * string :=
  match s with
  | "" => (acc, "")
  | String c r =>
      match digit c with
      | Some d => scan_digits (10 * acc + d) r
      | None => (acc, s)
      end
  end.

Definition starts_fraction (s : string) : bool :=
  match s with
  | String c _ => Ascii.eqb c "." || Ascii.eqb c "e" || Ascii.eqb c "E"
  | "" => false
  end.

(** An integer literal: no leading zero, no fraction, no exponent. *)
Definition scan_int (s : string) : option (Z * string) :=
  match s with
  | String c r =>
      match digit c with
      | Some 0%Z => if starts_fraction r then None
                    else match r with
                         | String c' _ => match digit c' with
                                          | Some _ => None
                                          | None => Some (0%Z, r)
                                          end
                         | "" => Some (0%Z, r)
                         end
      | Some d => let '(z, rest) := scan_digits d r in
                  if starts_fraction rest then None else Some (z, rest)
      | None => None
      end
  | "" => None
  end.

(** [d[k] = v]. *)
Fixpoint dict_set (k : string) (v : pyval) (d : list (string * pyval))
  : list (string * pyval) :=
  match d with
  | [] => [(k, v)]
  | (k', v') :: d' =>
      if String.eqb k k' then (k, v) :: d' else (k', v') :: dict_set k v d'
  end.

Fixpoint value (fuel : nat) (s : string) : option (pyval * string) :=
  match fuel with
  | O => None
  | S fuel' =>
      match s with
      | String "{" r =>
          match skip_ws r with
          | String "}" r' => Some (PDict [], r')
          | r' => match members fuel' [] r' with
                  | Some (d, rest) => Some (PDict d, rest)
                  | None => None
                  end
          end
      | String "[" r =>
          match skip_ws r with
          | String "]" r' => Some (PList [], r')
          | r' => match elements fuel' r' with
                  | Some (l, rest) => Some (PList l, rest)
                  | None => None
                  end
          end
      | String "034" r =>
          match scan_string r with
          | Some (str, rest) => Some (PStr str, rest)
          | None => None
          end
      | String "-" r =>
          match scan_int r with
          | Some (z, rest) => Some (PInt (- z), rest)
          | None => None
          end
      | _ =>
          if String.prefix "null" s then Some (PNone, drop 4 s)
          else if String.prefix "true" s then Some (PBool true, drop 4 s)
          else if String.prefix "false" s then Some (PBool false, drop 5 s)
          else match scan_int s with
               | Some (z, rest) => Some (PInt z, rest)
               | None => None
               end
      end
  end
with elements (fuel : nat) (s : string) : option (list pyval * string) :=
  match fuel with
  | O => None
  | S fuel' =>
      match value fuel' s with
      | Some (v, rest) =>
          match skip_ws rest with
          | String "," r =>
              match elements fuel' (skip_ws r) with
              | Some (l, rest') => Some (v :: l, rest')
              | None => None
              end
          | String "]" r => Some ([v], r)
          | _ => None
          end
      | None => None
      end
  end
with members (fuel : nat) (acc : list (string * pyval)) (s : string)
  : option (list (string * pyval) * string) :=
  match fuel with
  | O => None
  | S fuel' =>
      match s with
      | String "034" r =>
          match scan_string r with
          | Some (k, rest) =>
              match skip_ws rest with
              | String ":" r' =>
                  match value fuel' (skip_ws r') with
                  | Some (v, rest') =>
                      let acc := dict_set k v acc in
                      match skip_ws rest' with
                      | String "," r'' => members fuel' acc (skip_ws r'')
                      | String "}" r'' => Some (acc, r'')
                      | _ => None
                      end
                  | None => None
                  end
              | _ => None
              end
          | None => None
          end
      | _ => None
      end
  end.

Definition loads (s : string) : result pyval :=
  match value (S (String.length s)) (skip_ws s) with
  | Some (v, rest) =>
      match skip_ws rest with
      | "" => Ok v
      | _ => Raise JSONDecodeError
      end
  | None => Raise JSONDecodeError
  end.

End Json.

(** Validators that accept exactly the values of the field's own type.  They
    accept less than pydantic's default mode, which also converts some values
    of other types; both reject a text that is not a number for an [int]. *)
Definition exact_str (v : pyval) : option string :=
  match v with PStr s => Some s | _ => None end.

Definition exact_int (v : pyval) : option Z :=
  match v with PInt z => Some z | _ => None end.

Definition exact_float (v : pyval) : option spec_float :=
  match v with PFloat f => Some f | _ => None end.

(** [str(v)] of [None], a [bool] and an [int]; any other value is given a
    fixed text. *)
Definition simple_repr (v : pyval) : string :=
  match v with
  | PNone => "None"
  | PBool true => "True"
  | PBool false => "False"
  | PStr s => s
  | PInt (Z0) => "0"
  | PInt (Zpos p) => str_of_nat (Pos.to_nat p)
  | PInt (Zneg p) => "-" ++ str_of_nat (Pos.to_nat p)
  | _ => "<object>"
  end.

Definition reference : Libraries :=
  {| json_loads := Json.loads;
     str_validator := exact_str;
     int_validator := exact_int;
     float_validator := exact_float;
     py_repr := simple_repr |}.

(** ** [app/routes/medical.py]: the upload route *)

(** What the route reaches outside the program: the constructor of the
    processor (it builds the model client and may raise), the HTTP GET of an
    image followed by [raise_for_status] ([HTTPError] covers a status or a
    transport error), the insert of the database driver (it returns the new
    id), the clock ([utcnow n] is what [datetime.utcnow()] returns the
    [n]-th time the request reads it, from 0), and [str(e)] of an exception.
    Within one request a URL, and a document, always meet the same outcome. *)
Record World : Type := {
  new_processor : result PrescriptionImageProcessor;
  http_get : string -> result bytes;
  insert_one : prescription_dict -> result string;
  utcnow : nat -> datetime;
  exn_str : exn -> string
}.

Definition HTTP_400_BAD_REQUEST : Z := 400.
Definition HTTP_500_INTERNAL_SERVER_ERROR : Z := 500.

Definition allowed_extensions : list string :=
  [".jpg"; ".jpeg"; ".png"; ".gif"; ".webp"].

(** ['.' + file_detail.name.lower().split('.')[-1]]. *)
Definition file_extension (file_name : string) : string :=
  "." ++ last_component file_name.

Definition allowed (file_name : string) : bool :=
  existsb (String.eqb (file_extension file_name)) allowed_extensions.

Definition no_urls_detail : string :=
  "No prescription URLs provided. Please upload at least one image.".

Definition invalid_type_detail (file_name : string) : string :=
  "Invalid file type for " ++ file_name
  ++ ". Allowed types: jpg, jpeg, png, gif, webp".

Definition download_failed_detail (u : string) : string :=
  "Failed to download image from URL: " ++ u.

(** Lines 30-36: the loop over [request.fileDetails]. *)
Fixpoint validate_extensions (file_details : list FileDetail) : result unit :=
  match file_details with
  | [] => Ok tt
  | file_detail :: rest =>
      if allowed (name file_detail) then validate_extensions rest
      else Raise (HTTPException HTTP_400_BAD_REQUEST
                                (invalid_type_detail (name file_detail)))
  end.

(** Lines 21-36: the checks made before the [try]. *)
Definition validate_request (request : PrescriptionUploadRequest) : result unit :=
  match prescriptionUrls request with
  | [] => Raise (HTTPException HTTP_400_BAD_REQUEST no_urls_detail)
  | _ => validate_extensions (fileDetails request)
  end.

Section Route.

Variable L : Libraries.
Variable W : World.

Local Open Scope effect_scope.

(** Lines 44-55: the download loop. *)
Fixpoint download (file_details : list FileDetail) : M (list (bytes * string)) :=
  match file_details with
  | [] => ret []
  | file_detail :: rest =>
      match http_get W (url file_detail) with
      | Ok image_bytes =>
          _ <~ emit (EvGet (url file_detail) true) ;;
          image_data <~ download rest ;;
          ret ((image_bytes, name file_detail) :: image_data)
      | Raise HTTPError =>
          _ <~ emit (EvGet (url file_detail) false) ;;
          raise (HTTPException HTTP_400_BAD_REQUEST
                               (download_failed_detail (url file_detail)))
      | Raise e =>
          _ <~ emit (EvGet (url file_detail) false) ;;
          raise e
      end
  end.

(** [PrescriptionQueries.create_prescription], then the [PrescriptionData]
    built from what it returns: the record that was dumped, with the id and
    the two timestamps.  The query reads the clock twice, for [createdAt] and
    then for [updatedAt]; nothing else of the request reads it, so that the
    query of the record at index [i] makes the readings [2 * i] and
    [2 * i + 1]. *)
Definition create_prescription (i : nat) (doc : prescription_dict)
  : M PrescriptionData :=
  _ <~ emit (EvInsert doc) ;;
  inserted_id <~ lift (insert_one W doc) ;;
  let p := dumped doc in
  ret {| rec_id := Some inserted_id; userId := userId p; serialNo := serialNo p;
         patientName := patientName p; age := age p; weight := weight p;
         height := height p; temperature := temperature p;
         hospitalName := hospitalName p; doctorName := doctorName p;
         date := date p; medicines := medicines p;
         reportImages := reportImages p;
         createdAt := Some (utcnow W (2 * i));
         updatedAt := Some (utcnow W (2 * i + 1)) |}.

(** [request.fileDetails[i]]. *)
Definition file_detail_at (request : PrescriptionUploadRequest) (i : nat)
  : result FileDetail :=
  match nth_error (fileDetails request) i with
  | Some file_detail => Ok file_detail
  | None => Raise IndexError
  end.

(** Lines 64-74: the loop that saves the records, from index [i]. *)
Fixpoint save_from (request : PrescriptionUploadRequest)
  (current_user : list (string * pyval)) (i : nat)
  (prescriptions : list PrescriptionData) : M (list PrescriptionData) :=
  match prescriptions with
  | [] => ret []
  | prescription :: rest =>
      file_detail <~ lift (file_detail_at request i) ;;
      let prescription_dict :=
        {| dumped := prescription;
           imagekit_url := url file_detail;
           imagekit_file_id := fileId file_detail;
           original_filename := name file_detail;
           user_id := py_or (dict_get current_user "id" PNone)
                            (dict_get current_user "_id" PNone) |} in
      saved <~ create_prescription i prescription_dict ;;
      saved_prescriptions <~ save_from request current_user (S i) rest ;;
      ret (saved :: saved_prescriptions)
  end.

Definition processed_message (n : nat) : string :=
  "Successfully processed " ++ str_of_nat n ++ " prescription image(s)".

(** Lines 38-81: the body of the [try]. *)
Definition upload_body (request : PrescriptionUploadRequest)
  (current_user : list (string * pyval)) : M PrescriptionResponse :=
  processor <~ lift (new_processor W) ;;
  image_data <~ download (fileDetails request) ;;
  prescriptions <~ process_multiple_images L processor image_data ;;
  saved_prescriptions <~ save_from request current_user 0 prescriptions ;;
  ret {| success := true;
         message := processed_message (List.length prescriptions);
         count := List.length saved_prescriptions;
         data := saved_prescriptions |}.

(** Lines 83-90: an [HTTPException] passes, anything else becomes a 500. *)
Definition upload_except (e : exn) : M PrescriptionResponse :=
  match e with
  | HTTPException status_code detail => raise (HTTPException status_code detail)
  | _ => raise (HTTPException HTTP_500_INTERNAL_SERVER_ERROR
                              ("Error processing images: " ++ exn_str W e))
  end.

(** [extract_prescription_data(request, current_user)]. *)
Definition extract_prescription_data (request : PrescriptionUploadRequest)
  (current_user : list (string * pyval)) : M PrescriptionResponse :=
  _ <~ lift (validate_request request) ;;
  try_except (upload_body request current_user) upload_except.

End Route.

(** ** Inputs for running the model *)

(** The response object of the client, with [content] as the content of the
    message of its only choice. *)
Definition completion (content : pyval) : pyval :=
  PObj [("choices", PList [PObj [("message", PObj [("content", content)])]])].

(** A client that returns [response] whatever it is asked. *)
Definition answering (response : pyval) : PrescriptionImageProcessor :=
  {| chat_completions_create := fun _ _ => Ok response |}.

(** A client whose every call raises [e]. *)
Definition failing (e : exn) : PrescriptionImageProcessor :=
  {| chat_completions_create := fun _ _ => Raise e |}.

(** A client that answers every image with the empty JSON object, except
    that its call raises [JSONDecodeError] for a PNG image. *)
Definition png_averse : PrescriptionImageProcessor :=
  {| chat_completions_create := fun mime_type _ =>
       if String.eqb mime_type "image/png" then Raise JSONDecodeError
       else Ok (completion (PStr "{}")) |}.

(** [t] between markdown code fences, the opening one tagged [tag]. *)
Definition fence (tag t : string) : string :=
  ("```" ++ tag ++ String "010" (t ++ String "010" "```"))%string.

(** One part of a list content: the string itself, or a mapping with the
    string under the key [text]. *)
Definition as_part (part : bool * string) : pyval :=
  if fst part then PStr (snd part) else PDict [("text", PStr (snd part))].

(** A model output that is already fenced. *)
Definition fenced_output : string := fence "json" (dq "{'age': 5}").

(** A model output whose only medicine has a quantity that is not a number. *)
Definition tablets_output : string :=
  dq "{'medicines': [{'id': 'x', 'name': 'A', 'quantity': '10 tablets'}]}".

(** A model output with identifiers of its own in the medicines. *)
Definition two_medicines_output : string :=
  dq "{'medicines': [{'id': 'x', 'name': 'A', 'quantity': 10}, {'id': 'med_7'}]}".

(** A model output with one scalar and nothing else. *)
Definition name_only_output : string := dq "{'patientName': 'Bo'}".

(** A model output with a name, and an age that is not a number. *)
Definition invalid_age_output : string := dq "{'patientName': 'Bo', 'age': 'old'}".

(** [sub in s]. *)
Definition contains (s sub : string) : bool :=
  match String.index 0 sub s with
  | Some _ => true
  | None => false
  end.

(** The identifiers [med_1 .. med_k]. *)
Definition med_ids (k : nat) : list string :=
  map (fun i => ("med_" ++ str_of_nat i)%string) (seq 1 k).

Definition file_detail (u file_id file_name : string) : FileDetail :=
  {| url := u; fileId := file_id; name := file_name |}.

(** The client does not answer any image of the batch with a
    [JSONDecodeError]. *)
Definition no_decode_error (self : PrescriptionImageProcessor)
  (images : list (bytes * string)) : Prop :=
  forall image_bytes filename,
    In (image_bytes, filename) images ->
    chat_completions_create self (mime_type_of filename) image_bytes
      <> Raise JSONDecodeError.

(** The kind of an event. *)
Definition is_get (ev : event) : bool :=
  match ev with EvGet _ _ => true | _ => false end.
Definition is_model_call (ev : event) : bool :=
  match ev with EvModelCall _ _ => true | _ => false end.
Definition is_insert (ev : event) : bool :=
  match ev with EvInsert _ => true | _ => false end.

(** The events of the three phases of a request. *)
Definition get_events (file_details : list FileDetail) : list event :=
  map (fun file_detail => EvGet (url file_detail) true) file_details.
Definition model_call_events (images : list (bytes * string)) : list event :=
  map (fun image => EvModelCall (mime_type_of (snd image)) (fst image)) images.
Definition insert_events (docs : list prescription_dict) : list event :=
  map EvInsert docs.

(** A world in which the processor is [processor], the download of a URL gives
    the bytes of the URL itself (so that two images differ), every insert
    returns the id [inserted_id], and the clock advances by one at each
    reading. *)
Definition steady_world (processor : PrescriptionImageProcessor)
  (inserted_id : string) : World :=
  {| new_processor := Ok processor;
     http_get := fun u => Ok (list_byte_of_string u);
     insert_one := fun _ => Ok inserted_id;
     utcnow := Z.of_nat;
     exn_str := fun _ => "error" |}.

(** The same world, except that the download of [broken] fails. *)
Definition world_without (broken : string) (processor : PrescriptionImageProcessor)
  (inserted_id : string) : World :=
  {| new_processor := Ok processor;
     http_get := fun u => if String.eqb u broken then Raise HTTPError
                          else Ok (list_byte_of_string u);
     insert_one := fun _ => Ok inserted_id;
     utcnow := Z.of_nat;
     exn_str := fun _ => "error" |}.

(** A world in which the processor cannot be built: without an API key the
    constructor of the model client raises. *)
Definition keyless_world : World :=
  {| new_processor := Raise (OtherError "OpenAIError");
     http_get := fun u => Ok (list_byte_of_string u);
     insert_one := fun _ => Ok "id";
     utcnow := Z.of_nat;
     exn_str := fun _ => "The api_key client option must be set" |}.

(** A processor that reads a patient name off every image. *)
Definition reader : PrescriptionImageProcessor :=
  answering (completion (PStr name_only_output)).

(** Requests: two images; the same with a text file among them; a text file
    and no URL; URLs and no file. *)
Definition two_images : PrescriptionUploadRequest :=
  {| prescriptionUrls := ["http://img/1"; "http://img/2"];
     fileDetails := [file_detail "http://img/1" "f1" "rx1.jpg";
                     file_detail "http://img/2" "f2" "rx2.PNG"] |}.

Definition with_text_file : PrescriptionUploadRequest :=
  {| prescriptionUrls := ["http://img/1"; "http://img/2"];
     fileDetails := [file_detail "http://img/1" "f1" "rx1.jpg";
                     file_detail "http://img/2" "f2" "notes.txt"] |}.

Definition text_file_no_url : PrescriptionUploadRequest :=
  {| prescriptionUrls := [];
     fileDetails := [file_detail "http://img/2" "f2" "notes.txt"] |}.

Definition urls_no_file : PrescriptionUploadRequest :=
  {| prescriptionUrls := ["http://img/1"]; fileDetails := [] |}.

Definition some_user : list (string * pyval) := [("id", PStr "u1")].

(** What the request [two_images] returns in a steady world with [reader]. *)
Definition data_of_two_images : list PrescriptionData :=
  map (fun p => {| rec_id := Some "id"; userId := None; serialNo := Some (fst p);
                   patientName := Some "Bo"; age := None; weight := None;
                   height := None; temperature := None; hospitalName := None;
                   doctorName := None; date := None; medicines := [];
                   reportImages := [snd p];
                   createdAt := Some (2 * fst p)%Z;
                   updatedAt := Some (2 * fst p + 1)%Z |})
      [(0%Z, "rx1.jpg"); (1%Z, "rx2.PNG")].

(** ** Further response shapes *)

(** The same response as [completion], as plain mappings. *)
Definition completion_mapping (content : pyval) : pyval :=
  PDict [("choices", PList [PDict [("message", PDict [("content", content)])]])].

(** No character of [s] is a dot. *)
Fixpoint no_dot (s : string) : bool :=
  match s with
  | "" => true
  | String c r => negb (Ascii.eqb c ".") && no_dot r
  end.

(** ** [app/db/queries.py]: users and stored prescriptions *)

(** [del d[k]] on a dict that holds [k]. *)
Fixpoint dict_del (k : string) (d : list (string * pyval)) : list (string * pyval) :=
  match d with
  | [] => []
  | (k', v) :: d' => if String.eqb k k' then d' else (k', v) :: dict_del k d'
  end.

(** The users collection: [ObjectId(user_id)], which raises on a value that is
    no id, and [find_one] by id, which returns a document or [None]. *)
Record UsersCollection : Type := {
  ObjectId : pyval -> result pyval;
  find_one : pyval -> result pyval
}.

(** [UserQueries.get_user_by_id(collection, user_id)]: the document found,
    with its [_id] moved, as text, to the key [id]. *)
Definition get_user_by_id (L : Libraries) (collection : UsersCollection)
  (user_id : pyval) : result pyval :=
  (oid <- ObjectId collection user_id ;;
   user <- find_one collection oid ;;
   if truthy user
   then match user with
        | PDict d =>
            match lookup "_id" d with
            | Some v => Ok (PDict (dict_del "_id" (Json.dict_set "id" (PStr (py_str L v)) d)))
            | None => Raise KeyError
            end
        | _ => Raise TypeError
        end
   else Ok user)%result.

(** The medical records collection: the page of documents that
    [find().skip(skip).limit(limit).sort(...)] gives, and which objects are
    instances of [ObjectId]. *)
Record RecordsCollection : Type := {
  find_page : Z -> Z -> result (list (list (string * pyval)));
  ObjectId_instance : list (string * pyval) -> bool
}.

(** [isinstance(v, ObjectId)]. *)
Definition is_ObjectId (collection : RecordsCollection) (v : pyval) : bool :=
  match v with
  | PObj attrs => ObjectId_instance collection attrs
  | _ => false
  end.

(** [if k in doc and isinstance(doc[k], ObjectId): doc[k] = str(doc[k])]. *)
Definition stringify_id (L : Libraries) (collection : RecordsCollection)
  (k : string) (doc : list (string * pyval)) : list (string * pyval) :=
  match lookup k doc with
  | Some v =>
      if is_ObjectId collection v then Json.dict_set k (PStr (py_str L v)) doc
      else doc
  | None => doc
  end.

(** [LoggingHelper.log_error(error, context = "", **kwargs)] of
    [app/utils/helpers.py], called with [error], [context] and the further
    positional arguments [more]: the function takes two arguments by
    position, and its body only writes to the log. *)
Definition log_error {A : Type} (error : exn) (context : string) (more : list A)
  : result unit :=
  match more with
  | [] => Ok tt
  | _ :: _ => Raise TypeError
  end.

(** [PrescriptionQueries.get_all_prescriptions(skip, limit)]: the handler logs
    with [log_error(e, "...", {"skip": skip, "limit": limit})], then
    re-raises. *)
Definition get_all_prescriptions_query (L : Libraries) (collection : RecordsCollection)
  (skip limit : Z) : result (list (list (string * pyval))) :=
  match find_page collection skip limit with
  | Ok prescriptions =>
      Ok (map (fun prescription =>
                 stringify_id L collection "userId"
                   (stringify_id L collection "_id" prescription))
              prescriptions)
  | Raise e =>
      (_ <- log_error e "Error fetching all prescriptions"
              [PDict [("skip", PInt skip); ("limit", PInt limit)]] ;;
       Raise e)%result
  end.

(** The insert as [PrescriptionQueries.create_prescription] makes it, with
    [insert_one W] for the driver: the handler logs with
    [log_error(e, "...", {"data": prescription_data})], then re-raises. *)
Definition PrescriptionQueries_create_prescription (W : World)
  (prescription_data : prescription_dict) : result string :=
  match insert_one W prescription_data with
  | Ok inserted_id => Ok inserted_id
  | Raise e =>
      (_ <- log_error e "Error creating prescription" [prescription_data] ;;
       Raise e)%result
  end.

(** The world of a route that reaches the driver through
    [PrescriptionQueries]. *)
Definition through_queries (W : World) : World :=
  {| new_processor := new_processor W;
     http_get := http_get W;
     insert_one := PrescriptionQueries_create_prescription W;
     utcnow := utcnow W;
     exn_str := exn_str W |}.

(** The response of [GET /medicine/usersMedicalData]. *)
Record PrescriptionList : Type := {
  list_success : bool;
  list_count : nat;
  list_data : list (list (string * pyval))
}.

(** [get_all_prescriptions(skip, limit, current_user)] of
    [app/routes/medical.py]; [exn_text] is [str(e)]. *)
Definition get_all_prescriptions (L : Libraries) (collection : RecordsCollection)
  (exn_text : exn -> string) (skip limit : Z)
  (current_user : list (string * pyval)) : result PrescriptionList :=
  match get_all_prescriptions_query L collection skip limit with
  | Ok prescriptions =>
      Ok {| list_success := true;
            list_count := List.length prescriptions;
            list_data := prescriptions |}
  | Raise e =>
      Raise (HTTPException HTTP_500_INTERNAL_SERVER_ERROR
                           ("Error fetching prescriptions: " ++ exn_text e))
  end.

(** ** [app/utils/auth.py]: the current user *)

(** [AuthUtils.verify_token], which returns the payload or [None] and never
    raises, and [get_users_collection]. *)
Record Auth : Type := {
  verify_token : string -> option (list (string * pyval));
  get_users_collection : result UsersCollection
}.

Definition HTTP_401_UNAUTHORIZED : Z := 401.

Definition invalid_credentials : exn :=
  HTTPException HTTP_401_UNAUTHORIZED "Invalid authentication credentials".

(** The body of the [try] of [get_current_user]. *)
Definition current_user_body (L : Libraries) (A : Auth) (token : string)
  : result pyval :=
  match verify_token A token with
  | None => Raise invalid_credentials
  | Some payload =>
      match dict_get payload "sub" PNone with
      | PNone => Raise invalid_credentials
      | user_id =>
          (users_collection <- get_users_collection A ;;
           user <- get_user_by_id L users_collection user_id ;;
           match user with
           | PNone => Raise (HTTPException HTTP_401_UNAUTHORIZED "User not found")
           | _ => Ok user
           end)%result
      end
  end.

(** [get_current_user(credentials)], on the token of the credentials. *)
Definition get_current_user (L : Libraries) (A : Auth) (token : string)
  : result pyval :=
  match current_user_body L A token with
  | Ok user => Ok user
  | Raise (HTTPException status_code detail) =>
      Raise (HTTPException status_code detail)
  | Raise _ =>
      Raise (HTTPException HTTP_401_UNAUTHORIZED "Could not validate credentials")
  end.


(** ** [app/utils/helpers.py]: pagination *)

Record Pagination : Type := {
  page : Z;
  limit : Z;
  total : Z;
  totalPages : Z;
  hasNext : bool;
  hasPrev : bool
}.

(** [a // b]. *)
Definition floordiv (a b : Z) : result Z :=
  if Z.eqb b 0 then Raise (OtherError "ZeroDivisionError") else Ok (a / b)%Z.

(** [PaginationHelper.calculate_pagination(page, limit, total)]. *)
Definition calculate_pagination (page limit total : Z) : result Pagination :=
  (total_pages <- (if (0 <? total)%Z then floordiv (total + limit - 1) limit
                   else Ok 0%Z) ;;
   Ok {| page := page; limit := limit; total := total;
         totalPages := total_pages;
         hasNext := (page <? total_pages)%Z;
         hasPrev := (1 <? page)%Z |})%result.

(** [PaginationHelper.get_skip_value(page, limit)]. *)
Definition get_skip_value (page limit : Z) : Z := ((page - 1) * limit)%Z.

(** What the entry [med] of the output gives the line item [m]. *)
Definition medicine_of_entry (L : Libraries) (med : pyval) (m : Medicine) : Prop :=
  exists d,
    med = PDict d
    /\ optional (str_validator L) (dict_get d "name" PNone) = Ok (med_name m)
    /\ optional (int_validator L) (dict_get d "quantity" PNone) = Ok (quantity m)
    /\ optional (str_validator L) (dict_get d "timeOfIntake" PNone)
       = Ok (timeOfIntake m)
    /\ optional (str_validator L) (dict_get d "beforeOrAfterMeals" PNone)
       = Ok (beforeOrAfterMeals m).

(** ** Values that pass the record validation *)

(** A value given to a field declared [Optional[T]] passes when it is [None]
    or the validator of [T] accepts it, and fails otherwise; [validated] is
    what the field then holds. *)
Definition passes_validation {A} (validator : pyval -> option A) (x : pyval) : Prop :=
  x = PNone \/ exists a, validator x = Some a.

Definition fails_validation {A} (validator : pyval -> option A) (x : pyval) : Prop :=
  x <> PNone /\ validator x = None.

Definition validated {A} (validator : pyval -> option A) (x : pyval) : option A :=
  match x with
  | PNone => None
  | _ => validator x
  end.

(** An entry of [medicines] passes when it is an object whose four fields,
    where it has them, pass; it fails when it is no object or one of the
    fields it has fails. *)
Definition entry_passes (L : Libraries) (med : pyval) : Prop :=
  exists m,
    med = PDict m
    /\ passes_validation (str_validator L) (dict_get m "name" PNone)
    /\ passes_validation (int_validator L) (dict_get m "quantity" PNone)
    /\ passes_validation (str_validator L) (dict_get m "timeOfIntake" PNone)
    /\ passes_validation (str_validator L) (dict_get m "beforeOrAfterMeals" PNone).

Definition entry_fails (L : Libraries) (med : pyval) : Prop :=
  match med with
  | PDict m =>
      fails_validation (str_validator L) (dict_get m "name" PNone)
      \/ fails_validation (int_validator L) (dict_get m "quantity" PNone)
      \/ fails_validation (str_validator L) (dict_get m "timeOfIntake" PNone)
      \/ fails_validation (str_validator L) (dict_get m "beforeOrAfterMeals" PNone)
  | _ => True
  end.

(** The line item of the entry [m] that passes, with the identifier [id]. *)
Definition validated_medicine (L : Libraries) (id : string)
  (m : list (string * pyval)) : Medicine :=
  {| med_id := id;
     med_name := validated (str_validator L) (dict_get m "name" PNone);
     quantity := validated (int_validator L) (dict_get m "quantity" PNone);
     timeOfIntake := validated (str_validator L) (dict_get m "timeOfIntake" PNone);
     beforeOrAfterMeals :=
       validated (str_validator L) (dict_get m "beforeOrAfterMeals" PNone) |}.

(** The eight scalars of the object [d], where it has them, pass; one of
    them fails. *)
Definition scalars_pass (L : Libraries) (d : list (string * pyval)) : Prop :=
  passes_validation (str_validator L) (dict_get d "patientName" PNone)
  /\ passes_validation (int_validator L) (dict_get d "age" PNone)
  /\ passes_validation (float_validator L) (dict_get d "weight" PNone)
  /\ passes_validation (float_validator L) (dict_get d "height" PNone)
  /\ passes_validation (float_validator L) (dict_get d "temperature" PNone)
  /\ passes_validation (str_validator L) (dict_get d "hospitalName" PNone)
  /\ passes_validation (str_validator L) (dict_get d "doctorName" PNone)
  /\ passes_validation (str_validator L) (dict_get d "date" PNone).

Definition scalar_fails (L : Libraries) (d : list (string * pyval)) : Prop :=
  fails_validation (str_validator L) (dict_get d "patientName" PNone)
  \/ fails_validation (int_validator L) (dict_get d "age" PNone)
  \/ fails_validation (float_validator L) (dict_get d "weight" PNone)
  \/ fails_validation (float_validator L) (dict_get d "height" PNone)
  \/ fails_validation (float_validator L) (dict_get d "temperature" PNone)
  \/ fails_validation (str_validator L) (dict_get d "hospitalName" PNone)
  \/ fails_validation (str_validator L) (dict_get d "doctorName" PNone)
  \/ fails_validation (str_validator L) (dict_get d "date" PNone).

(** The record of the object [d] whose values pass, with the line items
    [medicines], for the image [image_filename]. *)
Definition validated_record (L : Libraries) (d : list (string * pyval))
  (medicines : list Medicine) (image_filename : string) : PrescriptionData :=
  {| rec_id := None; userId := None; serialNo := None;
     patientName := validated (str_validator L) (dict_get d "patientName" PNone);
     age := validated (int_validator L) (dict_get d "age" PNone);
     weight := validated (float_validator L) (dict_get d "weight" PNone);
     height := validated (float_validator L) (dict_get d "height" PNone);
     temperature := validated (float_validator L) (dict_get d "temperature" PNone);
     hospitalName := validated (str_validator L) (dict_get d "hospitalName" PNone);
     doctorName := validated (str_validator L) (dict_get d "doctorName" PNone);
     date := validated (str_validator L) (dict_get d "date" PNone);
     medicines := medicines; reportImages := [image_filename];
     createdAt := None; updatedAt := None |}.

(** ** What a request stores *)

(** The file a stored document says it comes from. *)
Definition provenance (doc : prescription_dict) : FileDetail :=
  {| url := imagekit_url doc; fileId := imagekit_file_id doc;
     name := original_filename doc |}.

(** The record [p] with the id of its insert and the two timestamps. *)
Definition stored_record (inserted_id : string) (created updated : datetime)
  (p : PrescriptionData) : PrescriptionData :=
  {| rec_id := Some inserted_id; userId := userId p; serialNo := serialNo p;
     patientName := patientName p; age := age p; weight := weight p;
     height := height p; temperature := temperature p;
     hospitalName := hospitalName p; doctorName := doctorName p;
     date := date p; medicines := medicines p;
     reportImages := reportImages p;
     createdAt := Some created; updatedAt := Some updated |}.

(** The insert of [doc], the document at index [i] of its request, succeeded
    and gave the record [saved]: [createdAt] is the reading [2 * i] of the
    clock and [updatedAt] the next one. *)
Definition stored_as (W : World) (i : nat) (doc : prescription_dict)
  (saved : PrescriptionData) : Prop :=
  exists inserted_id,
    insert_one W doc = Ok inserted_id
    /\ saved = stored_record inserted_id (utcnow W (2 * i)) (utcnow W (2 * i + 1))
                 (dumped doc).

(** [current_user.get('id') or current_user.get('_id')]. *)
Definition owner_of (current_user : list (string * pyval)) : pyval :=
  py_or (dict_get current_user "id" PNone) (dict_get current_user "_id" PNone).

(** ** Further inputs for running the model *)

(** A model output with fields in its one medicine. *)
Definition one_medicine_output : string :=
  dq "{'medicines': [{'name': 'A', 'quantity': 2, 'timeOfIntake': 'Morning'}]}".

(** A model output that is JSON and no object. *)
Definition array_output : string := dq "[{'patientName': 'Bo'}]".

(** A world like [steady_world], in which the insert of the record numbered
    [1] fails. *)
Definition world_failing_second_insert (processor : PrescriptionImageProcessor)
  (inserted_id : string) : World :=
  {| new_processor := Ok processor;
     http_get := fun u => Ok (list_byte_of_string u);
     insert_one := fun doc =>
       match serialNo (dumped doc) with
       | Some 1%Z => Raise (OtherError "ServerSelectionTimeoutError")
       | _ => Ok inserted_id
       end;
     utcnow := Z.of_nat;
     exn_str := fun e =>
       match e with
       | TypeError => "LoggingHelper.log_error() takes from 1 to 2 positional arguments but 3 were given"
       | _ => "error"
       end |}.

(** The document of the second file of [two_images], as read by [reader]. *)
Definition second_document : prescription_dict :=
  {| dumped := {| rec_id := None; userId := None; serialNo := Some 1%Z;
                  patientName := Some "Bo"; age := None; weight := None;
                  height := None; temperature := None; hospitalName := None;
                  doctorName := None; date := None; medicines := [];
                  reportImages := ["rx2.PNG"];
                  createdAt := None; updatedAt := None |};
     imagekit_url := "http://img/2";
     imagekit_file_id := "f2";
     original_filename := "rx2.PNG";
     user_id := PStr "u1" |}.

(** A users collection with one user, whose id is the object [oid]. *)
Definition one_user (oid : pyval) : UsersCollection :=
  {| ObjectId := fun user_id =>
       match user_id with
       | PStr s =>
           if String.eqb s "507f1f77bcf86cd799439011" then Ok oid
           else Raise (OtherError "InvalidId")
       | _ => Raise (OtherError "InvalidId")
       end;
     find_one := fun v =>
       match v with
       | PObj _ => Ok (PDict [("_id", v); ("name", PStr "Bo")])
       | _ => Ok PNone
       end |}.

(** Tokens are their own subject. *)
Definition plain_auth (users : UsersCollection) : Auth :=
  {| verify_token := fun token =>
       if String.eqb token "" then None else Some [("sub", PStr token)];
     get_users_collection := Ok users |}.

(** A records collection with two stored documents, whose ids are objects. *)
Definition two_records : RecordsCollection :=
  {| find_page := fun _ _ =>
       Ok [[("_id", PObj [("oid", PInt 1)]); ("serialNo", PInt 0)];
           [("_id", PStr "2"); ("userId", PObj [("oid", PInt 7)])]];
     ObjectId_instance := fun attrs =>
       match lookup "oid" attrs with Some _ => true | None => false end |}.

Example split_two : split "." "rx.1.PNG" = ["rx"; "1"; "PNG"].
Proof. reflexivity. Qed.

Example last_component_png : last_component "rx.1.PNG" = "png".
Proof. reflexivity. Qed.

Example strip_both : strip (String "010" "  ab c  ") = "ab c".
Proof. reflexivity. Qed.

Example drop_last_fence : drop_last 3 "{}```" = "{}".
Proof. reflexivity. Qed.

Example str_of_nat_12 : str_of_nat 12 = "12".
Proof. reflexivity. Qed.

Example loads_object :
  Json.loads (dq "{'age': 5, 'medicines': [{'name': 'A'}, {}], 'date': null}")
  = Ok (PDict [("age", PInt 5);
               ("medicines", PList [PDict [("name", PStr "A")]; PDict []]);
               ("date", PNone)]).
Proof. vm_compute. reflexivity. Qed.

Example loads_fenced_fails : Json.loads "```{}```" = Raise JSONDecodeError.
Proof. reflexivity. Qed.

Example loads_empty_fails : Json.loads "" = Raise JSONDecodeError.
Proof. reflexivity. Qed.

Example loads_trailing_fails : Json.loads "{} x" = Raise JSONDecodeError.
Proof. reflexivity. Qed.

(** * Properties *)

(** ** Strings *)

Section StringFacts.

Local Open Scope string_scope.

Lemma append_nonempty (x y : string) : y <> "" -> x ++ y <> "".
Proof. destruct x; simpl; [auto | discriminate]. Qed.

Lemma append_assoc (x y z : string) : (x ++ y) ++ z = x ++ (y ++ z).
Proof. induction x as [|c x IH]; simpl; [reflexivity | now rewrite IH]. Qed.

Lemma length_append (x y : string) :
  String.length (x ++ y) = (String.length x + String.length y)%nat.
Proof. induction x as [|c x IH]; simpl; [reflexivity | now rewrite IH]. Qed.

(** [rstrip] leaves alone what ends in a character that is not a space. *)
Lemma rstrip_append (x y : string) :
  rstrip y <> "" -> rstrip (x ++ y) = x ++ rstrip y.
Proof.
  intros Hy. induction x as [|c x IH]; simpl; [reflexivity|].
  rewrite IH. destruct (x ++ rstrip y) eqn:E; [|reflexivity].
  exfalso. now apply (append_nonempty x (rstrip y) Hy).
Qed.

Lemma rstrip_append_space (x : string) (c : ascii) :
  is_space c = true -> rstrip (x ++ String c "") = rstrip x.
Proof.
  intros Hc. induction x as [|a x IH]; simpl.
  - now rewrite Hc.
  - now rewrite IH.
Qed.

Lemma rstrip_idempotent (x : string) : rstrip (rstrip x) = rstrip x.
Proof.
  induction x as [|c x IH]; simpl; [reflexivity|].
  destruct (rstrip x) as [|d r] eqn:E.
  - destruct (is_space c) eqn:Hc; simpl; [reflexivity | now rewrite Hc].
  - change (rstrip (String c (String d r))) with
      (match rstrip (String d r) with
       | "" => if is_space c then "" else String c ""
       | r' => String c r'
       end).
    now rewrite IH.
Qed.

(** What [lstrip] returns is empty or starts with a character that is not a
    space. *)
Lemma lstrip_head (x : string) :
  match lstrip x with
  | "" => True
  | String a _ => is_space a = false
  end.
Proof.
  induction x as [|c x IH]; simpl; [exact I|].
  destruct (is_space c) eqn:Hc; [exact IH | exact Hc].
Qed.

Lemma lstrip_fixed (a : ascii) (x : string) :
  is_space a = false -> lstrip (String a x) = String a x.
Proof. intros Ha; simpl; now rewrite Ha. Qed.

Lemma rstrip_keeps_head (a : ascii) (x : string) :
  is_space a = false -> exists r, rstrip (String a x) = String a r.
Proof.
  intros Ha. simpl. destruct (rstrip x) as [|d r].
  - rewrite Ha. now exists "".
  - now exists (String d r).
Qed.

Lemma strip_idempotent (x : string) : strip (strip x) = strip x.
Proof.
  unfold strip. pose proof (lstrip_head x) as H.
  destruct (lstrip x) as [|a u]; [reflexivity|].
  destruct (rstrip_keeps_head a u H) as [r Hr].
  rewrite Hr, (lstrip_fixed a r H), <- Hr. apply rstrip_idempotent.
Qed.

Lemma strip_append_space (x : string) (c : ascii) :
  is_space c = true -> strip (x ++ String c "") = strip x.
Proof.
  intros Hc. unfold strip. induction x as [|a x IH]; simpl.
  - now rewrite Hc.
  - destruct (is_space a) eqn:Ha; [exact IH|].
    change (String a (x ++ String c "")) with (String a x ++ String c "").
    now apply rstrip_append_space.
Qed.

Lemma strip_cons_space (x : string) (c : ascii) :
  is_space c = true -> strip (String c x) = strip x.
Proof. intros Hc. unfold strip. simpl. now rewrite Hc. Qed.

(** A text that starts and ends with a character that is not a space is its
    own [strip]. *)
Lemma strip_fixed (a : ascii) (x y : string) :
  is_space a = false -> rstrip y = y -> y <> "" ->
  strip (String a (x ++ y)) = String a (x ++ y).
Proof.
  intros Ha Hy Hne. unfold strip. rewrite (lstrip_fixed a _ Ha).
  change (String a (x ++ y)) with (String a x ++ y).
  rewrite rstrip_append; rewrite Hy; auto.
Qed.

Lemma endswith_append (x p : string) : endswith (x ++ p) p = true.
Proof.
  induction x as [|c x IH]; simpl.
  - destruct p; simpl; rewrite ?String.eqb_refl, ?Ascii.eqb_refl; reflexivity.
  - rewrite IH. apply orb_true_r.
Qed.

Lemma take_append (x p : string) : take (String.length x) (x ++ p) = x.
Proof. induction x as [|c x IH]; simpl; [now destruct p | now rewrite IH]. Qed.

Lemma drop_last_append (x p : string) :
  drop_last (String.length p) (x ++ p) = x.
Proof.
  unfold drop_last. rewrite length_append.
  replace (String.length x + String.length p - String.length p)%nat
    with (String.length x) by lia.
  apply take_append.
Qed.

Lemma prefix_append (p q s : string) :
  String.prefix (p ++ q) s = true -> String.prefix p s = true.
Proof.
  revert s. induction p as [|c p IH]; intros s; destruct s as [|d s]; simpl;
    try reflexivity; try discriminate.
  destruct (ascii_dec c d); [apply IH | discriminate].
Qed.

End StringFacts.

(** ** The markdown clean-up *)

Lemma append_snoc (t p : string) (c : ascii) :
  (t ++ String c p = (t ++ String c "") ++ p)%string.
Proof. now rewrite append_assoc. Qed.

(** A text that neither starts nor ends with a fence is only stripped. *)
Lemma clean_markdown_plain (s : string) :
  startswith s "```" = false -> endswith s "```" = false ->
  clean_markdown s = strip s.
Proof.
  intros Hs He. unfold clean_markdown.
  destruct (startswith s "```json") eqn:Hj.
  - unfold startswith in *.
    change "```json" with ("```" ++ "json")%string in Hj.
    apply prefix_append in Hj. congruence.
  - now rewrite Hs, He.
Qed.

(** The tail that both kinds of fence leave behind their opening marker. *)
Lemma clean_markdown_tail (t : string) :
  strip (if endswith (String "010" (t ++ String "010" "```")) "```"
         then drop_last 3 (String "010" (t ++ String "010" "```"))
         else String "010" (t ++ String "010" "```")) = strip t.
Proof.
  rewrite (append_snoc t "```" "010").
  change (String "010" ((t ++ String "010" "") ++ "```"))
    with (String "010" (t ++ String "010" "") ++ "```")%string.
  rewrite endswith_append.
  change (drop_last 3) with (drop_last (String.length "```")).
  rewrite (drop_last_append (String "010" (t ++ String "010" "")) "```").
  rewrite strip_cons_space by reflexivity.
  now apply strip_append_space.
Qed.

Lemma clean_markdown_fence (tag t : string) :
  tag = "" \/ tag = "json" -> clean_markdown (fence tag t) = strip t.
Proof.
  intros [-> | ->]; unfold clean_markdown, fence; cbn -[endswith strip drop_last];
    apply clean_markdown_tail.
Qed.

Lemma strip_fence (tag t : string) :
  tag = "" \/ tag = "json" -> strip (fence tag t) = fence tag t.
Proof.
  intros [-> | ->]; unfold fence; cbn -[strip]; rewrite (append_snoc t "```" "010").
  - apply (strip_fixed "`" (String "`" (String "`" (String "010" (t ++ String "010" "")))) "```");
      [reflexivity | reflexivity | discriminate].
  - apply (strip_fixed "`"
             (String "`" (String "`" ("json" ++ String "010" (t ++ String "010" ""))))
             "```"); [reflexivity | reflexivity | discriminate].
Qed.

(** ** [extract_from_image] *)

Section ProcessorFacts.

Variable L : Libraries.

Lemma extract_text_content (response content : pyval) :
  response_content response = Ok content ->
  extract_text L response = content_text L content.
Proof. intros H. unfold extract_text. now rewrite H. Qed.

(** The record depends on the response through the cleaned text only. *)
Lemma extract_from_image_text (self1 self2 : PrescriptionImageProcessor)
  (image_bytes : bytes) (image_filename : string) (r1 r2 : pyval) :
  chat_completions_create self1 (mime_type_of image_filename) image_bytes = Ok r1 ->
  chat_completions_create self2 (mime_type_of image_filename) image_bytes = Ok r2 ->
  clean_markdown (extract_text L r1) = clean_markdown (extract_text L r2) ->
  extract_from_image L self1 image_bytes image_filename
  = extract_from_image L self2 image_bytes image_filename.
Proof.
  intros H1 H2 E. unfold extract_from_image. now rewrite H1, H2, E.
Qed.

(** Every call of [extract_from_image] calls the model once and does nothing
    else. *)
Lemma extract_from_image_log (self : PrescriptionImageProcessor)
  (image_bytes : bytes) (image_filename : string) :
  log (extract_from_image L self image_bytes image_filename)
  = [EvModelCall (mime_type_of image_filename) image_bytes].
Proof.
  unfold extract_from_image.
  destruct (chat_completions_create self _ _); [|reflexivity].
  destruct (rbind _ _); reflexivity.
Qed.

(** Apart from a [JSONDecodeError] of the model call, every outcome is a
    record. *)
Lemma extract_from_image_returns (self : PrescriptionImageProcessor)
  (image_bytes : bytes) (image_filename : string) :
  chat_completions_create self (mime_type_of image_filename) image_bytes
    <> Raise JSONDecodeError ->
  exists prescription,
    outcome (extract_from_image L self image_bytes image_filename) = Ok prescription.
Proof.
  intros H. unfold extract_from_image.
  destruct (chat_completions_create self _ _) as [response | e].
  - destruct (rbind _ _) as [p | e]; [now exists p|].
    exists (_create_empty_prescription image_filename).
    now destruct e.
  - exists (_create_empty_prescription image_filename).
    destruct e; try reflexivity. congruence.
Qed.


(** A text that [json.loads] rejects, or data that cannot be mapped, gives the
    empty record. *)
Lemma extract_from_image_unparsable (self : PrescriptionImageProcessor)
  (image_bytes : bytes) (image_filename : string) (response : pyval) (e : exn) :
  chat_completions_create self (mime_type_of image_filename) image_bytes = Ok response ->
  rbind (json_loads L (clean_markdown (extract_text L response)))
        (fun extracted_data => build_prescription L extracted_data image_filename)
    = Raise e ->
  outcome (extract_from_image L self image_bytes image_filename)
  = Ok (_create_empty_prescription image_filename).
Proof.
  intros H Hr. unfold extract_from_image. rewrite H, Hr. now destruct e.
Qed.

End ProcessorFacts.

(** ** From the decoded data to the record *)

Ltac bind_inversion H :=
  unfold rbind in H;
  repeat match type of H with
         | match ?x with _ => _ end = _ => destruct x eqn:?; try discriminate
         end.

Section MappingFacts.

Variable L : Libraries.

Lemma optional_none {A} (validator : pyval -> option A) :
  optional validator PNone = Ok None.
Proof. reflexivity. Qed.

Lemma dict_get_absent (d : list (string * pyval)) (k : string) (default : pyval) :
  lookup k d = None -> dict_get d k default = default.
Proof. intros H. unfold dict_get. now rewrite H. Qed.

Lemma dict_get_present (d : list (string * pyval)) (k : string) (default v : pyval) :
  lookup k d = Some v -> dict_get d k default = v.
Proof. intros H. unfold dict_get. now rewrite H. Qed.

(** The identifiers the loop assigns are the positions, whatever the entries
    hold. *)
Lemma build_medicines_ids (meds : list pyval) :
  forall (idx : nat) (medicines : list Medicine),
    build_medicines L idx meds = Ok medicines ->
    map med_id medicines
    = map (fun i => ("med_" ++ str_of_nat i)%string) (seq (idx + 1) (List.length meds)).
Proof.
  induction meds as [|med rest IH]; intros idx medicines H; simpl in H.
  - injection H as <-. reflexivity.
  - bind_inversion H. injection H as <-.
    unfold new_Medicine in *.
    match goal with
    | Hm : rbind _ _ = Ok ?m |- _ => bind_inversion Hm; injection Hm as <-
    end.
    simpl. f_equal.
    replace (S (idx + 1)) with (S idx + 1)%nat by lia.
    now apply IH.
Qed.

Lemma new_PrescriptionData_fields
  (a1 a2 a3 a4 a5 a6 a7 a8 : pyval) (ms : list Medicine) (images : list string)
  (p : PrescriptionData) :
  new_PrescriptionData L a1 a2 a3 a4 a5 a6 a7 a8 ms images = Ok p ->
  optional (str_validator L) a1 = Ok (patientName p)
  /\ optional (int_validator L) a2 = Ok (age p)
  /\ optional (float_validator L) a3 = Ok (weight p)
  /\ optional (float_validator L) a4 = Ok (height p)
  /\ optional (float_validator L) a5 = Ok (temperature p)
  /\ optional (str_validator L) a6 = Ok (hospitalName p)
  /\ optional (str_validator L) a7 = Ok (doctorName p)
  /\ optional (str_validator L) a8 = Ok (date p)
  /\ medicines p = ms /\ reportImages p = images.
Proof.
  intros H. unfold new_PrescriptionData in H.
  bind_inversion H. injection H as <-. simpl. repeat split; reflexivity.
Qed.

Lemma new_PrescriptionData_ok
  (a1 a2 a3 a4 a5 a6 a7 a8 : pyval) (ms : list Medicine) (images : list string)
  (pn hn dn dt : option string) (a : option Z) (w h t : option spec_float) :
  optional (str_validator L) a1 = Ok pn ->
  optional (int_validator L) a2 = Ok a ->
  optional (float_validator L) a3 = Ok w ->
  optional (float_validator L) a4 = Ok h ->
  optional (float_validator L) a5 = Ok t ->
  optional (str_validator L) a6 = Ok hn ->
  optional (str_validator L) a7 = Ok dn ->
  optional (str_validator L) a8 = Ok dt ->
  new_PrescriptionData L a1 a2 a3 a4 a5 a6 a7 a8 ms images
  = Ok {| rec_id := None; userId := None; serialNo := None;
          patientName := pn; age := a; weight := w; height := h;
          temperature := t; hospitalName := hn; doctorName := dn; date := dt;
          medicines := ms; reportImages := images;
          createdAt := None; updatedAt := None |}.
Proof.
  intros H1 H2 H3 H4 H5 H6 H7 H8. unfold new_PrescriptionData.
  now rewrite H1, H2, H3, H4, H5, H6, H7, H8.
Qed.

(** On a dict nothing but the validation of the values it holds can fail. *)
Lemma build_prescription_dict (d : list (string * pyval)) (image_filename : string) :
  build_prescription L (PDict d) image_filename
  = rbind (py_iter (dict_get d "medicines" (PList [])))
      (fun meds =>
         rbind (build_medicines L 0 meds)
           (fun medicines =>
              new_PrescriptionData L
                (dict_get d "patientName" PNone) (dict_get d "age" PNone)
                (dict_get d "weight" PNone) (dict_get d "height" PNone)
                (dict_get d "temperature" PNone) (dict_get d "hospitalName" PNone)
                (dict_get d "doctorName" PNone) (dict_get d "date" PNone)
                medicines [image_filename])).
Proof. reflexivity. Qed.

Lemma build_prescription_is_dict (data : pyval) (image_filename : string)
  (p : PrescriptionData) :
  build_prescription L data image_filename = Ok p -> exists d, data = PDict d.
Proof.
  destruct data; try discriminate. intros _. now eexists.
Qed.

Lemma build_prescription_report (data : pyval) (image_filename : string)
  (p : PrescriptionData) :
  build_prescription L data image_filename = Ok p ->
  reportImages p = [image_filename].
Proof.
  intros H.
  destruct (build_prescription_is_dict data image_filename p H) as [d ->].
  rewrite build_prescription_dict in H. bind_inversion H.
  now apply new_PrescriptionData_fields in H.
Qed.

(** Whatever record [extract_from_image] returns refers to its image. *)
Lemma extract_from_image_report (self : PrescriptionImageProcessor)
  (image_bytes : bytes) (image_filename : string) (p : PrescriptionData) :
  outcome (extract_from_image L self image_bytes image_filename) = Ok p ->
  reportImages p = [image_filename].
Proof.
  unfold extract_from_image.
  destruct (chat_completions_create self _ _) as [response | e]; simpl.
  - destruct (json_loads L _) as [data | e]; simpl.
    + destruct (build_prescription L data image_filename) as [q | e] eqn:Hb; simpl.
      * intros H. injection H as <-. now apply (build_prescription_report data).
      * destruct e; simpl; intros H; injection H as <-; reflexivity.
    + destruct e; simpl; intros H; injection H as <-; reflexivity.
  - destruct e; simpl; intros H; try discriminate; injection H as <-; reflexivity.
Qed.

Lemma medicines_absent_or_empty (d : list (string * pyval)) :
  lookup "medicines" d = None \/ lookup "medicines" d = Some (PList []) ->
  dict_get d "medicines" (PList []) = PList [].
Proof.
  intros [H | H]; [now apply dict_get_absent | now apply dict_get_present].
Qed.

End MappingFacts.

(** ** Values that pass, values that fail *)

Section ValidationFacts.

Variable L : Libraries.

Lemma optional_passes {A} (validator : pyval -> option A) (x : pyval) :
  passes_validation validator x ->
  optional validator x = Ok (validated validator x).
Proof.
  intros [-> | [a Ha]]; [reflexivity|].
  destruct x; simpl; try (now rewrite Ha). reflexivity.
Qed.

Lemma optional_fails {A} (validator : pyval -> option A) (x : pyval) :
  fails_validation validator x ->
  optional validator x = Raise ValidationError.
Proof.
  intros [Hx Hv]. destruct x; simpl; try (now rewrite Hv). congruence.
Qed.

Lemma optional_ok_passes {A} (validator : pyval -> option A) (x : pyval)
  (r : option A) :
  optional validator x = Ok r -> passes_validation validator x.
Proof.
  intros H.
  destruct x; [now left | right ..]; simpl in H;
    match type of H with
    | match validator ?v with _ => _ end = _ =>
        destruct (validator v) as [a|] eqn:E; [now exists a | discriminate]
    end.
Qed.

Lemma optional_ok_not_fails {A} (validator : pyval -> option A) (x : pyval)
  (r : option A) :
  optional validator x = Ok r -> ~ fails_validation validator x.
Proof.
  intros H Hf. rewrite (optional_fails validator x Hf) in H. discriminate.
Qed.

Lemma new_Medicine_passes (id : string) (m : list (string * pyval)) :
  entry_passes L (PDict m) ->
  new_Medicine L id (dict_get m "name" PNone) (dict_get m "quantity" PNone)
    (dict_get m "timeOfIntake" PNone) (dict_get m "beforeOrAfterMeals" PNone)
  = Ok (validated_medicine L id m).
Proof.
  intros (m' & Hm & P1 & P2 & P3 & P4). injection Hm as <-.
  unfold new_Medicine.
  rewrite (optional_passes _ _ P1), (optional_passes _ _ P2),
    (optional_passes _ _ P3), (optional_passes _ _ P4).
  reflexivity.
Qed.

(** Entries that pass are all turned into line items. *)
Lemma build_medicines_passes (meds : list pyval) :
  Forall (entry_passes L) meds ->
  forall idx,
    exists ms,
      build_medicines L idx meds = Ok ms
      /\ Forall2 (fun med item =>
                    exists m, med = PDict m
                              /\ item = validated_medicine L (med_id item) m)
                 meds ms.
Proof.
  induction 1 as [|med rest Hmed _ IH]; intros idx.
  - exists []. split; [reflexivity | constructor].
  - destruct (IH (S idx)) as (ms & Hms & Hall).
    pose proof Hmed as (m & -> & _).
    exists (validated_medicine L ("med_" ++ str_of_nat (idx + 1)) m :: ms).
    split.
    + simpl. rewrite (new_Medicine_passes _ m Hmed). simpl. now rewrite Hms.
    + constructor; [|exact Hall]. now exists m.
Qed.

(** An entry that fails stops the loop. *)
Lemma build_medicines_fails (meds : list pyval) :
  Exists (entry_fails L) meds ->
  forall idx, exists e, build_medicines L idx meds = Raise e.
Proof.
  induction 1 as [med rest Hmed | med rest _ IH]; intros idx.
  - destruct med as [| | | | | |m|]; try (now eexists).
    simpl. unfold new_Medicine.
    destruct (optional (str_validator L) (dict_get m "name" PNone))
      as [n|] eqn:E1; simpl; [|now eexists].
    destruct (optional (int_validator L) (dict_get m "quantity" PNone))
      as [q|] eqn:E2; simpl; [|now eexists].
    destruct (optional (str_validator L) (dict_get m "timeOfIntake" PNone))
      as [t|] eqn:E3; simpl; [|now eexists].
    destruct (optional (str_validator L) (dict_get m "beforeOrAfterMeals" PNone))
      as [b|] eqn:E4; simpl; [|now eexists].
    exfalso. destruct Hmed as [F | [F | [F | F]]].
    + exact (optional_ok_not_fails _ _ _ E1 F).
    + exact (optional_ok_not_fails _ _ _ E2 F).
    + exact (optional_ok_not_fails _ _ _ E3 F).
    + exact (optional_ok_not_fails _ _ _ E4 F).
  - destruct (IH (S idx)) as [e He]. cbn [build_medicines].
    destruct (py_get med "name" PNone) as [v1|]; simpl; [|now eexists].
    destruct (py_get med "quantity" PNone) as [v2|]; simpl; [|now eexists].
    destruct (py_get med "timeOfIntake" PNone) as [v3|]; simpl; [|now eexists].
    destruct (py_get med "beforeOrAfterMeals" PNone) as [v4|]; simpl; [|now eexists].
    destruct (new_Medicine L _ v1 v2 v3 v4); simpl; [|now eexists].
    rewrite He. now eexists.
Qed.

Lemma new_PrescriptionData_passes (d : list (string * pyval))
  (ms : list Medicine) (image_filename : string) :
  scalars_pass L d ->
  new_PrescriptionData L
    (dict_get d "patientName" PNone) (dict_get d "age" PNone)
    (dict_get d "weight" PNone) (dict_get d "height" PNone)
    (dict_get d "temperature" PNone) (dict_get d "hospitalName" PNone)
    (dict_get d "doctorName" PNone) (dict_get d "date" PNone)
    ms [image_filename]
  = Ok (validated_record L d ms image_filename).
Proof.
  intros (P1 & P2 & P3 & P4 & P5 & P6 & P7 & P8).
  apply new_PrescriptionData_ok; now apply optional_passes.
Qed.

(** An object whose values pass gives the record of these values. *)
Lemma build_prescription_passes (d : list (string * pyval)) (meds : list pyval)
  (image_filename : string) :
  py_iter (dict_get d "medicines" (PList [])) = Ok meds ->
  Forall (entry_passes L) meds ->
  scalars_pass L d ->
  exists ms,
    build_prescription L (PDict d) image_filename
    = Ok (validated_record L d ms image_filename)
    /\ Forall2 (fun med item =>
                  exists m, med = PDict m
                            /\ item = validated_medicine L (med_id item) m)
               meds ms
    /\ map med_id ms = med_ids (List.length meds).
Proof.
  intros Hi Hmeds Hd.
  destruct (build_medicines_passes meds Hmeds 0) as (ms & Hms & Hall).
  exists ms. split; [|split; [exact Hall|]].
  - rewrite build_prescription_dict, Hi. simpl. rewrite Hms. simpl.
    now apply new_PrescriptionData_passes.
  - apply (build_medicines_ids L meds 0 ms Hms).
Qed.

(** An object with a value that fails gives no record. *)
Lemma build_prescription_fails (d : list (string * pyval)) (image_filename : string) :
  scalar_fails L d
  \/ (exists meds, py_iter (dict_get d "medicines" (PList [])) = Ok meds
                   /\ Exists (entry_fails L) meds)
  \/ (exists e, py_iter (dict_get d "medicines" (PList [])) = Raise e) ->
  exists e, build_prescription L (PDict d) image_filename = Raise e.
Proof.
  intros H. rewrite build_prescription_dict.
  destruct (py_iter (dict_get d "medicines" (PList []))) as [meds|] eqn:Hi;
    simpl; [|now eexists].
  destruct (build_medicines L 0 meds) as [ms|] eqn:Hms; simpl; [|now eexists].
  destruct H as [H | [(meds' & Hi' & Hex) | [e He]]]; [| |discriminate].
  - destruct (new_PrescriptionData L _ _ _ _ _ _ _ _ ms [image_filename])
      as [p|] eqn:Hp; [|now eexists].
    exfalso.
    destruct (new_PrescriptionData_fields L _ _ _ _ _ _ _ _ _ _ _ Hp)
      as (F1 & F2 & F3 & F4 & F5 & F6 & F7 & F8 & _).
    destruct H as [F | [F | [F | [F | [F | [F | [F | F]]]]]]].
    + exact (optional_ok_not_fails _ _ _ F1 F).
    + exact (optional_ok_not_fails _ _ _ F2 F).
    + exact (optional_ok_not_fails _ _ _ F3 F).
    + exact (optional_ok_not_fails _ _ _ F4 F).
    + exact (optional_ok_not_fails _ _ _ F5 F).
    + exact (optional_ok_not_fails _ _ _ F6 F).
    + exact (optional_ok_not_fails _ _ _ F7 F).
    + exact (optional_ok_not_fails _ _ _ F8 F).
  - injection Hi' as <-.
    destruct (build_medicines_fails meds Hex 0) as [e He]. congruence.
Qed.

End ValidationFacts.

(** ** The claims on [extract_from_image] *)

(** C1.  The code does not meet the claim: when the model call itself raises
    [json.JSONDecodeError], the first [except] clause formats the local
    [extracted_text], which is not bound yet, and [extract_from_image] raises
    [UnboundLocalError] instead of returning the empty record. *)
Theorem extract_from_image_unbound_text (L : Libraries)
  (self : PrescriptionImageProcessor) (image_bytes : bytes) (image_filename : string) :
  chat_completions_create self (mime_type_of image_filename) image_bytes
    = Raise JSONDecodeError ->
  extract_from_image L self image_bytes image_filename
  = (Raise UnboundLocalError, [EvModelCall (mime_type_of image_filename) image_bytes]).
Proof. intros H. unfold extract_from_image. rewrite H. reflexivity. Qed.

Lemma extract_from_image_unbound_text_witness :
  outcome (extract_from_image reference (failing JSONDecodeError) [] "rx.jpg")
  = Raise UnboundLocalError.
Proof.
  rewrite (extract_from_image_unbound_text reference (failing JSONDecodeError)
             [] "rx.jpg" eq_refl).
  reflexivity.
Defined.



(** C3, as amended.  A model output [t] whose stripped text neither starts nor
    ends with a triple backtick gives the same record whether it arrives bare
    or between markdown code fences (with or without the [json] tag). *)
Theorem fenced_output_normalizes_alike (L : Libraries)
  (self1 self2 : PrescriptionImageProcessor) (image_bytes : bytes)
  (image_filename : string) (r1 r2 : pyval) (tag t : string) :
  tag = "" \/ tag = "json" ->
  chat_completions_create self1 (mime_type_of image_filename) image_bytes = Ok r1 ->
  chat_completions_create self2 (mime_type_of image_filename) image_bytes = Ok r2 ->
  response_content r1 = Ok (PStr (fence tag t)) ->
  response_content r2 = Ok (PStr t) ->
  startswith (strip t) "```" = false ->
  endswith (strip t) "```" = false ->
  extract_from_image L self1 image_bytes image_filename
  = extract_from_image L self2 image_bytes image_filename.
Proof.
  intros Htag H1 H2 C1 C2 Hs He.
  apply (extract_from_image_text L self1 self2 image_bytes image_filename r1 r2 H1 H2).
  rewrite (extract_text_content L r1 _ C1), (extract_text_content L r2 _ C2).
  simpl content_text.
  rewrite (strip_fence tag t Htag), (clean_markdown_fence tag t Htag).
  rewrite (clean_markdown_plain (strip t) Hs He).
  symmetry. apply strip_idempotent.
Qed.

Lemma fenced_output_normalizes_alike_witness :
  extract_from_image reference
    (answering (completion (PStr (fence "json" name_only_output)))) [] "rx.jpg"
  = extract_from_image reference
      (answering (completion (PStr name_only_output))) [] "rx.jpg".
Proof.
  apply (fenced_output_normalizes_alike reference _ _ [] "rx.jpg"
           (completion (PStr (fence "json" name_only_output)))
           (completion (PStr name_only_output)) "json" name_only_output);
    first [ right; reflexivity | reflexivity ].
Defined.

(** C3, as stated, fails on an output that is itself fenced: bare, its fences
    are removed and the JSON is read; fenced once more, only the outer fences
    are removed and the text is rejected. *)
Lemma fenced_twice_differs :
  outcome (extract_from_image reference
             (answering (completion (PStr (fence "json" fenced_output)))) [] "rx.jpg")
  <> outcome (extract_from_image reference
                (answering (completion (PStr fenced_output))) [] "rx.jpg").
Proof. vm_compute. discriminate. Qed.

(** C4, as amended.  When the output decodes to an object whose [medicines]
    list has [k] entries: if every entry is an object whose name, quantity,
    time of intake and meal instruction are absent, null or accepted by the
    validation of their field, and every top-level scalar is absent, null or
    accepted, then the record has [k] medicines, identified [med_1], ...,
    [med_k] in list order whatever the entries hold; if an entry is no
    object, or a value of an entry or a scalar is rejected by the validation,
    the empty record is returned. *)
Theorem medicine_ids_sequential (L : Libraries) (self : PrescriptionImageProcessor)
  (image_bytes : bytes) (image_filename : string) (response : pyval)
  (d : list (string * pyval)) (meds : list pyval) :
  chat_completions_create self (mime_type_of image_filename) image_bytes = Ok response ->
  json_loads L (clean_markdown (extract_text L response)) = Ok (PDict d) ->
  dict_get d "medicines" (PList []) = PList meds ->
  (Forall (entry_passes L) meds -> scalars_pass L d ->
   exists p,
     outcome (extract_from_image L self image_bytes image_filename) = Ok p
     /\ List.length (medicines p) = List.length meds
     /\ map med_id (medicines p) = med_ids (List.length meds))
  /\ (Exists (entry_fails L) meds \/ scalar_fails L d ->
      outcome (extract_from_image L self image_bytes image_filename)
      = Ok (_create_empty_prescription image_filename)).
Proof.
  intros Hc Hj Hm.
  assert (Hi : py_iter (dict_get d "medicines" (PList [])) = Ok meds)
    by now rewrite Hm.
  split.
  - intros Hmeds Hd.
    destruct (build_prescription_passes L d meds image_filename Hi Hmeds Hd)
      as (ms & Hb & Hall & Hids).
    exists (validated_record L d ms image_filename). split; [|split].
    + unfold extract_from_image. rewrite Hc, Hj. simpl. now rewrite Hb.
    + simpl. symmetry. exact (Forall2_length Hall).
    + exact Hids.
  - intros H.
    destruct (build_prescription_fails L d image_filename) as [e He].
    { destruct H as [H | H]; [right; left; now exists meds | now left]. }
    apply (extract_from_image_unparsable L self image_bytes image_filename response e Hc).
    rewrite Hj. exact He.
Qed.

Lemma medicine_ids_sequential_witness :
  exists p,
    outcome (extract_from_image reference
               (answering (completion (PStr two_medicines_output))) [] "rx.jpg") = Ok p
    /\ map med_id (medicines p) = ["med_1"; "med_2"].
Proof.
  destruct (medicine_ids_sequential reference
              (answering (completion (PStr two_medicines_output))) [] "rx.jpg"
              (completion (PStr two_medicines_output))
              [("medicines",
                PList [PDict [("id", PStr "x"); ("name", PStr "A");
                              ("quantity", PInt 10)];
                       PDict [("id", PStr "med_7")]])]
              [PDict [("id", PStr "x"); ("name", PStr "A"); ("quantity", PInt 10)];
               PDict [("id", PStr "med_7")]]
              eq_refl eq_refl eq_refl) as [Hok _].
  destruct Hok as (p & Hp & _ & Hids).
  - repeat constructor; eexists; (split; [reflexivity|]);
      repeat split; first [ now left | right; eexists; reflexivity ].
  - repeat split; now left.
  - exists p. split; [exact Hp | exact Hids].
Defined.

(** C4, as stated, fails when an entry does not validate: the output is
    decoded, its [medicines] list has one entry, and the record has none. *)
Lemma unvalidated_medicine_dropped :
  json_loads reference tablets_output
  = Ok (PDict [("medicines",
                PList [PDict [("id", PStr "x"); ("name", PStr "A");
                              ("quantity", PStr "10 tablets")]])])
  /\ exists p,
       outcome (extract_from_image reference
                  (answering (completion (PStr tablets_output))) [] "rx.jpg") = Ok p
       /\ map med_id (medicines p) <> ["med_1"].
Proof.
  split; [vm_compute; reflexivity|].
  eexists. split; [vm_compute; reflexivity|]. simpl. discriminate.
Qed.

Lemma part_text_as_part (L : Libraries) (part : bool * string) :
  part_text L (as_part part) = [snd part].
Proof.
  destruct part as [[|] p]; [reflexivity|].
  destruct p; reflexivity.
Qed.

Lemma parts_texts (L : Libraries) (parts : list (bool * string)) :
  flat_map (part_text L) (map as_part parts) = map snd parts.
Proof.
  induction parts as [|part parts IH]; [reflexivity|].
  simpl map. simpl flat_map. rewrite part_text_as_part, IH. reflexivity.
Qed.

Lemma join_lines_single (j : string) :
  join_lines (filter nonempty [j]) = j.
Proof. destruct j; reflexivity. Qed.

(** C8.  A content that arrives as a list of parts (strings, or mappings with
    the text under [text]) gives the same record as the plain string made of
    its non-empty parts joined by newlines; in particular the one-part list
    with the mapping [text: j] gives the same record as the string [j]. *)
Theorem parts_normalize_like_text (L : Libraries)
  (self1 self2 : PrescriptionImageProcessor) (image_bytes : bytes)
  (image_filename : string) (r1 r2 : pyval) :
  chat_completions_create self1 (mime_type_of image_filename) image_bytes = Ok r1 ->
  chat_completions_create self2 (mime_type_of image_filename) image_bytes = Ok r2 ->
  (forall j,
     response_content r1 = Ok (PList [PDict [("text", PStr j)]]) ->
     response_content r2 = Ok (PStr j) ->
     extract_from_image L self1 image_bytes image_filename
     = extract_from_image L self2 image_bytes image_filename)
  /\ (forall parts,
        response_content r1 = Ok (PList (map as_part parts)) ->
        response_content r2
        = Ok (PStr (join_lines (filter nonempty (map snd parts)))) ->
        extract_from_image L self1 image_bytes image_filename
        = extract_from_image L self2 image_bytes image_filename).
Proof.
  intros H1 H2.
  assert (G : forall parts,
             response_content r1 = Ok (PList (map as_part parts)) ->
             response_content r2
             = Ok (PStr (join_lines (filter nonempty (map snd parts)))) ->
             extract_from_image L self1 image_bytes image_filename
             = extract_from_image L self2 image_bytes image_filename).
  { intros parts C1 C2.
    apply (extract_from_image_text L self1 self2 image_bytes image_filename r1 r2 H1 H2).
    rewrite (extract_text_content L r1 _ C1), (extract_text_content L r2 _ C2).
    simpl content_text. now rewrite parts_texts. }
  split; [|exact G].
  intros j C1 C2. apply (G [(false, j)]); [exact C1|].
  simpl map. now rewrite join_lines_single.
Qed.

Lemma parts_normalize_like_text_witness :
  extract_from_image reference
    (answering (completion (PList [PDict [("text", PStr name_only_output)]])))
    [] "rx.jpg"
  = extract_from_image reference
      (answering (completion (PStr name_only_output))) [] "rx.jpg".
Proof.
  apply (proj1 (parts_normalize_like_text reference
                  (answering (completion (PList [PDict [("text", PStr name_only_output)]])))
                  (answering (completion (PStr name_only_output))) [] "rx.jpg"
                  (completion (PList [PDict [("text", PStr name_only_output)]]))
                  (completion (PStr name_only_output)) eq_refl eq_refl)
           name_only_output); reflexivity.
Defined.

(** C10, as amended.  When the cleaned text decodes to a JSON object, a
    record is always returned, in which every scalar whose key is absent is
    null and, when the [medicines] key is absent or holds the empty list, the
    medicines are empty.  Absent keys are no failure: if the values that are
    present are accepted by the validation (the scalars, and the fields of the
    entries of [medicines], which are objects), the record holds exactly the
    validated values, null for what is absent, and one medicine per entry;
    if a scalar or a field of an entry is present and rejected by the
    validation, or an entry is no object, or the value of [medicines] cannot
    be iterated, the empty record is returned. *)
Theorem missing_keys_are_null (L : Libraries) (self : PrescriptionImageProcessor)
  (image_bytes : bytes) (image_filename : string) (response : pyval)
  (d : list (string * pyval)) :
  chat_completions_create self (mime_type_of image_filename) image_bytes = Ok response ->
  json_loads L (clean_markdown (extract_text L response)) = Ok (PDict d) ->
  (exists p,
     outcome (extract_from_image L self image_bytes image_filename) = Ok p
     /\ reportImages p = [image_filename]
     /\ (lookup "patientName" d = None -> patientName p = None)
     /\ (lookup "age" d = None -> age p = None)
     /\ (lookup "weight" d = None -> weight p = None)
     /\ (lookup "height" d = None -> height p = None)
     /\ (lookup "temperature" d = None -> temperature p = None)
     /\ (lookup "hospitalName" d = None -> hospitalName p = None)
     /\ (lookup "doctorName" d = None -> doctorName p = None)
     /\ (lookup "date" d = None -> date p = None)
     /\ (lookup "medicines" d = None \/ lookup "medicines" d = Some (PList []) ->
         medicines p = []))
  /\ (forall meds,
        py_iter (dict_get d "medicines" (PList [])) = Ok meds ->
        Forall (entry_passes L) meds ->
        scalars_pass L d ->
        exists ms,
          outcome (extract_from_image L self image_bytes image_filename)
          = Ok (validated_record L d ms image_filename)
          /\ Forall2 (fun med item =>
                        exists m, med = PDict m
                                  /\ item = validated_medicine L (med_id item) m)
                     meds ms
          /\ map med_id ms = med_ids (List.length meds))
  /\ (scalar_fails L d
      \/ (exists meds, py_iter (dict_get d "medicines" (PList [])) = Ok meds
                       /\ Exists (entry_fails L) meds)
      \/ (exists e, py_iter (dict_get d "medicines" (PList [])) = Raise e) ->
      outcome (extract_from_image L self image_bytes image_filename)
      = Ok (_create_empty_prescription image_filename)).
Proof.
  intros Hc Hj. split; [|split].
  - destruct (build_prescription L (PDict d) image_filename) as [p | e] eqn:Hb.
    + exists p. split.
      { unfold extract_from_image. rewrite Hc, Hj. simpl. now rewrite Hb. }
      rewrite build_prescription_dict in Hb.
      destruct (py_iter (dict_get d "medicines" (PList []))) as [meds|] eqn:Hi;
        [|discriminate].
      simpl in Hb.
      destruct (build_medicines L 0 meds) as [ms|] eqn:Hms; [|discriminate].
      simpl in Hb.
      pose proof (new_PrescriptionData_fields L _ _ _ _ _ _ _ _ _ _ _ Hb)
        as (F1 & F2 & F3 & F4 & F5 & F6 & F7 & F8 & Fm & Fr).
      split; [exact Fr|].
      repeat match goal with
             | |- (lookup ?k d = None -> _) /\ _ =>
                 split; [intros Habs;
                         rewrite (dict_get_absent d k PNone Habs) in *;
                         simpl in *; congruence|]
             end.
      intros Hm. rewrite (medicines_absent_or_empty d Hm) in Hi.
      injection Hi as <-. simpl in Hms. injection Hms as <-. exact Fm.
    + exists (_create_empty_prescription image_filename). split.
      { apply (extract_from_image_unparsable L self image_bytes image_filename
                 response e Hc).
        rewrite Hj. exact Hb. }
      split; [reflexivity|].
      do 8 (split; [reflexivity|]).
      intros _. reflexivity.
  - intros meds Hi Hmeds Hd.
    destruct (build_prescription_passes L d meds image_filename Hi Hmeds Hd)
      as (ms & Hb & Hall & Hids).
    exists ms. split; [|split; assumption].
    unfold extract_from_image. rewrite Hc, Hj. simpl. now rewrite Hb.
  - intros H.
    destruct (build_prescription_fails L d image_filename H) as [e He].
    apply (extract_from_image_unparsable L self image_bytes image_filename response e Hc).
    rewrite Hj. exact He.
Qed.

Lemma missing_keys_are_null_witness :
  exists p,
    outcome (extract_from_image reference
               (answering (completion (PStr name_only_output))) [] "rx.jpg") = Ok p
    /\ patientName p = Some "Bo" /\ age p = None /\ date p = None
    /\ medicines p = [].
Proof.
  destruct (proj1 (proj2 (missing_keys_are_null reference
                            (answering (completion (PStr name_only_output)))
                            [] "rx.jpg"
                            (completion (PStr name_only_output))
                            [("patientName", PStr "Bo")] eq_refl eq_refl))
              [] eq_refl (Forall_nil _))
    as (ms & Hp & Hall & _).
  - repeat split; first [ now left | right; eexists; reflexivity ].
  - inversion Hall; subst. eexists. split; [exact Hp|]. repeat split.
Defined.

(** C10, as stated, fails when a value that is present does not validate: the
    text decodes to a JSON object, and the empty record is returned, without
    the name the object holds. *)
Lemma invalid_value_gives_empty_record :
  json_loads reference invalid_age_output
  = Ok (PDict [("patientName", PStr "Bo"); ("age", PStr "old")])
  /\ outcome (extract_from_image reference
                (answering (completion (PStr invalid_age_output))) [] "rx.jpg")
     = Ok (_create_empty_prescription "rx.jpg").
Proof. split; vm_compute; reflexivity. Qed.

(** ** The effect monad *)

Lemma bind_ok {A B} (m : M A) (f : A -> M B) (b : B) :
  outcome (bind m f) = Ok b ->
  exists a, outcome m = Ok a /\ outcome (f a) = Ok b
            /\ log (bind m f) = log m ++ log (f a).
Proof.
  destruct m as [[a | e] l]; simpl; [|discriminate].
  destruct (f a) as [r l'] eqn:E; simpl. intros ->.
  exists a. rewrite E. auto.
Qed.

Lemma bind_raise {A B} (m : M A) (f : A -> M B) (e : exn) :
  outcome m = Raise e -> bind m f = (Raise e, log m).
Proof. destruct m as [[a | e'] l]; simpl; intros H; [discriminate | congruence]. Qed.

Lemma bind_run {A B} (m : M A) (f : A -> M B) (a : A) :
  outcome m = Ok a ->
  bind m f = (outcome (f a), log m ++ log (f a)).
Proof.
  destruct m as [[a' | e] l]; simpl; intros H; [|discriminate].
  injection H as ->. now destruct (f a).
Qed.

Lemma bind_lift {A B} (r : result A) (f : A -> M B) :
  bind (lift r) f = match r with Ok a => f a | Raise e => (Raise e, []) end.
Proof. destruct r as [a | e]; simpl; [now destruct (f a) | reflexivity]. Qed.

(** ** [process_multiple_images] *)

Section BatchFacts.

Variable L : Libraries.
Variable self : PrescriptionImageProcessor.

(** What the loop returns, when it returns: one record per image, in order
    (each refers to its own image), numbered from [idx], after one model call
    per image, in order. *)
Lemma process_from_result (images : list (bytes * string)) :
  forall (idx : nat) (results : list PrescriptionData),
    outcome (process_from L self idx images) = Ok results ->
    List.length results = List.length images
    /\ map serialNo results
       = map (fun i => Some (Z.of_nat i)) (seq idx (List.length images))
    /\ log (process_from L self idx images) = model_call_events images
    /\ map reportImages results = map (fun image => [snd image]) images.
Proof.
  induction images as [|[image_bytes filename] rest IH]; intros idx results H.
  - simpl in H. injection H as <-. repeat split.
  - simpl process_from in *.
    apply bind_ok in H. destruct H as (p & Hp & H & Hl). rewrite Hl.
    apply bind_ok in H. destruct H as (rs & Hrs & H & Hl'). rewrite Hl'.
    simpl in H. injection H as <-.
    destruct (IH (S idx) rs Hrs) as (I1 & I2 & I3 & I4).
    rewrite extract_from_image_log, I3. simpl.
    rewrite (extract_from_image_report L self image_bytes filename p Hp).
    repeat split;
      [now rewrite I1 | now rewrite I2 | now rewrite app_nil_r | now rewrite I4].
Qed.


(** Every event of the loop is a model call. *)
Lemma process_from_events (images : list (bytes * string)) :
  forall idx, forallb is_model_call (log (process_from L self idx images)) = true.
Proof.
  induction images as [|[image_bytes filename] rest IH]; intros idx; [reflexivity|].
  simpl process_from.
  destruct (outcome (extract_from_image L self image_bytes filename)) as [p | e] eqn:Hp.
  - rewrite (bind_run _ _ p Hp). simpl log.
    rewrite forallb_app, extract_from_image_log. simpl.
    destruct (outcome (process_from L self (S idx) rest)) as [rs | e] eqn:Hrs.
    + rewrite (bind_run _ _ rs Hrs). simpl. rewrite app_nil_r. apply IH.
    + rewrite (bind_raise _ _ e Hrs). simpl. apply IH.
  - rewrite (bind_raise _ _ e Hp). simpl. now rewrite extract_from_image_log.
Qed.

End BatchFacts.


Lemma process_from_raises (L : Libraries) (self : PrescriptionImageProcessor)
  (before after : list (bytes * string)) (image_bytes : bytes) (filename : string) :
  no_decode_error self before ->
  chat_completions_create self (mime_type_of filename) image_bytes
    = Raise JSONDecodeError ->
  forall idx,
    outcome (process_from L self idx (before ++ (image_bytes, filename) :: after))
    = Raise UnboundLocalError.
Proof.
  intros Hn Hc. induction before as [|[b f] before IH]; intros idx.
  - simpl app. simpl process_from. unfold extract_from_image.
    rewrite Hc. reflexivity.
  - destruct (extract_from_image_returns L self b f) as [p Hp].
    { apply Hn. now left. }
    simpl app. simpl process_from.
    rewrite (bind_run _ _ p Hp). simpl outcome.
    rewrite (bind_raise _ _ UnboundLocalError); [reflexivity|].
    apply IH. intros b' f' Hin. apply Hn. now right.
Qed.

(** C2.  The code does not meet the claim, by the defect of C1: the first
    model call of a batch that raises [json.JSONDecodeError] makes
    [extract_from_image] raise [UnboundLocalError], and
    [process_multiple_images] raises with it instead of returning one record
    per image. *)
Theorem process_multiple_images_raises (L : Libraries)
  (self : PrescriptionImageProcessor) (before after : list (bytes * string))
  (image_bytes : bytes) (filename : string) :
  no_decode_error self before ->
  chat_completions_create self (mime_type_of filename) image_bytes
    = Raise JSONDecodeError ->
  outcome (process_multiple_images L self
             (before ++ (image_bytes, filename) :: after))
  = Raise UnboundLocalError.
Proof.
  intros Hn Hc. unfold process_multiple_images.
  now apply process_from_raises.
Qed.

Lemma process_multiple_images_raises_witness :
  outcome (process_multiple_images reference png_averse
             [([], "rx1.jpg"); ([], "rx2.png"); ([], "rx3.jpg")])
  = Raise UnboundLocalError.
Proof.
  apply (process_multiple_images_raises reference png_averse
           [([], "rx1.jpg")] [([], "rx3.jpg")] [] "rx2.png").
  - intros b f [H | []]. injection H as <- <-. discriminate.
  - reflexivity.
Defined.


(** ** The upload route *)

Lemma validate_extensions_ok (file_details : list FileDetail) :
  forallb (fun fd => allowed (name fd)) file_details = true ->
  validate_extensions file_details = Ok tt.
Proof.
  induction file_details as [|fd rest IH]; simpl; [reflexivity|].
  intros H. apply andb_prop in H. destruct H as [Ha Hr]. rewrite Ha. auto.
Qed.

(** The loop stops at the first file whose extension is not allowed. *)
Lemma validate_extensions_rejects (file_details : list FileDetail) :
  (exists fd, In fd file_details /\ allowed (name fd) = false) ->
  exists before fd after,
    file_details = before ++ fd :: after
    /\ forallb (fun fd => allowed (name fd)) before = true
    /\ allowed (name fd) = false
    /\ validate_extensions file_details
       = Raise (HTTPException HTTP_400_BAD_REQUEST (invalid_type_detail (name fd))).
Proof.
  induction file_details as [|fd rest IH]; intros (bad & Hin & Hbad).
  - destruct Hin.
  - simpl. destruct (allowed (name fd)) eqn:Ha.
    + destruct Hin as [-> | Hin]; [congruence|].
      destruct (IH (ex_intro _ bad (conj Hin Hbad)))
        as (before & fd' & after & -> & Hb & Hf & Hv).
      exists (fd :: before), fd', after. simpl. rewrite Ha. auto.
    + exists [], fd, rest. auto.
Qed.

Lemma validate_extensions_cases (file_details : list FileDetail) :
  validate_extensions file_details = Ok tt
  \/ exists fd, In fd file_details /\ allowed (name fd) = false
                /\ validate_extensions file_details
                   = Raise (HTTPException HTTP_400_BAD_REQUEST
                                          (invalid_type_detail (name fd))).
Proof.
  induction file_details as [|fd rest IH]; simpl; [now left|].
  destruct (allowed (name fd)) eqn:Ha.
  - destruct IH as [IH | (bad & Hin & Hbad & Hv)]; [now left|].
    right. exists bad. auto.
  - right. exists fd. auto.
Qed.

Section RouteFacts.

Variable L : Libraries.
Variable W : World.

Lemma download_ok (file_details : list FileDetail) :
  forall images,
    outcome (download W file_details) = Ok images ->
    List.length images = List.length file_details
    /\ map snd images = map name file_details
    /\ log (download W file_details) = get_events file_details.
Proof.
  induction file_details as [|fd rest IH]; intros images H.
  - simpl in H. injection H as <-. repeat split.
  - simpl download in *.
    destruct (http_get W (url fd)) as [image_bytes | e].
    + simpl bind in *.
      destruct (download W rest) as [[rs | e] l] eqn:E; simpl in *; [|discriminate].
      injection H as <-.
      destruct (IH rs eq_refl) as (I1 & I2 & I3).
      simpl. rewrite I1, I2, I3, app_nil_r. auto.
    + destruct e; discriminate.
Qed.

Lemma download_events (file_details : list FileDetail) :
  forallb is_get (log (download W file_details)) = true.
Proof.
  induction file_details as [|fd rest IH]; [reflexivity|].
  simpl download.
  destruct (http_get W (url fd)) as [image_bytes | e].
  - simpl bind. destruct (download W rest) as [[rs | e] l]; simpl in *;
      rewrite ?app_nil_r; exact IH.
  - destruct e; reflexivity.
Qed.

(** A download that fails on a status or transport error ends the loop with
    the 400 that names its URL. *)
Lemma download_raise (file_details : list FileDetail) :
  forall e u,
    outcome (download W file_details) = Raise e ->
    In (EvGet u false) (log (download W file_details)) ->
    http_get W u = Raise HTTPError ->
    e = HTTPException HTTP_400_BAD_REQUEST (download_failed_detail u).
Proof.
  induction file_details as [|fd rest IH]; intros e u H Hin Hu.
  - discriminate.
  - simpl download in *.
    destruct (http_get W (url fd)) as [image_bytes | e0] eqn:Hg.
    + simpl bind in *.
      destruct (download W rest) as [[rs | e1] l] eqn:E; simpl in *; [discriminate|].
      destruct Hin as [Hin | Hin]; [discriminate|].
      now apply IH.
    + assert (Hu' : u = url fd).
      { destruct e0; simpl in Hin; destruct Hin as [Hin | []]; congruence. }
      subst u. rewrite Hg in Hu. injection Hu as ->.
      simpl in H. congruence.
Qed.

Lemma create_prescription_events (i : nat) (doc : prescription_dict) :
  log (create_prescription W i doc) = [EvInsert doc].
Proof.
  unfold create_prescription. simpl. destruct (insert_one W doc); reflexivity.
Qed.

Lemma save_from_events (request : PrescriptionUploadRequest)
  (current_user : list (string * pyval)) (prescriptions : list PrescriptionData) :
  forall i,
    forallb is_insert (log (save_from W request current_user i prescriptions)) = true.
Proof.
  induction prescriptions as [|p rest IH]; intros i; [reflexivity|].
  cbn [save_from]. rewrite bind_lift.
  destruct (file_detail_at request i) as [fd | e]; [|reflexivity].
  match goal with
  | |- context [bind (create_prescription W ?n ?doc) ?f] =>
      destruct (outcome (create_prescription W n doc)) as [saved | e] eqn:Hs;
      [rewrite (bind_run _ f saved Hs) | rewrite (bind_raise _ f e Hs)]
  end; simpl log; rewrite ?forallb_app, create_prescription_events; [|reflexivity].
  simpl.
  destruct (outcome (save_from W request current_user (S i) rest)) as [rs | e] eqn:Hr.
  - rewrite (bind_run _ _ rs Hr). simpl. rewrite app_nil_r. apply IH.
  - rewrite (bind_raise _ _ e Hr). simpl. apply IH.
Qed.

Lemma save_from_ok (request : PrescriptionUploadRequest)
  (current_user : list (string * pyval)) (prescriptions : list PrescriptionData) :
  forall i saved,
    outcome (save_from W request current_user i prescriptions) = Ok saved ->
    exists docs,
      log (save_from W request current_user i prescriptions) = insert_events docs
      /\ map dumped docs = prescriptions
      /\ List.length saved = List.length prescriptions.
Proof.
  induction prescriptions as [|p rest IH]; intros i saved H.
  - simpl in H. injection H as <-. now exists [].
  - cbn [save_from] in *. rewrite bind_lift in *.
    destruct (file_detail_at request i) as [fd | e]; [|discriminate].
    apply bind_ok in H. destruct H as (s & Hs & H & Hl). rewrite Hl.
    apply bind_ok in H. destruct H as (rs & Hrs & H & Hl'). rewrite Hl'.
    simpl in H. injection H as <-.
    destruct (IH (S i) rs Hrs) as (docs & D1 & D2 & D3).
    rewrite create_prescription_events, D1.
    eexists (_ :: docs). simpl. rewrite app_nil_r, D2, D3. auto.
Qed.

(** The handler of the route adds no event and never returns. *)
Lemma try_except_upload (m : M PrescriptionResponse) :
  try_except m (upload_except W)
  = (match outcome m with
     | Ok response => Ok response
     | Raise e => outcome (upload_except W e)
     end, log m).
Proof.
  destruct m as [[response | e] l]; simpl; [reflexivity|].
  destruct e; simpl; now rewrite app_nil_r.
Qed.

Lemma upload_except_raises (e : exn) :
  exists status_code detail,
    outcome (upload_except W e) = Raise (HTTPException status_code detail).
Proof. destruct e; simpl; eauto. Qed.

(** After the downloads no image is fetched any more. *)
Lemma after_download_events (processor : PrescriptionImageProcessor)
  (request : PrescriptionUploadRequest) (current_user : list (string * pyval))
  (images : list (bytes * string)) (k : list PrescriptionData -> list PrescriptionData -> PrescriptionResponse) :
  forallb (fun ev => negb (is_get ev))
    (log (bind (process_multiple_images L processor images)
            (fun prescriptions =>
               bind (save_from W request current_user 0 prescriptions)
                 (fun saved => ret (k prescriptions saved))))) = true.
Proof.
  assert (Hm : forall l, forallb is_model_call l = true ->
                         forallb (fun ev => negb (is_get ev)) l = true).
  { intros l H. rewrite forallb_forall in *. intros ev Hin.
    specialize (H ev Hin). now destruct ev. }
  assert (Hi : forall l, forallb is_insert l = true ->
                         forallb (fun ev => negb (is_get ev)) l = true).
  { intros l H. rewrite forallb_forall in *. intros ev Hin.
    specialize (H ev Hin). now destruct ev. }
  pose proof (process_from_events L processor images 0) as Hp.
  unfold process_multiple_images.
  destruct (outcome (process_from L processor 0 images)) as [ps | e] eqn:E.
  - rewrite (bind_run _ _ ps E). simpl log. rewrite forallb_app, (Hm _ Hp). simpl.
    pose proof (save_from_events request current_user ps 0) as Hs.
    destruct (outcome (save_from W request current_user 0 ps)) as [saved | e] eqn:E'.
    + rewrite (bind_run _ _ saved E'). simpl. rewrite app_nil_r. now apply Hi.
    + rewrite (bind_raise _ _ e E'). simpl. now apply Hi.
  - rewrite (bind_raise _ _ e E). simpl. now apply Hm.
Qed.

(** After the downloads come the model calls, and after them the inserts. *)
Lemma after_download_phases (processor : PrescriptionImageProcessor)
  (request : PrescriptionUploadRequest) (current_user : list (string * pyval))
  (images : list (bytes * string)) (k : list PrescriptionData -> list PrescriptionData -> PrescriptionResponse) :
  exists calls inserts,
    log (bind (process_multiple_images L processor images)
           (fun prescriptions =>
              bind (save_from W request current_user 0 prescriptions)
                (fun saved => ret (k prescriptions saved))))
    = calls ++ inserts
    /\ forallb is_model_call calls = true
    /\ forallb is_insert inserts = true.
Proof.
  pose proof (process_from_events L processor images 0) as Hp.
  unfold process_multiple_images.
  destruct (outcome (process_from L processor 0 images)) as [ps | e] eqn:E.
  - rewrite (bind_run _ _ ps E). simpl log.
    exists (log (process_from L processor 0 images)).
    pose proof (save_from_events request current_user ps 0) as Hs.
    destruct (outcome (save_from W request current_user 0 ps)) as [saved | e] eqn:E'.
    + rewrite (bind_run _ _ saved E'). simpl. rewrite app_nil_r. eauto.
    + rewrite (bind_raise _ _ e E'). simpl. eauto.
  - rewrite (bind_raise _ _ e E). simpl.
    exists (log (process_from L processor 0 images)), []. rewrite app_nil_r. auto.
Qed.

End RouteFacts.

(** The route, once the request is valid and the processor is built. *)
Lemma extract_prescription_data_valid (L : Libraries) (W : World)
  (request : PrescriptionUploadRequest) (current_user : list (string * pyval)) :
  validate_request request = Ok tt ->
  extract_prescription_data L W request current_user
  = try_except (upload_body L W request current_user) (upload_except W).
Proof.
  intros H. unfold extract_prescription_data. rewrite bind_lift, H. reflexivity.
Qed.

Lemma extract_prescription_data_invalid (L : Libraries) (W : World)
  (request : PrescriptionUploadRequest) (current_user : list (string * pyval))
  (e : exn) :
  validate_request request = Raise e ->
  extract_prescription_data L W request current_user = (Raise e, []).
Proof.
  intros H. unfold extract_prescription_data. rewrite bind_lift, H. reflexivity.
Qed.

(** C5, as amended.  A request in which some file has an extension outside
    the allow-list (the extension being the text after the last dot of the
    lower-cased name, or the whole name when it has no dot) is rejected as a whole with a 400 before anything is
    fetched, extracted or saved; the error names the first such file when
    [prescriptionUrls] is not empty, and is the no-URL error when it is. *)
Theorem disallowed_extension_rejects_request (L : Libraries) (W : World)
  (request : PrescriptionUploadRequest) (current_user : list (string * pyval)) :
  (exists fd, In fd (fileDetails request) /\ allowed (name fd) = false) ->
  exists detail,
    extract_prescription_data L W request current_user
    = (Raise (HTTPException HTTP_400_BAD_REQUEST detail), [])
    /\ (prescriptionUrls request = [] -> detail = no_urls_detail)
    /\ (prescriptionUrls request <> [] ->
        exists before fd after,
          fileDetails request = before ++ fd :: after
          /\ forallb (fun fd => allowed (name fd)) before = true
          /\ allowed (name fd) = false
          /\ detail = invalid_type_detail (name fd)).
Proof.
  intros Hbad.
  destruct (validate_extensions_rejects (fileDetails request) Hbad)
    as (before & fd & after & Hsplit & Hb & Hf & Hv).
  destruct (prescriptionUrls request) as [|u us] eqn:Hu.
  - exists no_urls_detail. split.
    + apply extract_prescription_data_invalid. unfold validate_request. now rewrite Hu.
    + split; [reflexivity | congruence].
  - exists (invalid_type_detail (name fd)). split.
    + apply extract_prescription_data_invalid. unfold validate_request. now rewrite Hu.
    + split; [discriminate|]. intros _. exists before, fd, after. auto.
Qed.

Lemma disallowed_extension_rejects_request_witness :
  extract_prescription_data reference (steady_world reader "id") with_text_file some_user
  = (Raise (HTTPException HTTP_400_BAD_REQUEST (invalid_type_detail "notes.txt")), []).
Proof.
  destruct (disallowed_extension_rejects_request reference (steady_world reader "id")
              with_text_file some_user) as (detail & Hrun & _ & _).
  - exists (file_detail "http://img/2" "f2" "notes.txt").
    split; [right; left; reflexivity | reflexivity].
  - rewrite Hrun. vm_compute in Hrun. injection Hrun as <-. reflexivity.
Defined.

(** C5, as stated, fails when the request carries no URL: it is rejected with
    the no-URL error, which does not name the file with the bad extension. *)
Lemma no_url_error_names_no_file :
  exists detail,
    extract_prescription_data reference (steady_world reader "id")
      text_file_no_url some_user
    = (Raise (HTTPException HTTP_400_BAD_REQUEST detail), [])
    /\ allowed "notes.txt" = false
    /\ contains detail "notes.txt" = false.
Proof. exists no_urls_detail. repeat split. Qed.

(** The first download that fails on a status or transport error, in a valid
    request, ends the request with the 400 that names its URL, after the
    downloads before it and nothing else. *)
Theorem first_failed_download_aborts (L : Libraries) (W : World)
  (request : PrescriptionUploadRequest) (current_user : list (string * pyval))
  (processor : PrescriptionImageProcessor)
  (before after : list FileDetail) (fd : FileDetail) :
  validate_request request = Ok tt ->
  new_processor W = Ok processor ->
  fileDetails request = before ++ fd :: after ->
  (forall fd', In fd' before -> exists image_bytes, http_get W (url fd') = Ok image_bytes) ->
  http_get W (url fd) = Raise HTTPError ->
  extract_prescription_data L W request current_user
  = (Raise (HTTPException HTTP_400_BAD_REQUEST (download_failed_detail (url fd))),
     get_events before ++ [EvGet (url fd) false]).
Proof.
  intros Hv Hp Hsplit Hbefore Hfd.
  rewrite (extract_prescription_data_valid L W request current_user Hv).
  rewrite try_except_upload. unfold upload_body.
  rewrite bind_lift, Hp, Hsplit.
  assert (Hd : download W (before ++ fd :: after)
               = (Raise (HTTPException HTTP_400_BAD_REQUEST
                                       (download_failed_detail (url fd))),
                  get_events before ++ [EvGet (url fd) false])).
  { clear Hsplit. induction before as [|fd0 before IH]; simpl.
    - now rewrite Hfd.
    - destruct (Hbefore fd0 (or_introl eq_refl)) as [image_bytes ->].
      rewrite IH by (intros fd' Hin; apply Hbefore; now right).
      reflexivity. }
  rewrite (bind_raise _ _ _ (f_equal fst Hd)), Hd. reflexivity.
Qed.

Lemma first_failed_download_aborts_witness :
  extract_prescription_data reference (world_without "http://img/2" reader "id")
    two_images some_user
  = (Raise (HTTPException HTTP_400_BAD_REQUEST
                          (download_failed_detail "http://img/2")),
     [EvGet "http://img/1" true; EvGet "http://img/2" false]).
Proof.
  apply (first_failed_download_aborts reference
           (world_without "http://img/2" reader "id") two_images some_user reader
           [file_detail "http://img/1" "f1" "rx1.jpg"] []
           (file_detail "http://img/2" "f2" "rx2.PNG"));
    try reflexivity.
  intros fd' [<- | []]. now eexists.
Defined.

(** C6.  If a download of the request fails on a status or transport error,
    the request fails with the 400 that names the URL of that download, no
    model call has been made and nothing has been handed to the database. *)
Theorem failed_download_aborts_request (L : Libraries) (W : World)
  (request : PrescriptionUploadRequest) (current_user : list (string * pyval))
  (u : string) :
  In (EvGet u false) (log (extract_prescription_data L W request current_user)) ->
  http_get W u = Raise HTTPError ->
  outcome (extract_prescription_data L W request current_user)
  = Raise (HTTPException HTTP_400_BAD_REQUEST (download_failed_detail u))
  /\ forallb is_get (log (extract_prescription_data L W request current_user)) = true.
Proof.
  intros Hin Hu.
  destruct (validate_request request) as [[] | e] eqn:Hv.
  2:{ rewrite (extract_prescription_data_invalid L W request current_user e Hv) in Hin.
      destruct Hin. }
  rewrite (extract_prescription_data_valid L W request current_user Hv) in *.
  rewrite try_except_upload in *. simpl outcome. simpl log in *.
  unfold upload_body in *. rewrite bind_lift in *.
  destruct (new_processor W) as [processor | e]; [|destruct Hin].
  destruct (outcome (download W (fileDetails request))) as [images | e] eqn:Hd.
  - exfalso. rewrite (bind_run _ _ images Hd) in Hin. simpl log in Hin.
    apply in_app_or in Hin. destruct Hin as [Hin | Hin].
    + destruct (download_ok W (fileDetails request) images Hd) as (_ & _ & Hl).
      rewrite Hl in Hin. unfold get_events in Hin.
      apply in_map_iff in Hin. destruct Hin as (fd & Hfd & _). discriminate.
    + pose proof (after_download_events L W processor request current_user images
                    (fun prescriptions saved =>
                       {| success := true;
                          message := processed_message (List.length prescriptions);
                          count := List.length saved;
                          data := saved |})) as Ha.
      rewrite forallb_forall in Ha. specialize (Ha _ Hin). discriminate.
  - rewrite (bind_raise _ _ e Hd) in *. simpl outcome. simpl log in *.
    rewrite (download_raise W (fileDetails request) e u Hd Hin Hu).
    split; [reflexivity | apply download_events].
Qed.

Lemma failed_download_aborts_request_witness :
  outcome (extract_prescription_data reference
             (world_without "http://img/2" reader "id") two_images some_user)
  = Raise (HTTPException HTTP_400_BAD_REQUEST
                         (download_failed_detail "http://img/2")).
Proof.
  apply (failed_download_aborts_request reference
           (world_without "http://img/2" reader "id") two_images some_user
           "http://img/2").
  - vm_compute. right. left. reflexivity.
  - reflexivity.
Defined.

(** C7, as amended.  A request runs in three phases, never interleaved: the
    fetches, then the model calls, then the inserts.  A request that succeeds
    has fetched every image, in input order, and kept the whole batch, then
    called the model for one image after the other, then saved the records
    one after the other. *)
Theorem request_runs_in_three_phases (L : Libraries) (W : World)
  (request : PrescriptionUploadRequest) (current_user : list (string * pyval)) :
  (exists gets calls inserts,
     log (extract_prescription_data L W request current_user)
     = gets ++ calls ++ inserts
     /\ forallb is_get gets = true
     /\ forallb is_model_call calls = true
     /\ forallb is_insert inserts = true)
  /\ (forall response,
        outcome (extract_prescription_data L W request current_user) = Ok response ->
        exists images docs,
          outcome (download W (fileDetails request)) = Ok images
          /\ List.length images = List.length (fileDetails request)
          /\ map snd images = map name (fileDetails request)
          /\ List.length docs = List.length images
          /\ log (extract_prescription_data L W request current_user)
             = get_events (fileDetails request) ++ model_call_events images
               ++ insert_events docs).
Proof.
  destruct (validate_request request) as [[] | e] eqn:Hv.
  2:{ rewrite (extract_prescription_data_invalid L W request current_user e Hv).
      split; [now exists [], [], [] | discriminate]. }
  rewrite (extract_prescription_data_valid L W request current_user Hv) in *.
  rewrite try_except_upload in *. simpl outcome. simpl log. split.
  - unfold upload_body. rewrite bind_lift.
    destruct (new_processor W) as [processor | e]; [|now exists [], [], []].
    pose proof (download_events W (fileDetails request)) as Hg.
    destruct (outcome (download W (fileDetails request))) as [images | e] eqn:Hd.
    + rewrite (bind_run _ _ images Hd). simpl log.
      destruct (after_download_phases L W processor request current_user images
                  (fun prescriptions saved =>
                     {| success := true;
                        message := processed_message (List.length prescriptions);
                        count := List.length saved;
                        data := saved |}))
        as (calls & inserts & -> & Hc & Hi).
      exists (log (download W (fileDetails request))), calls, inserts. auto.
    + rewrite (bind_raise _ _ e Hd). simpl log.
      exists (log (download W (fileDetails request))), [], [].
      rewrite app_nil_r. auto.
  - intros response H.
    destruct (outcome (upload_body L W request current_user)) as [r | e] eqn:Hb.
    2:{ destruct (upload_except_raises W e) as (c & d & Hr). congruence. }
    clear H. unfold upload_body in *. rewrite bind_lift in *.
    destruct (new_processor W) as [processor | e]; [|discriminate].
    apply bind_ok in Hb. destruct Hb as (images & Hd & Hb & ->).
    apply bind_ok in Hb. destruct Hb as (ps & Hp & Hb & ->).
    apply bind_ok in Hb. destruct Hb as (saved & Hs & Hb & ->).
    destruct (download_ok W (fileDetails request) images Hd) as (D1 & D2 & D3).
    destruct (process_from_result L processor images 0 ps Hp) as (P1 & _ & P3 & _).
    destruct (save_from_ok W request current_user ps 0 saved Hs) as (docs & S1 & S2 & _).
    exists images, docs. repeat split; auto.
    + rewrite <- P1, <- S2. symmetry. apply length_map.
    + unfold process_multiple_images. rewrite D3, P3, S1. simpl. now rewrite app_nil_r.
Qed.

Lemma request_runs_in_three_phases_witness :
  exists images docs,
    List.length images = 2 /\ List.length docs = 2
    /\ log (extract_prescription_data reference (steady_world reader "id")
              two_images some_user)
       = get_events (fileDetails two_images) ++ model_call_events images
         ++ insert_events docs.
Proof.
  destruct (proj2 (request_runs_in_three_phases reference (steady_world reader "id")
                     two_images some_user)
              {| success := true;
                 message := "Successfully processed 2 prescription image(s)";
                 count := 2;
                 data := data_of_two_images |})
    as (images & docs & _ & Hi & _ & Hd & Hl).
  - vm_compute. reflexivity.
  - exists images, docs. rewrite Hd, Hi. auto.
Defined.

(** C7, as stated, fails on any request of two images: the second image is
    fetched before the model is called for the first. *)
Lemma second_fetch_precedes_first_call :
  firstn 3 (log (extract_prescription_data reference (steady_world reader "id")
                   two_images some_user))
  = [EvGet "http://img/1" true; EvGet "http://img/2" true;
     EvModelCall "image/jpeg" (list_byte_of_string "http://img/1")].
Proof. vm_compute. reflexivity. Qed.

(** C9, as amended.  The checks before the [try] raise, and then a 400,
    exactly when [prescriptionUrls] is empty or some file has an extension
    outside the allow-list, and a request they raise on does nothing else; the
    lengths of the two lists are not compared: with URLs and no file the
    request passes the checks and fetches, extracts and saves nothing; when
    the processor is built the response is a success with count 0 and no
    data, and when building it raises, the request fails with what the
    handler of the route makes of the exception: a 500 that carries its text,
    unless it is an [HTTPException]. *)
Theorem validation_ignores_list_lengths (L : Libraries) (W : World)
  (request : PrescriptionUploadRequest) (current_user : list (string * pyval)) :
  ((exists e, validate_request request = Raise e)
   <-> (prescriptionUrls request = []
        \/ exists fd, In fd (fileDetails request) /\ allowed (name fd) = false))
  /\ (forall e, validate_request request = Raise e ->
        (exists detail, e = HTTPException HTTP_400_BAD_REQUEST detail)
        /\ extract_prescription_data L W request current_user = (Raise e, []))
  /\ (prescriptionUrls request <> [] -> fileDetails request = [] ->
      validate_request request = Ok tt
      /\ log (extract_prescription_data L W request current_user) = []
      /\ (forall processor,
            new_processor W = Ok processor ->
            extract_prescription_data L W request current_user
            = (Ok {| success := true; message := processed_message 0;
                     count := 0; data := [] |}, []))
      /\ (forall e,
            new_processor W = Raise e ->
            extract_prescription_data L W request current_user
            = (outcome (upload_except W e), [])
            /\ ((forall status_code detail, e <> HTTPException status_code detail) ->
                outcome (extract_prescription_data L W request current_user)
                = Raise (HTTPException HTTP_500_INTERNAL_SERVER_ERROR
                           ("Error processing images: " ++ exn_str W e))))).
Proof.
  split; [|split].
  - unfold validate_request. split.
    + intros [e He]. destruct (prescriptionUrls request) as [|u us]; [now left|].
      right. destruct (validate_extensions_cases (fileDetails request))
        as [Hok | (fd & Hin & Hbad & _)]; [congruence | eauto].
    + intros [Hu | Hbad].
      * rewrite Hu. eauto.
      * destruct (prescriptionUrls request) as [|u us]; [eauto|].
        destruct (validate_extensions_rejects (fileDetails request) Hbad)
          as (_ & fd & _ & _ & _ & _ & Hv).
        rewrite Hv. eauto.
  - intros e He. split.
    + unfold validate_request in He.
      destruct (prescriptionUrls request) as [|u us].
      * injection He as <-. eauto.
      * destruct (validate_extensions_cases (fileDetails request))
          as [Hok | (fd & _ & _ & Hv)]; [congruence|].
        rewrite Hv in He. injection He as <-. eauto.
    + now apply extract_prescription_data_invalid.
  - intros Hu Hf.
    assert (Hv : validate_request request = Ok tt).
    { unfold validate_request. rewrite Hf.
      destruct (prescriptionUrls request); [congruence | reflexivity]. }
    assert (Hok : forall processor,
              new_processor W = Ok processor ->
              extract_prescription_data L W request current_user
              = (Ok {| success := true; message := processed_message 0;
                       count := 0; data := [] |}, [])).
    { intros processor Hp.
      rewrite (extract_prescription_data_valid L W request current_user Hv).
      unfold upload_body. rewrite bind_lift, Hp, Hf. reflexivity. }
    assert (Hraise : forall e,
              new_processor W = Raise e ->
              extract_prescription_data L W request current_user
              = (outcome (upload_except W e), [])).
    { intros e Hp.
      rewrite (extract_prescription_data_valid L W request current_user Hv).
      unfold upload_body. rewrite bind_lift, Hp. now destruct e. }
    split; [exact Hv|]. split; [|split; [exact Hok|]].
    + destruct (new_processor W) as [processor | e] eqn:Hp.
      * now rewrite (Hok processor eq_refl).
      * now rewrite (Hraise e eq_refl).
    + intros e Hp. split; [now apply Hraise|].
      intros Hne. rewrite (Hraise e Hp). simpl.
      destruct e; try reflexivity. now destruct (Hne status_code detail).
Qed.

Lemma validation_ignores_list_lengths_witness :
  extract_prescription_data reference (steady_world reader "id") urls_no_file some_user
  = (Ok {| success := true;
           message := "Successfully processed 0 prescription image(s)";
           count := 0; data := [] |}, []).
Proof.
  destruct (proj2 (proj2 (validation_ignores_list_lengths reference
                            (steady_world reader "id") urls_no_file some_user)))
    as (_ & _ & Hok & _); [discriminate | reflexivity|].
  exact (Hok reader eq_refl).
Defined.

(** C9, as stated, fails where the processor cannot be built: the request
    with a URL and no file passes the checks, and is answered with the 500 of
    the route instead of the success with count 0. *)
Lemma unbuilt_processor_fails_empty_request :
  validate_request urls_no_file = Ok tt
  /\ extract_prescription_data reference keyless_world urls_no_file some_user
     = (Raise (HTTPException HTTP_500_INTERNAL_SERVER_ERROR
                 "Error processing images: The api_key client option must be set"),
        []).
Proof. split; reflexivity. Qed.

(** * Further properties *)

(** ** MIME types and the allow-list *)

Lemma allowed_cases (file_name : string) :
  allowed file_name
  = (String.eqb (last_component file_name) "jpg"
     || String.eqb (last_component file_name) "jpeg"
     || String.eqb (last_component file_name) "png"
     || String.eqb (last_component file_name) "gif"
     || String.eqb (last_component file_name) "webp").
Proof.
  unfold allowed, file_extension. simpl.
  now rewrite !orb_false_r, !orb_assoc.
Qed.

(** The extensions the route accepts are exactly those the processor has a
    MIME type for: an accepted file is sent to the model under the type of
    its own extension, the default type [image/jpeg] is given to the files
    the route rejects, and no other type than the four of the table is ever
    sent. *)
Theorem accepted_files_have_a_mime_type (file_name : string) :
  (allowed file_name = true <->
   lookup (last_component file_name) mime_type_map = Some (mime_type_of file_name))
  /\ (allowed file_name = false -> mime_type_of file_name = "image/jpeg")
  /\ In (mime_type_of file_name) ["image/jpeg"; "image/png"; "image/gif"; "image/webp"].
Proof.
  rewrite allowed_cases. unfold mime_type_of, mime_type_map. simpl.
  destruct (String.eqb (last_component file_name) "jpg");
    destruct (String.eqb (last_component file_name) "jpeg");
    destruct (String.eqb (last_component file_name) "png");
    destruct (String.eqb (last_component file_name) "gif");
    destruct (String.eqb (last_component file_name) "webp");
    simpl; repeat split; intros; try discriminate; try reflexivity; auto 10.
Qed.

(** ** Response shapes *)

Lemma response_content_mapping (content : pyval) :
  response_content (completion_mapping content) = Ok content.
Proof. destruct content; reflexivity. Qed.

Lemma response_content_object (content : pyval) :
  response_content (completion content) = Ok content.
Proof. reflexivity. Qed.

(** A response made of plain mappings is read like the response object of
    the client: whatever the content, both give the same record. *)
Theorem mapping_response_reads_like_object (L : Libraries)
  (self1 self2 : PrescriptionImageProcessor) (image_bytes : bytes)
  (image_filename : string) (content : pyval) :
  chat_completions_create self1 (mime_type_of image_filename) image_bytes
    = Ok (completion content) ->
  chat_completions_create self2 (mime_type_of image_filename) image_bytes
    = Ok (completion_mapping content) ->
  extract_from_image L self1 image_bytes image_filename
  = extract_from_image L self2 image_bytes image_filename.
Proof.
  intros H1 H2.
  apply (extract_from_image_text L self1 self2 image_bytes image_filename _ _ H1 H2).
  now rewrite (extract_text_content L _ _ (response_content_object content)),
    (extract_text_content L _ _ (response_content_mapping content)).
Qed.

Lemma mapping_response_reads_like_object_witness :
  outcome (extract_from_image reference
             (answering (completion_mapping (PStr name_only_output))) [] "rx.jpg")
  = outcome (extract_from_image reference reader [] "rx.jpg").
Proof.
  now rewrite (mapping_response_reads_like_object reference reader
                 (answering (completion_mapping (PStr name_only_output)))
                 [] "rx.jpg" (PStr name_only_output) eq_refl eq_refl).
Defined.

Lemma text_like_first (d : list (string * pyval)) (j : string) :
  j <> "" ->
  (lookup "text" d = Some (PStr j)
   \/ (truthy (dict_get d "text" PNone) = false
       /\ (lookup "value" d = Some (PStr j)
           \/ (truthy (dict_get d "value" PNone) = false
               /\ lookup "content" d = Some (PStr j))))) ->
  text_like d = PStr j.
Proof.
  intros Hj H. unfold text_like.
  assert (Ht : truthy (PStr j) = true).
  { simpl. destruct j; [congruence | reflexivity]. }
  destruct H as [H | [Hn [H | [Hn' H]]]].
  - rewrite (dict_get_present d "text" PNone (PStr j) H).
    unfold py_or. now rewrite !Ht.
  - rewrite (dict_get_present d "value" PNone (PStr j) H).
    unfold py_or. now rewrite Hn, !Ht.
  - rewrite (dict_get_present d "content" PNone (PStr j) H).
    unfold py_or. now rewrite Hn, Hn', !Ht.
Qed.

(** A content that is a mapping gives the record of the plain string it holds
    under [text], or else under [value], or else under [content]: the first
    of the three keys whose value is not empty decides. *)
Theorem mapping_content_reads_like_text (L : Libraries)
  (self1 self2 : PrescriptionImageProcessor) (image_bytes : bytes)
  (image_filename : string) (r1 r2 : pyval) (d : list (string * pyval))
  (j : string) :
  chat_completions_create self1 (mime_type_of image_filename) image_bytes = Ok r1 ->
  chat_completions_create self2 (mime_type_of image_filename) image_bytes = Ok r2 ->
  response_content r1 = Ok (PDict d) ->
  response_content r2 = Ok (PStr j) ->
  j <> "" ->
  (lookup "text" d = Some (PStr j)
   \/ (truthy (dict_get d "text" PNone) = false
       /\ (lookup "value" d = Some (PStr j)
           \/ (truthy (dict_get d "value" PNone) = false
               /\ lookup "content" d = Some (PStr j))))) ->
  extract_from_image L self1 image_bytes image_filename
  = extract_from_image L self2 image_bytes image_filename.
Proof.
  intros H1 H2 C1 C2 Hj Hd.
  apply (extract_from_image_text L self1 self2 image_bytes image_filename r1 r2 H1 H2).
  rewrite (extract_text_content L r1 _ C1), (extract_text_content L r2 _ C2).
  simpl content_text. now rewrite (text_like_first d j Hj Hd).
Qed.

Lemma mapping_content_reads_like_text_witness :
  outcome (extract_from_image reference
             (answering (completion (PDict [("text", PStr "");
                                            ("value", PStr name_only_output)])))
             [] "rx.jpg")
  = outcome (extract_from_image reference reader [] "rx.jpg").
Proof.
  rewrite (mapping_content_reads_like_text reference
             (answering (completion (PDict [("text", PStr "");
                                            ("value", PStr name_only_output)])))
             reader [] "rx.jpg"
             (completion (PDict [("text", PStr ""); ("value", PStr name_only_output)]))
             (completion (PStr name_only_output))
             [("text", PStr ""); ("value", PStr name_only_output)]
             name_only_output eq_refl eq_refl eq_refl eq_refl).
  - reflexivity.
  - discriminate.
  - right. split; [reflexivity | left; reflexivity].
Defined.

(** A response from which no text can be read gives the empty record, never an
    error: the inner decoding raises (as [len] of a [choices] that is no
    sequence does), or the content is neither a string, a list nor a mapping
    (as [None], or when there is no choice).  [json.loads] rejects the empty
    text. *)
Theorem unreadable_response_gives_empty_record (L : Libraries)
  (self : PrescriptionImageProcessor) (image_bytes : bytes)
  (image_filename : string) (response : pyval) (e : exn) :
  chat_completions_create self (mime_type_of image_filename) image_bytes = Ok response ->
  json_loads L "" = Raise e ->
  ((exists e', response_content response = Raise e')
   \/ (exists content, response_content response = Ok content
                       /\ is_str content = false /\ is_list content = false
                       /\ is_dict content = false)) ->
  extract_text L response = ""
  /\ outcome (extract_from_image L self image_bytes image_filename)
     = Ok (_create_empty_prescription image_filename).
Proof.
  intros Hc Hj Hshape.
  assert (Ht : extract_text L response = "").
  { unfold extract_text.
    destruct Hshape as [[e' ->] | (content & -> & Hs & Hl & Hd)]; [reflexivity|].
    destruct content; simpl in *; congruence. }
  split; [exact Ht|].
  apply (extract_from_image_unparsable L self image_bytes image_filename response e Hc).
  rewrite Ht. change (clean_markdown "") with "". now rewrite Hj.
Qed.

Lemma unreadable_response_gives_empty_record_witness :
  outcome (extract_from_image reference
             (answering (PObj [("choices", PNone)])) [] "rx.jpg")
  = Ok (_create_empty_prescription "rx.jpg")
  /\ outcome (extract_from_image reference
                (answering (PObj [("choices", PList [])])) [] "rx.jpg")
     = Ok (_create_empty_prescription "rx.jpg").
Proof.
  split.
  - apply (unreadable_response_gives_empty_record reference
             (answering (PObj [("choices", PNone)])) [] "rx.jpg"
             (PObj [("choices", PNone)]) JSONDecodeError eq_refl eq_refl).
    left. now exists TypeError.
  - apply (unreadable_response_gives_empty_record reference
             (answering (PObj [("choices", PList [])])) [] "rx.jpg"
             (PObj [("choices", PList [])]) JSONDecodeError eq_refl eq_refl).
    right. exists PNone. repeat split.
Defined.

(** ** Data that cannot be mapped *)

Lemma build_medicines_not_object (L : Libraries) (meds : list pyval) :
  Exists (fun med => is_dict med = false) meds ->
  forall idx, exists e, build_medicines L idx meds = Raise e.
Proof.
  induction 1 as [med rest Hmed | med rest _ IH]; intros idx.
  - exists AttributeError. destruct med; simpl in *; try reflexivity. discriminate.
  - simpl. destruct (IH (S idx)) as [e He]. rewrite He.
    repeat match goal with
           | |- exists _, rbind ?m _ = _ => destruct m; simpl; eauto
           end.
Qed.

(** All or nothing: output that [json.loads] accepts but that is no object
    (an array, a string, a number), a [medicines] value that cannot be
    iterated (as [null]), or a [medicines] list with one entry that is no
    object, gives the empty record, whatever else the output holds. *)
Theorem unmappable_data_gives_empty_record (L : Libraries)
  (self : PrescriptionImageProcessor) (image_bytes : bytes)
  (image_filename : string) (response data : pyval) :
  chat_completions_create self (mime_type_of image_filename) image_bytes = Ok response ->
  json_loads L (clean_markdown (extract_text L response)) = Ok data ->
  (is_dict data = false
   \/ (exists d, data = PDict d
                 /\ match dict_get d "medicines" (PList []) with
                    | PNone | PBool _ | PInt _ | PFloat _ | PObj _ => True
                    | PList meds => Exists (fun med => is_dict med = false) meds
                    | PStr s => s <> ""
                    | PDict keys => keys <> []
                    end)) ->
  outcome (extract_from_image L self image_bytes image_filename)
  = Ok (_create_empty_prescription image_filename).
Proof.
  intros Hc Hj Hbad.
  assert (Hb : exists e, build_prescription L data image_filename = Raise e).
  { destruct Hbad as [Hd | (d & -> & Hm)].
    - exists AttributeError. destruct data; try reflexivity. discriminate.
    - rewrite build_prescription_dict.
      destruct (dict_get d "medicines" (PList [])) as [| | | |s|meds|keys|];
        simpl; eauto.
      + destruct s as [|c s]; [congruence|]. simpl. eauto.
      + destruct (build_medicines_not_object L meds Hm 0) as [e ->]. simpl. eauto.
      + destruct keys as [|[k v] keys]; [congruence|]. simpl. eauto. }
  destruct Hb as [e Hb].
  apply (extract_from_image_unparsable L self image_bytes image_filename response e Hc).
  rewrite Hj. exact Hb.
Qed.

Lemma unmappable_data_gives_empty_record_witness :
  outcome (extract_from_image reference
             (answering (completion (PStr array_output))) [] "rx.jpg")
  = Ok (_create_empty_prescription "rx.jpg").
Proof.
  apply (unmappable_data_gives_empty_record reference
           (answering (completion (PStr array_output))) [] "rx.jpg"
           (completion (PStr array_output))
           (PList [PDict [("patientName", PStr "Bo")]]) eq_refl eq_refl).
  left. reflexivity.
Defined.

(** ** The fields of a medicine *)

Lemma build_medicines_fields (L : Libraries) (meds : list pyval) :
  forall (idx : nat) (medicines : list Medicine),
    build_medicines L idx meds = Ok medicines ->
    Forall2 (medicine_of_entry L) meds medicines.
Proof.
  induction meds as [|med rest IH]; intros idx medicines H; simpl in H.
  - injection H as <-. constructor.
  - bind_inversion H. injection H as <-.
    unfold new_Medicine in *.
    match goal with
    | Hm : rbind _ _ = Ok ?m |- _ => bind_inversion Hm; injection Hm as <-
    end.
    constructor; [|eapply IH; eassumption].
    destruct med; try discriminate.
    eexists. split; [reflexivity|]. simpl in *.
    repeat match goal with
           | H : Ok _ = Ok _ |- _ => injection H as <-
           end.
    auto.
Qed.

(** Each line item of a record that was built takes its name, quantity, time
    of intake and meal instruction from the same keys of the entry at its
    position, validated; a key the entry lacks gives null. *)
Theorem medicine_fields_follow_entries (L : Libraries)
  (self : PrescriptionImageProcessor) (image_bytes : bytes)
  (image_filename : string) (response data : pyval) (meds : list pyval)
  (p : PrescriptionData) :
  chat_completions_create self (mime_type_of image_filename) image_bytes = Ok response ->
  json_loads L (clean_markdown (extract_text L response)) = Ok data ->
  py_get data "medicines" (PList []) = Ok (PList meds) ->
  build_prescription L data image_filename = Ok p ->
  outcome (extract_from_image L self image_bytes image_filename) = Ok p
  /\ Forall2 (medicine_of_entry L) meds (medicines p)
  /\ Forall2 (fun med m =>
                forall d, med = PDict d ->
                  (lookup "name" d = None -> med_name m = None)
                  /\ (lookup "quantity" d = None -> quantity m = None)
                  /\ (lookup "timeOfIntake" d = None -> timeOfIntake m = None)
                  /\ (lookup "beforeOrAfterMeals" d = None ->
                      beforeOrAfterMeals m = None))
             meds (medicines p).
Proof.
  intros Hc Hj Hm Hb.
  assert (Hf : Forall2 (medicine_of_entry L) meds (medicines p)).
  { destruct (build_prescription_is_dict L data image_filename p Hb) as [d ->].
    pose proof Hb as Hb'. rewrite build_prescription_dict in Hb'.
    simpl in Hm. injection Hm as Hm. rewrite Hm in Hb'. simpl in Hb'.
    destruct (build_medicines L 0 meds) as [ms|] eqn:Hms; [|discriminate].
    simpl in Hb'. apply new_PrescriptionData_fields in Hb'.
    destruct Hb' as (_ & _ & _ & _ & _ & _ & _ & _ & -> & _).
    apply (build_medicines_fields L meds 0 ms Hms). }
  split; [|split; [exact Hf|]].
  - unfold extract_from_image. rewrite Hc, Hj. simpl. now rewrite Hb.
  - refine (Forall2_impl _ _ Hf). intros med m (d & -> & N & Q & T & B) d' E.
    injection E as <-.
    repeat split; intros Habs;
      [rewrite (dict_get_absent d _ PNone Habs) in N
      |rewrite (dict_get_absent d _ PNone Habs) in Q
      |rewrite (dict_get_absent d _ PNone Habs) in T
      |rewrite (dict_get_absent d _ PNone Habs) in B]; simpl in *; congruence.
Qed.

Lemma medicine_fields_follow_entries_witness :
  exists p,
    outcome (extract_from_image reference
               (answering (completion (PStr one_medicine_output))) [] "rx.jpg") = Ok p
    /\ map med_name (medicines p) = [Some "A"]
    /\ map quantity (medicines p) = [Some 2%Z]
    /\ map beforeOrAfterMeals (medicines p) = [None].
Proof.
  destruct (medicine_fields_follow_entries reference
              (answering (completion (PStr one_medicine_output))) [] "rx.jpg"
              (completion (PStr one_medicine_output))
              (PDict [("medicines",
                       PList [PDict [("name", PStr "A"); ("quantity", PInt 2);
                                     ("timeOfIntake", PStr "Morning")]])])
              [PDict [("name", PStr "A"); ("quantity", PInt 2);
                      ("timeOfIntake", PStr "Morning")]]
              {| rec_id := None; userId := None; serialNo := None;
                 patientName := None; age := None; weight := None; height := None;
                 temperature := None; hospitalName := None; doctorName := None;
                 date := None;
                 medicines := [{| med_id := "med_1"; med_name := Some "A";
                                  quantity := Some 2%Z;
                                  timeOfIntake := Some "Morning";
                                  beforeOrAfterMeals := None |}];
                 reportImages := ["rx.jpg"];
                 createdAt := None; updatedAt := None |}
              eq_refl eq_refl eq_refl eq_refl) as [Hp _].
  eexists. split; [exact Hp|]. repeat split.
Defined.

(** ** One-sided fences *)

Lemma prefix_fence_append (t q : string) :
  String.prefix "```" t = false ->
  String.prefix "```" (t ++ String "010" q) = false.
Proof.
  assert (N : forall (A : Type) (x y : A),
             (if ascii_dec "`" "010" then x else y) = y).
  { intros A x y. destruct (ascii_dec "`" "010"); [discriminate | reflexivity]. }
  destruct t as [|a [|b [|c t]]]; cbn [String.prefix append]; intros H.
  - apply N.
  - destruct (ascii_dec "`" a); [apply N | reflexivity].
  - destruct (ascii_dec "`" a); [|reflexivity].
    destruct (ascii_dec "`" b); [apply N | reflexivity].
  - destruct (ascii_dec "`" a); [|reflexivity].
    destruct (ascii_dec "`" b); [|reflexivity].
    destruct (ascii_dec "`" c); [|reflexivity].
    destruct t; discriminate.
Qed.

(** The three steps of the clean-up are independent: an opening fence without
    a closing one, and a closing fence without an opening one, are removed
    as well. *)
Theorem one_sided_fence_is_removed (tag t : string) :
  tag = "" \/ tag = "json" ->
  (endswith t "```" = false ->
   clean_markdown ("```" ++ tag ++ String "010" t) = strip t)
  /\ (startswith t "```" = false ->
      clean_markdown (t ++ String "010" "```") = strip t).
Proof.
  intros Htag. split.
  - intros He.
    assert (E : endswith (String "010" t) "```" = false) by (simpl; exact He).
    destruct Htag as [-> | ->]; unfold clean_markdown;
      cbn -[endswith strip drop_last]; rewrite E;
      now apply strip_cons_space.
  - intros Hs. unfold clean_markdown, startswith in *.
    assert (Hj : String.prefix "```json" (t ++ String "010" "```") = false).
    { destruct (String.prefix "```json" (t ++ String "010" "```")) eqn:Hj;
        [|reflexivity].
      change "```json" with ("```" ++ "json")%string in Hj.
      apply prefix_append in Hj.
      now rewrite (prefix_fence_append t "```" Hs) in Hj. }
    rewrite Hj, (prefix_fence_append t "```" Hs).
    rewrite (append_snoc t "```" "010"), endswith_append.
    change (drop_last 3) with (drop_last (String.length "```")).
    rewrite drop_last_append. now apply strip_append_space.
Qed.

Lemma one_sided_fence_is_removed_witness :
  clean_markdown ("```json" ++ String "010" "{}") = "{}"
  /\ clean_markdown ("{}" ++ String "010" "```") = "{}".
Proof.
  split.
  - apply (proj1 (one_sided_fence_is_removed "json" "{}" (or_intror eq_refl))).
    reflexivity.
  - apply (proj2 (one_sided_fence_is_removed "json" "{}" (or_intror eq_refl))).
    reflexivity.
Defined.

(** ** What a request stores *)

Lemma skipn_nth_error {A} (l : list A) :
  forall i x, nth_error l i = Some x -> skipn i l = x :: skipn (S i) l.
Proof.
  induction l as [|y l IH]; intros [|i] x H; simpl in *; try discriminate.
  - now injection H as ->.
  - now apply IH.
Qed.

Lemma provenance_eta (fd : FileDetail) :
  {| url := url fd; fileId := fileId fd; name := name fd |} = fd.
Proof. now destruct fd. Qed.

Section StorageFacts.

Variable L : Libraries.
Variable W : World.

Lemma create_prescription_stored (i : nat) (doc : prescription_dict)
  (saved : PrescriptionData) :
  outcome (create_prescription W i doc) = Ok saved -> stored_as W i doc saved.
Proof.
  unfold create_prescription, stored_as. simpl.
  destruct (insert_one W doc) as [inserted_id | e]; simpl; [|discriminate].
  intros H. injection H as <-. now exists inserted_id.
Qed.

Lemma create_prescription_raise (i : nat) (doc : prescription_dict) (e : exn) :
  outcome (create_prescription W i doc) = Raise e -> insert_one W doc = Raise e.
Proof.
  unfold create_prescription. simpl.
  destruct (insert_one W doc) as [inserted_id | e']; simpl; congruence.
Qed.

(** The documents of the loop that saves: the record at position [i + k] goes
    with the file at position [i + k]. *)
Lemma save_from_docs (request : PrescriptionUploadRequest)
  (current_user : list (string * pyval)) (prescriptions : list PrescriptionData) :
  forall i saved,
    outcome (save_from W request current_user i prescriptions) = Ok saved ->
    exists docs,
      log (save_from W request current_user i prescriptions) = insert_events docs
      /\ map dumped docs = prescriptions
      /\ map provenance docs
         = firstn (List.length prescriptions) (skipn i (fileDetails request))
      /\ Forall (fun doc => user_id doc = owner_of current_user) docs
      /\ List.length saved = List.length docs
      /\ (forall k doc record,
            nth_error docs k = Some doc -> nth_error saved k = Some record ->
            stored_as W (i + k) doc record).
Proof.
  induction prescriptions as [|p rest IH]; intros i saved H.
  - simpl in H. injection H as <-. exists [].
    repeat split; try constructor. intros [|k] doc record; discriminate.
  - cbn [save_from] in *. rewrite bind_lift in *.
    unfold file_detail_at in *.
    destruct (nth_error (fileDetails request) i) as [fd|] eqn:Hfd; [|discriminate].
    match type of H with
    | context [create_prescription W i ?d] => set (doc := d) in *
    end.
    apply bind_ok in H. destruct H as (s & Hs & H & Hl). rewrite Hl.
    apply bind_ok in H. destruct H as (rs & Hrs & H & Hl'). rewrite Hl'.
    simpl in H. injection H as <-.
    destruct (IH (S i) rs Hrs) as (docs & D1 & D2 & D3 & D4 & D5 & D6).
    rewrite create_prescription_events, D1.
    assert (Hprov : provenance doc = fd) by apply provenance_eta.
    exists (doc :: docs).
    split; [simpl; now rewrite app_nil_r|].
    split; [simpl; now rewrite D2|].
    split.
    { rewrite (skipn_nth_error (fileDetails request) i fd Hfd).
      simpl. now rewrite Hprov, D3. }
    split; [constructor; [reflexivity | exact D4]|].
    split; [simpl; now rewrite D5|].
    intros [|k] d record Hd Hr; simpl in Hd, Hr.
    + injection Hd as <-. injection Hr as <-.
      rewrite Nat.add_0_r. now apply create_prescription_stored.
    + replace (i + S k) with (S i + k) by lia. now apply D6.
Qed.

(** What the loop that saves has done when it stops: every insert but, when it
    raises on one, the last, has succeeded. *)
Lemma save_from_shape (request : PrescriptionUploadRequest)
  (current_user : list (string * pyval)) (prescriptions : list PrescriptionData) :
  forall i,
    exists docs,
      log (save_from W request current_user i prescriptions) = insert_events docs
      /\ match outcome (save_from W request current_user i prescriptions) with
         | Ok _ => Forall (fun doc => exists id, insert_one W doc = Ok id) docs
         | Raise e =>
             (e = IndexError
              /\ Forall (fun doc => exists id, insert_one W doc = Ok id) docs)
             \/ (exists docs0 doc,
                   docs = docs0 ++ [doc]
                   /\ Forall (fun doc => exists id, insert_one W doc = Ok id) docs0
                   /\ insert_one W doc = Raise e)
         end.
Proof.
  induction prescriptions as [|p rest IH]; intros i.
  - exists []. split; [reflexivity | constructor].
  - cbn [save_from]. rewrite bind_lift. unfold file_detail_at.
    destruct (nth_error (fileDetails request) i) as [fd|] eqn:Hfd.
    2:{ exists []. split; [reflexivity|]. left. split; [reflexivity | constructor]. }
    match goal with
    | |- context [bind (create_prescription W i ?d) ?f] =>
        set (doc := d); set (k := f)
    end.
    destruct (outcome (create_prescription W i doc)) as [s | e] eqn:Hs.
    + rewrite (bind_run _ k s Hs). subst k. cbv beta.
      destruct (create_prescription_stored i doc s Hs) as (id & Hid & _).
      destruct (IH (S i)) as (docs & D1 & D2).
      destruct (outcome (save_from W request current_user (S i) rest))
        as [rs | e] eqn:Hrs.
      * rewrite (bind_run _ _ rs Hrs). simpl.
        rewrite create_prescription_events, D1, app_nil_r.
        exists (doc :: docs). split; [reflexivity|]. constructor; eauto.
      * rewrite (bind_raise _ _ e Hrs). simpl.
        rewrite create_prescription_events, D1.
        exists (doc :: docs). split; [reflexivity|].
        destruct D2 as [[-> D2] | (docs0 & d & -> & D2 & D3)].
        -- left. split; [reflexivity|]. constructor; eauto.
        -- right. exists (doc :: docs0), d. repeat split; auto.
           constructor; eauto.
    + rewrite (bind_raise _ k e Hs). simpl.
      rewrite create_prescription_events.
      exists [doc]. split; [reflexivity|].
      right. exists [], doc. repeat split; [constructor|].
      now apply (create_prescription_raise i).
Qed.




End StorageFacts.

Lemma new_PrescriptionData_unowned (L : Libraries)
  (a1 a2 a3 a4 a5 a6 a7 a8 : pyval) (ms : list Medicine) (images : list string)
  (p : PrescriptionData) :
  new_PrescriptionData L a1 a2 a3 a4 a5 a6 a7 a8 ms images = Ok p ->
  userId p = None.
Proof.
  intros H. unfold new_PrescriptionData in H.
  bind_inversion H. now injection H as <-.
Qed.

(** No record that [extract_from_image] returns has an owner. *)
Lemma extract_from_image_unowned (L : Libraries) (self : PrescriptionImageProcessor)
  (image_bytes : bytes) (image_filename : string) (p : PrescriptionData) :
  outcome (extract_from_image L self image_bytes image_filename) = Ok p ->
  userId p = None.
Proof.
  unfold extract_from_image.
  destruct (chat_completions_create self _ _) as [response | e]; simpl.
  - destruct (json_loads L _) as [data | e]; simpl.
    + destruct (build_prescription L data image_filename) as [q | e] eqn:Hb; simpl.
      * intros H. injection H as <-.
        destruct (build_prescription_is_dict L data image_filename q Hb) as [d ->].
        rewrite build_prescription_dict in Hb. bind_inversion Hb.
        now apply new_PrescriptionData_unowned in Hb.
      * destruct e; simpl; intros H; injection H as <-; reflexivity.
    + destruct e; simpl; intros H; injection H as <-; reflexivity.
  - destruct e; simpl; intros H; try discriminate; injection H as <-; reflexivity.
Qed.

Lemma process_from_unowned (L : Libraries) (self : PrescriptionImageProcessor)
  (images : list (bytes * string)) :
  forall idx results,
    outcome (process_from L self idx images) = Ok results ->
    Forall (fun p => userId p = None) results.
Proof.
  induction images as [|[image_bytes filename] rest IH]; intros idx results H.
  - simpl in H. injection H as <-. constructor.
  - simpl process_from in H.
    apply bind_ok in H. destruct H as (p & Hp & H & _).
    apply bind_ok in H. destruct H as (rs & Hrs & H & _).
    simpl in H. injection H as <-. constructor.
    + simpl. now apply (extract_from_image_unowned L self image_bytes filename).
    + now apply (IH (S idx)).
Qed.

Lemma in_insert_events (doc : prescription_dict) (docs : list prescription_dict) :
  In (EvInsert doc) (insert_events docs) -> In doc docs.
Proof.
  unfold insert_events. rewrite in_map_iff.
  intros (d & E & Hin). now injection E as ->.
Qed.

Lemma no_insert_among (f : event -> bool) (l : list event) (doc : prescription_dict) :
  f (EvInsert doc) = false -> forallb f l = true -> ~ In (EvInsert doc) l.
Proof.
  intros Hf Hl Hin. rewrite forallb_forall in Hl. specialize (Hl _ Hin). congruence.
Qed.

(** A request that succeeds has stored one document per file, in the order of
    the files: the document at position [i] carries the URL, the file id and
    the name of the file at position [i], the serial number [i], the name of
    that file as its report image, and the id of the current user; the
    response returns each document's record with the id of its insert and,
    for [createdAt] and [updatedAt], the two readings of the clock that its
    query made.  The records themselves have no owner: [userId] is null in
    every one. *)
Theorem stored_documents_follow_files (L : Libraries) (W : World)
  (request : PrescriptionUploadRequest) (current_user : list (string * pyval))
  (response : PrescriptionResponse) :
  outcome (extract_prescription_data L W request current_user) = Ok response ->
  exists docs,
    filter is_insert (log (extract_prescription_data L W request current_user))
    = insert_events docs
    /\ map provenance docs = fileDetails request
    /\ map (fun doc => serialNo (dumped doc)) docs
       = map (fun i => Some (Z.of_nat i))
             (seq 0 (List.length (fileDetails request)))
    /\ map (fun doc => reportImages (dumped doc)) docs
       = map (fun fd => [name fd]) (fileDetails request)
    /\ Forall (fun doc => user_id doc = owner_of current_user) docs
    /\ Forall (fun doc => userId (dumped doc) = None) docs
    /\ List.length (data response) = List.length docs
    /\ (forall i doc record,
          nth_error docs i = Some doc -> nth_error (data response) i = Some record ->
          stored_as W i doc record)
    /\ success response = true
    /\ count response = List.length (fileDetails request)
    /\ message response = processed_message (List.length (fileDetails request)).
Proof.
  intros H.
  destruct (validate_request request) as [[] | e] eqn:Hv.
  2:{ rewrite (extract_prescription_data_invalid L W request current_user e Hv) in H.
      discriminate. }
  rewrite (extract_prescription_data_valid L W request current_user Hv) in *.
  rewrite try_except_upload in *. simpl outcome in H. simpl log.
  destruct (outcome (upload_body L W request current_user)) as [r | e] eqn:Hb.
  2:{ destruct (upload_except_raises W e) as (c & d & Hr). congruence. }
  injection H as ->. unfold upload_body in *. rewrite bind_lift in *.
  destruct (new_processor W) as [processor | e]; [|discriminate].
  apply bind_ok in Hb. destruct Hb as (images & Hd & Hb & ->).
  apply bind_ok in Hb. destruct Hb as (ps & Hp & Hb & ->).
  apply bind_ok in Hb. destruct Hb as (saved & Hs & Hb & ->).
  simpl in Hb. injection Hb as <-.
  destruct (download_ok W (fileDetails request) images Hd) as (D1 & D2 & D3).
  destruct (process_from_result L processor images 0 ps Hp) as (P1 & P2 & P3 & P4).
  pose proof (process_from_unowned L processor images 0 ps Hp) as P5.
  destruct (save_from_docs W request current_user ps 0 saved Hs)
    as (docs & S1 & S2 & S3 & S4 & S5 & S6).
  assert (Hn : List.length ps = List.length (fileDetails request)) by congruence.
  assert (Hlen : List.length saved = List.length (fileDetails request)).
  { rewrite S5, <- Hn, <- S2. symmetry. apply length_map. }
  exists docs.
  split.
  { unfold process_multiple_images. simpl. rewrite D3, P3, S1, app_nil_r.
    rewrite !filter_app.
    assert (G : forall l, filter is_insert (get_events l) = []).
    { induction l; simpl; auto. }
    assert (C : forall l, filter is_insert (model_call_events l) = []).
    { induction l; simpl; auto. }
    assert (I : forall l, filter is_insert (insert_events l) = insert_events l).
    { induction l; simpl; congruence. }
    now rewrite G, C, I. }
  split.
  { rewrite S3. simpl. rewrite Hn. apply firstn_all. }
  split.
  { rewrite <- (map_map dumped serialNo), S2, P2. now rewrite D1. }
  split.
  { rewrite <- (map_map dumped reportImages), S2, P4.
    rewrite <- (map_map snd (fun n => [n])), D2. now rewrite map_map. }
  split; [exact S4|].
  split.
  { rewrite <- S2 in P5. now rewrite Forall_map in P5. }
  split; [exact S5|].
  split; [exact S6|].
  split; [reflexivity|].
  split; [exact Hlen|].
  simpl. now rewrite Hn.
Qed.

Lemma stored_documents_follow_files_witness :
  exists docs,
    filter is_insert (log (extract_prescription_data reference
                             (steady_world reader "id") two_images some_user))
    = insert_events docs
    /\ map provenance docs = fileDetails two_images
    /\ Forall (fun doc => user_id doc = PStr "u1") docs
    /\ forall doc record,
         nth_error docs 1 = Some doc ->
         nth_error data_of_two_images 1 = Some record ->
         createdAt record = Some 2%Z /\ updatedAt record = Some 3%Z.
Proof.
  destruct (stored_documents_follow_files reference (steady_world reader "id")
              two_images some_user
              {| success := true;
                 message := "Successfully processed 2 prescription image(s)";
                 count := 2;
                 data := data_of_two_images |})
    as (docs & Hl & Hp & _ & _ & Hu & _ & _ & Hs & _).
  - vm_compute. reflexivity.
  - exists docs. split; [exact Hl|]. split; [exact Hp|]. split; [exact Hu|].
    intros doc record Hd Hr.
    destruct (Hs 1 doc record Hd Hr) as (inserted_id & _ & ->).
    split; reflexivity.
Defined.




(** The insert that raises is the last event of its request, which fails with
    what the handler of the route makes of the exception. *)
Lemma failed_insert_is_last (L : Libraries) (W : World)
  (request : PrescriptionUploadRequest) (current_user : list (string * pyval))
  (doc : prescription_dict) (e : exn) :
  In (EvInsert doc) (log (extract_prescription_data L W request current_user)) ->
  insert_one W doc = Raise e ->
  outcome (extract_prescription_data L W request current_user)
  = outcome (upload_except W e)
  /\ ((forall status_code detail, e <> HTTPException status_code detail) ->
      outcome (extract_prescription_data L W request current_user)
      = Raise (HTTPException HTTP_500_INTERNAL_SERVER_ERROR
                 ("Error processing images: " ++ exn_str W e)))
  /\ exists gets calls docs,
       log (extract_prescription_data L W request current_user)
       = gets ++ calls ++ insert_events (docs ++ [doc])
       /\ forallb is_get gets = true
       /\ forallb is_model_call calls = true
       /\ Forall (fun d => exists inserted_id, insert_one W d = Ok inserted_id) docs.
Proof.
  intros Hin He.
  assert (Hexn : (forall status_code detail, e <> HTTPException status_code detail) ->
                 outcome (upload_except W e)
                 = Raise (HTTPException HTTP_500_INTERNAL_SERVER_ERROR
                            ("Error processing images: " ++ exn_str W e))).
  { intros Hne. destruct e; try reflexivity. now destruct (Hne status_code detail). }
  assert (Hok : forall docs,
             Forall (fun d => exists id, insert_one W d = Ok id) docs ->
             ~ In doc docs).
  { intros docs Hall Hd. rewrite Forall_forall in Hall.
    destruct (Hall doc Hd) as [id Hid]. congruence. }
  destruct (validate_request request) as [[] | e0] eqn:Hv.
  2:{ rewrite (extract_prescription_data_invalid L W request current_user e0 Hv) in Hin.
      destruct Hin. }
  rewrite (extract_prescription_data_valid L W request current_user Hv) in *.
  rewrite try_except_upload in *. simpl outcome. simpl log in *.
  unfold upload_body in *. rewrite bind_lift in *.
  destruct (new_processor W) as [processor | e0]; [|destruct Hin].
  pose proof (download_events W (fileDetails request)) as Hg.
  destruct (outcome (download W (fileDetails request))) as [images | e0] eqn:Hd.
  2:{ rewrite (bind_raise _ _ e0 Hd) in Hin. simpl in Hin.
      now destruct (no_insert_among is_get _ doc eq_refl Hg). }
  rewrite (bind_run _ _ images Hd) in *. simpl outcome. simpl log in *.
  unfold process_multiple_images in *.
  pose proof (process_from_events L processor images 0) as Hc.
  destruct (outcome (process_from L processor 0 images)) as [ps | e0] eqn:Hp.
  2:{ rewrite (bind_raise _ _ e0 Hp) in Hin. simpl in Hin.
      apply in_app_or in Hin. destruct Hin as [Hin | Hin].
      - now destruct (no_insert_among is_get _ doc eq_refl Hg).
      - now destruct (no_insert_among is_model_call _ doc eq_refl Hc). }
  rewrite (bind_run _ _ ps Hp) in *. simpl outcome. simpl log in *.
  destruct (save_from_shape W request current_user ps 0) as (docs & S1 & S2).
  assert (Hdoc : In doc docs).
  { apply in_insert_events. rewrite <- S1.
    apply in_app_or in Hin. destruct Hin as [Hin | Hin];
      [now destruct (no_insert_among is_get _ doc eq_refl Hg)|].
    apply in_app_or in Hin. destruct Hin as [Hin | Hin];
      [now destruct (no_insert_among is_model_call _ doc eq_refl Hc)|].
    destruct (outcome (save_from W request current_user 0 ps)) as [saved | e0] eqn:Hs.
    - rewrite (bind_run _ _ saved Hs) in Hin. simpl in Hin.
      now rewrite app_nil_r in Hin.
    - now rewrite (bind_raise _ _ e0 Hs) in Hin. }
  destruct (outcome (save_from W request current_user 0 ps)) as [saved | e0] eqn:Hs.
  { now destruct (Hok docs S2). }
  destruct S2 as [[_ S2] | (docs0 & d & -> & S2 & S3)].
  { now destruct (Hok docs S2). }
  apply in_app_or in Hdoc. destruct Hdoc as [Hdoc | [<- | []]].
  { now destruct (Hok docs0 S2). }
  assert (e0 = e) by congruence. subst e0.
  rewrite (bind_raise _ _ e Hs). simpl outcome. simpl log.
  split; [reflexivity|]. split; [exact Hexn|].
  exists (log (download W (fileDetails request))),
         (log (process_from L processor 0 images)), docs0.
  rewrite S1. auto.
Qed.

Lemma through_queries_insert_ok (W : World) (doc : prescription_dict)
  (inserted_id : string) :
  insert_one (through_queries W) doc = Ok inserted_id ->
  insert_one W doc = Ok inserted_id.
Proof.
  simpl. unfold PrescriptionQueries_create_prescription.
  destruct (insert_one W doc); [trivial | discriminate].
Qed.

Lemma through_queries_insert_raises (W : World) (doc : prescription_dict) (e : exn) :
  insert_one W doc = Raise e ->
  insert_one (through_queries W) doc = Raise TypeError.
Proof.
  intros H. simpl. unfold PrescriptionQueries_create_prescription.
  now rewrite H.
Qed.

(** Inserts are not undone, and the error of the database is not reported.
    When the driver's insert of a document raises, whatever it raises,
    [PrescriptionQueries.create_prescription] raises the [TypeError] of its own
    call of [log_error], so that the request fails with a 500 whose detail is
    the text of that [TypeError]; the failing insert is the last event of the
    request, and every insert before it has succeeded and stays. *)
Theorem failed_insert_leaves_earlier_records (L : Libraries) (W : World)
  (request : PrescriptionUploadRequest) (current_user : list (string * pyval))
  (doc : prescription_dict) (e : exn) :
  In (EvInsert doc)
     (log (extract_prescription_data L (through_queries W) request current_user)) ->
  insert_one W doc = Raise e ->
  outcome (extract_prescription_data L (through_queries W) request current_user)
  = Raise (HTTPException HTTP_500_INTERNAL_SERVER_ERROR
             ("Error processing images: " ++ exn_str W TypeError))
  /\ exists gets calls docs,
       log (extract_prescription_data L (through_queries W) request current_user)
       = gets ++ calls ++ insert_events (docs ++ [doc])
       /\ forallb is_get gets = true
       /\ forallb is_model_call calls = true
       /\ Forall (fun d => exists inserted_id, insert_one W d = Ok inserted_id) docs.
Proof.
  intros Hin He.
  destruct (failed_insert_is_last L (through_queries W) request current_user doc
              TypeError Hin (through_queries_insert_raises W doc e He))
    as (_ & Hout & gets & calls & docs & Hlog & Hg & Hc & Hd).
  split; [apply Hout; discriminate|].
  exists gets, calls, docs. repeat split; try assumption.
  eapply Forall_impl; [|exact Hd].
  intros d [inserted_id Hd']. exists inserted_id.
  now apply through_queries_insert_ok.
Qed.

Lemma failed_insert_leaves_earlier_records_witness :
  outcome (extract_prescription_data reference
             (through_queries (world_failing_second_insert reader "id"))
             two_images some_user)
  = Raise (HTTPException HTTP_500_INTERNAL_SERVER_ERROR
             "Error processing images: LoggingHelper.log_error() takes from 1 to 2 positional arguments but 3 were given")
  /\ List.length
       (filter is_insert
          (log (extract_prescription_data reference
                  (through_queries (world_failing_second_insert reader "id"))
                  two_images some_user)))
     = 2.
Proof.
  split; [|vm_compute; reflexivity].
  assert (Hin : In (EvInsert second_document)
                  (log (extract_prescription_data reference
                          (through_queries (world_failing_second_insert reader "id"))
                          two_images some_user))).
  { vm_compute. auto 10. }
  exact (proj1 (failed_insert_leaves_earlier_records reference
                  (world_failing_second_insert reader "id")
                  two_images some_user second_document
                  (OtherError "ServerSelectionTimeoutError")
                  Hin eq_refl)).
Defined.

(** ** The current user *)

Lemma lookup_dict_set_same (k : string) (v : pyval) (d : list (string * pyval)) :
  lookup k (Json.dict_set k v d) = Some v.
Proof.
  induction d as [|[k' v'] d IH]; simpl.
  - now rewrite String.eqb_refl.
  - destruct (String.eqb k k') eqn:E; simpl; [now rewrite String.eqb_refl|].
    now rewrite E.
Qed.

Lemma lookup_dict_set_other (k k0 : string) (v : pyval) (d : list (string * pyval)) :
  k0 <> k -> lookup k0 (Json.dict_set k v d) = lookup k0 d.
Proof.
  intros Hne. induction d as [|[k' v'] d IH]; simpl.
  - apply String.eqb_neq in Hne. now rewrite Hne.
  - destruct (String.eqb k k') eqn:E; simpl.
    + apply String.eqb_eq in E. subst k'.
      apply String.eqb_neq in Hne. now rewrite Hne.
    + now rewrite IH.
Qed.

Lemma keys_dict_set_present (k : string) (v : pyval) (d : list (string * pyval)) :
  lookup k d <> None -> map fst (Json.dict_set k v d) = map fst d.
Proof.
  induction d as [|[k' v'] d IH]; simpl; [congruence|].
  destruct (String.eqb k k') eqn:E; simpl.
  - apply String.eqb_eq in E. now subst.
  - intros H. now rewrite IH.
Qed.

Lemma lookup_absent_key (k : string) (d : list (string * pyval)) :
  ~ In k (map fst d) -> lookup k d = None.
Proof.
  induction d as [|[k' v'] d IH]; simpl; [reflexivity|].
  intros H. destruct (String.eqb k k') eqn:E.
  - apply String.eqb_eq in E. subst. tauto.
  - apply IH. tauto.
Qed.

Lemma lookup_dict_del_same (k : string) (d : list (string * pyval)) :
  NoDup (map fst d) -> lookup k (dict_del k d) = None.
Proof.
  induction d as [|[k' v'] d IH]; simpl; [reflexivity|].
  intros Hd. inversion Hd as [|? ? Hnin Hd']; subst.
  destruct (String.eqb k k') eqn:E.
  - apply String.eqb_eq in E. subst. now apply lookup_absent_key.
  - simpl. rewrite E. now apply IH.
Qed.

Lemma lookup_dict_del_other (k k0 : string) (d : list (string * pyval)) :
  k0 <> k -> lookup k0 (dict_del k d) = lookup k0 d.
Proof.
  intros Hne. induction d as [|[k' v'] d IH]; simpl; [reflexivity|].
  destruct (String.eqb k k') eqn:E.
  - apply String.eqb_eq in E. subst k'.
    apply String.eqb_neq in Hne. now rewrite Hne.
  - simpl. now rewrite IH.
Qed.

Lemma keys_dict_set_nodup (k : string) (v : pyval) (d : list (string * pyval)) :
  NoDup (map fst d) -> NoDup (map fst (Json.dict_set k v d)).
Proof.
  induction d as [|[k' v'] d IH]; simpl; intros Hd.
  - constructor; [tauto | constructor].
  - inversion Hd as [|? ? Hnin Hd']; subst.
    destruct (String.eqb k k') eqn:E; simpl.
    + apply String.eqb_eq in E. subst. now constructor.
    + constructor; [|now apply IH].
      intros Hin. apply Hnin.
      apply String.eqb_neq in E.
      clear - Hin E. induction d as [|[k1 v1] d IH]; simpl in *.
      * destruct Hin as [-> | []]. congruence.
      * destruct (String.eqb k k1) eqn:E1; simpl in *.
        -- apply String.eqb_eq in E1. subst. destruct Hin as [-> | Hin]; tauto.
        -- destruct Hin as [-> | Hin]; [now left | right; now apply IH].
Qed.

(** A user that [get_user_by_id] finds is the stored document with its
    [_id] replaced by its text under [id]: the other keys are untouched and
    (the keys of a dict being distinct) no [_id] is left, so that the route's
    [current_user.get('id') or current_user.get('_id')] is that text. *)
Theorem found_user_has_text_id (L : Libraries) (collection : UsersCollection)
  (user_id user : pyval) :
  get_user_by_id L collection user_id = Ok user ->
  truthy user = true ->
  exists oid d v u,
    ObjectId collection user_id = Ok oid
    /\ find_one collection oid = Ok (PDict d)
    /\ lookup "_id" d = Some v
    /\ user = PDict u
    /\ lookup "id" u = Some (PStr (py_str L v))
    /\ (forall k, k <> "id" -> k <> "_id" -> lookup k u = lookup k d)
    /\ (NoDup (map fst d) ->
        lookup "_id" u = None
        /\ (py_str L v <> "" -> owner_of u = PStr (py_str L v))).
Proof.
  unfold get_user_by_id. intros H Ht.
  destruct (ObjectId collection user_id) as [oid|] eqn:Ho; simpl in H; [|discriminate].
  destruct (find_one collection oid) as [found|] eqn:Hf; simpl in H; [|discriminate].
  destruct (truthy found) eqn:Hfound.
  2:{ injection H as <-. congruence. }
  destruct found as [| | | | | |d|]; try discriminate.
  destruct (lookup "_id" d) as [v|] eqn:Hid; [|discriminate].
  injection H as <-.
  assert (Hidu : lookup "id" (dict_del "_id" (Json.dict_set "id" (PStr (py_str L v)) d))
                 = Some (PStr (py_str L v))).
  { rewrite lookup_dict_del_other by discriminate. apply lookup_dict_set_same. }
  exists oid, d, v, (dict_del "_id" (Json.dict_set "id" (PStr (py_str L v)) d)).
  repeat split; auto.
  - intros k K1 K2.
    rewrite lookup_dict_del_other by assumption.
    now apply lookup_dict_set_other.
  - apply lookup_dict_del_same. now apply keys_dict_set_nodup.
  - intros Hne. unfold owner_of, dict_get. rewrite Hidu.
    unfold py_or. simpl. destruct (py_str L v); [congruence | reflexivity].
Qed.

Lemma found_user_has_text_id_witness :
  exists u,
    get_user_by_id reference (one_user (PObj [("oid", PInt 1)]))
      (PStr "507f1f77bcf86cd799439011") = Ok (PDict u)
    /\ lookup "id" u = Some (PStr "<object>")
    /\ lookup "_id" u = None
    /\ lookup "name" u = Some (PStr "Bo").
Proof.
  destruct (found_user_has_text_id reference (one_user (PObj [("oid", PInt 1)]))
              (PStr "507f1f77bcf86cd799439011")
              (PDict [("name", PStr "Bo"); ("id", PStr "<object>")])
              eq_refl eq_refl)
    as (oid & d & v & u & _ & _ & _ & Hu & _).
  injection Hu as <-. eexists. split; [reflexivity|]. repeat split.
Defined.


Lemma get_user_by_id_raises (L : Libraries) (collection : UsersCollection)
  (user_id : pyval) (e : exn) :
  get_user_by_id L collection user_id = Raise e ->
  ObjectId collection user_id = Raise e
  \/ (exists oid, find_one collection oid = Raise e)
  \/ e = KeyError \/ e = TypeError.
Proof.
  unfold get_user_by_id.
  destruct (ObjectId collection user_id) as [oid | e0]; simpl.
  2:{ intros H. left. congruence. }
  destruct (find_one collection oid) as [found | e0] eqn:Hf; simpl.
  2:{ intros H. right. left. exists oid. congruence. }
  destruct (truthy found); [|discriminate].
  destruct found as [| | | | | |d|]; try (intros H; injection H as <-; tauto).
  destruct (lookup "_id" d); [discriminate|].
  intros H; injection H as <-; tauto.
Qed.

Lemma current_user_body_none_sub (L : Libraries) (A : Auth) (token : string)
  (payload : list (string * pyval)) :
  verify_token A token = Some payload ->
  dict_get payload "sub" PNone = PNone ->
  current_user_body L A token = Raise invalid_credentials.
Proof. intros Hv Hs. unfold current_user_body. now rewrite Hv, Hs. Qed.

Lemma current_user_body_sub (L : Libraries) (A : Auth) (token : string)
  (payload : list (string * pyval)) :
  verify_token A token = Some payload ->
  dict_get payload "sub" PNone <> PNone ->
  current_user_body L A token
  = rbind (get_users_collection A)
      (fun users =>
         rbind (get_user_by_id L users (dict_get payload "sub" PNone))
           (fun user =>
              match user with
              | PNone => Raise (HTTPException HTTP_401_UNAUTHORIZED "User not found")
              | _ => Ok user
              end)).
Proof.
  intros Hv Hs. unfold current_user_body. rewrite Hv.
  destruct (dict_get payload "sub" PNone); congruence || reflexivity.
Qed.

Lemma is_none_or_not (v : pyval) : v = PNone \/ v <> PNone.
Proof. destruct v; (now left) || (right; discriminate). Qed.

(** What the body of [get_current_user] raises. *)
Lemma current_user_body_raise (L : Libraries) (A : Auth) (token : string) (e : exn) :
  current_user_body L A token = Raise e ->
  e = invalid_credentials
  \/ e = HTTPException HTTP_401_UNAUTHORIZED "User not found"
  \/ get_users_collection A = Raise e
  \/ (exists users user_id,
        get_users_collection A = Ok users
        /\ get_user_by_id L users user_id = Raise e).
Proof.
  intros H.
  destruct (verify_token A token) as [payload|] eqn:Hv.
  2:{ unfold current_user_body in H. rewrite Hv in H. left. congruence. }
  destruct (is_none_or_not (dict_get payload "sub" PNone)) as [Hs | Hs].
  { rewrite (current_user_body_none_sub L A token payload Hv Hs) in H. left. congruence. }
  rewrite (current_user_body_sub L A token payload Hv Hs) in H.
  destruct (get_users_collection A) as [users | e0]; simpl in H.
  2:{ right. right. left. congruence. }
  destruct (get_user_by_id L users (dict_get payload "sub" PNone)) as [u | e0] eqn:Hu;
    simpl in H.
  - destruct u; try discriminate. right. left. congruence.
  - right. right. right. exists users, (dict_get payload "sub" PNone).
    split; [reflexivity | congruence].
Qed.

Lemma current_user_body_ok (L : Libraries) (A : Auth) (token : string) (user : pyval) :
  current_user_body L A token = Ok user ->
  user <> PNone
  /\ exists payload users,
       verify_token A token = Some payload
       /\ get_users_collection A = Ok users
       /\ get_user_by_id L users (dict_get payload "sub" PNone) = Ok user.
Proof.
  intros H.
  destruct (verify_token A token) as [payload|] eqn:Hv.
  2:{ unfold current_user_body in H. rewrite Hv in H. discriminate. }
  destruct (is_none_or_not (dict_get payload "sub" PNone)) as [Hs | Hs].
  { rewrite (current_user_body_none_sub L A token payload Hv Hs) in H. discriminate. }
  rewrite (current_user_body_sub L A token payload Hv Hs) in H.
  destruct (get_users_collection A) as [users | e0]; simpl in H; [|discriminate].
  destruct (get_user_by_id L users (dict_get payload "sub" PNone)) as [u | e0] eqn:Hu;
    simpl in H; [|discriminate].
  destruct u; try discriminate; injection H as <-;
    (split; [discriminate | exists payload, users; auto]).
Qed.

(** [get_current_user] returns a user that is not [None], and fails with a
    401 only: when the token is rejected or has no subject, when no user is
    found, and when anything else goes wrong (a subject that is no id, the
    database).  The database does not raise an [HTTPException] of its own. *)
Theorem current_user_is_found_or_unauthorized (L : Libraries) (A : Auth)
  (token : string) :
  (forall status_code detail,
     get_users_collection A <> Raise (HTTPException status_code detail)) ->
  (forall users v status_code detail,
     get_users_collection A = Ok users ->
     ObjectId users v <> Raise (HTTPException status_code detail)
     /\ find_one users v <> Raise (HTTPException status_code detail)) ->
  (forall user, get_current_user L A token = Ok user ->
     user <> PNone
     /\ exists payload users,
          verify_token A token = Some payload
          /\ get_users_collection A = Ok users
          /\ get_user_by_id L users (dict_get payload "sub" PNone) = Ok user)
  /\ (forall e, get_current_user L A token = Raise e ->
        exists detail,
          e = HTTPException HTTP_401_UNAUTHORIZED detail
          /\ In detail ["Invalid authentication credentials"; "User not found";
                        "Could not validate credentials"])
  /\ (verify_token A token = None ->
      get_current_user L A token = Raise invalid_credentials)
  /\ (forall payload, verify_token A token = Some payload ->
        lookup "sub" payload = None ->
        get_current_user L A token = Raise invalid_credentials).
Proof.
  intros Hcoll Hdb. split; [|split; [|split]].
  - intros user H. unfold get_current_user in H.
    destruct (current_user_body L A token) as [u | e0] eqn:Hb.
    + injection H as <-. now apply current_user_body_ok.
    + destruct e0; discriminate.
  - intros e H. unfold get_current_user in H.
    destruct (current_user_body L A token) as [u | e0] eqn:Hb; [discriminate|].
    assert (Hother : (forall c d, e0 <> HTTPException c d) ->
                     e = HTTPException HTTP_401_UNAUTHORIZED
                           "Could not validate credentials").
    { intros Hne. destruct e0; congruence. }
    destruct (current_user_body_raise L A token e0 Hb)
      as [-> | [-> | [Hc | (users & uid & Hc & Hu)]]].
    + injection H as <-. eexists. split; [reflexivity | simpl; auto].
    + injection H as <-. eexists. split; [reflexivity | simpl; auto].
    + eexists. split; [apply Hother | simpl; auto].
      intros c d ->. now apply (Hcoll c d).
    + eexists. split; [apply Hother | simpl; auto].
      intros c d ->.
      destruct (get_user_by_id_raises L users uid _ Hu)
        as [Hr | [[oid Hr] | [Hr | Hr]]]; try discriminate.
      * now apply (proj1 (Hdb users uid c d Hc)).
      * now apply (proj2 (Hdb users oid c d Hc)).
  - intros Hv. unfold get_current_user, current_user_body. now rewrite Hv.
  - intros payload Hv Hsub. unfold get_current_user.
    now rewrite (current_user_body_none_sub L A token payload Hv
                   (dict_get_absent payload "sub" PNone Hsub)).
Qed.

Lemma current_user_is_found_or_unauthorized_witness :
  get_current_user reference (plain_auth (one_user (PObj [("oid", PInt 1)])))
    "not-an-id"
  = Raise (HTTPException HTTP_401_UNAUTHORIZED "Could not validate credentials")
  /\ get_current_user reference (plain_auth (one_user (PObj [("oid", PInt 1)]))) ""
     = Raise invalid_credentials.
Proof.
  assert (Hcoll : forall status_code detail,
            get_users_collection (plain_auth (one_user (PObj [("oid", PInt 1)])))
            <> Raise (HTTPException status_code detail)) by discriminate.
  assert (Hdb : forall users v status_code detail,
            get_users_collection (plain_auth (one_user (PObj [("oid", PInt 1)])))
            = Ok users ->
            ObjectId users v <> Raise (HTTPException status_code detail)
            /\ find_one users v <> Raise (HTTPException status_code detail)).
  { intros users v c d H. injection H as <-. split.
    - destruct v as [| | | |s| | |]; try discriminate.
      simpl. destruct (String.eqb s "507f1f77bcf86cd799439011"); discriminate.
    - destruct v; discriminate. }
  split.
  - destruct (proj1 (proj2 (current_user_is_found_or_unauthorized reference
                              (plain_auth (one_user (PObj [("oid", PInt 1)])))
                              "not-an-id" Hcoll Hdb))
                (HTTPException HTTP_401_UNAUTHORIZED "Could not validate credentials")
                eq_refl) as (detail & Hd & _).
    reflexivity.
  - exact (proj1 (proj2 (proj2 (current_user_is_found_or_unauthorized reference
                                  (plain_auth (one_user (PObj [("oid", PInt 1)])))
                                  "" Hcoll Hdb))) eq_refl).
Defined.


(** ** Listing the stored prescriptions *)

Lemma stringify_id_keys (L : Libraries) (collection : RecordsCollection)
  (k : string) (doc : list (string * pyval)) :
  map fst (stringify_id L collection k doc) = map fst doc.
Proof.
  unfold stringify_id. destruct (lookup k doc) as [v|] eqn:E; [|reflexivity].
  destruct (is_ObjectId collection v); [|reflexivity].
  apply keys_dict_set_present. congruence.
Qed.

Lemma stringify_id_other (L : Libraries) (collection : RecordsCollection)
  (k k0 : string) (doc : list (string * pyval)) :
  k0 <> k -> lookup k0 (stringify_id L collection k doc) = lookup k0 doc.
Proof.
  intros Hne. unfold stringify_id. destruct (lookup k doc) as [v|]; [|reflexivity].
  destruct (is_ObjectId collection v); [|reflexivity].
  now apply lookup_dict_set_other.
Qed.

Lemma stringify_id_same (L : Libraries) (collection : RecordsCollection)
  (k : string) (doc : list (string * pyval)) (v : pyval) :
  lookup k doc = Some v ->
  lookup k (stringify_id L collection k doc)
  = Some (if is_ObjectId collection v then PStr (py_str L v) else v).
Proof.
  intros E. unfold stringify_id. rewrite E.
  destruct (is_ObjectId collection v); [|assumption].
  apply lookup_dict_set_same.
Qed.

Lemma stringify_id_absent (L : Libraries) (collection : RecordsCollection)
  (k : string) (doc : list (string * pyval)) :
  lookup k doc = None -> stringify_id L collection k doc = doc.
Proof. intros E. unfold stringify_id. now rewrite E. Qed.

Lemma stringified_is_no_ObjectId (L : Libraries) (collection : RecordsCollection)
  (v : pyval) :
  is_ObjectId collection (if is_ObjectId collection v then PStr (py_str L v) else v)
  = false.
Proof. destruct (is_ObjectId collection v) eqn:E; [reflexivity | assumption]. Qed.

(** [GET /medicine/usersMedicalData] answers with the page of documents the
    collection gives, whoever the current user is: as many, in that order,
    with the same keys, and with every value the same except that an
    [ObjectId] under [_id] or [userId] is replaced by its text, so that no
    [ObjectId] is left under these two keys.  A failure of the driver,
    whatever it is, is answered by a 500 that carries the text of the
    [TypeError] of the handler's own call of [log_error]. *)
Theorem listed_prescriptions_have_text_ids (L : Libraries)
  (collection : RecordsCollection) (exn_text : exn -> string) (skip limit : Z)
  (current_user : list (string * pyval)) :
  (forall e, find_page collection skip limit = Raise e ->
     get_all_prescriptions L collection exn_text skip limit current_user
     = Raise (HTTPException HTTP_500_INTERNAL_SERVER_ERROR
                ("Error fetching prescriptions: " ++ exn_text TypeError)))
  /\ (forall docs, find_page collection skip limit = Ok docs ->
        exists r,
          get_all_prescriptions L collection exn_text skip limit current_user = Ok r
          /\ list_success r = true
          /\ list_count r = List.length docs
          /\ Forall2
               (fun doc out =>
                  map fst out = map fst doc
                  /\ (forall k, k <> "_id" -> k <> "userId" ->
                        lookup k out = lookup k doc)
                  /\ (forall k v, k = "_id" \/ k = "userId" ->
                        lookup k doc = Some v ->
                        lookup k out
                        = Some (if is_ObjectId collection v
                                then PStr (py_str L v) else v))
                  /\ (forall k v, k = "_id" \/ k = "userId" ->
                        lookup k out = Some v ->
                        is_ObjectId collection v = false))
               docs (list_data r))
  /\ (forall other_user,
        get_all_prescriptions L collection exn_text skip limit other_user
        = get_all_prescriptions L collection exn_text skip limit current_user).
Proof.
  split; [|split].
  - intros e H. unfold get_all_prescriptions, get_all_prescriptions_query.
    now rewrite H.
  - intros docs H. unfold get_all_prescriptions, get_all_prescriptions_query.
    rewrite H. simpl. eexists. split; [reflexivity|]. simpl.
    split; [reflexivity|]. split; [apply length_map|].
    clear H. induction docs as [|doc docs IH]; simpl; constructor; [|exact IH].
    assert (Hsame : forall k v, k = "_id" \/ k = "userId" ->
              lookup k doc = Some v ->
              lookup k (stringify_id L collection "userId"
                          (stringify_id L collection "_id" doc))
              = Some (if is_ObjectId collection v then PStr (py_str L v) else v)).
    { intros k v [-> | ->] E.
      - rewrite stringify_id_other by discriminate. now apply stringify_id_same.
      - apply stringify_id_same. now rewrite stringify_id_other by discriminate. }
    split; [|split; [|split]].
    + now rewrite !stringify_id_keys.
    + intros k K1 K2. now rewrite !stringify_id_other by assumption.
    + exact Hsame.
    + intros k v Hk E.
      destruct (lookup k doc) as [v0|] eqn:E0.
      * rewrite (Hsame k v0 Hk E0) in E. injection E as <-.
        apply stringified_is_no_ObjectId.
      * assert (N : lookup k (stringify_id L collection "userId"
                                (stringify_id L collection "_id" doc)) = None).
        { destruct Hk as [-> | ->].
          - rewrite stringify_id_other by discriminate.
            now rewrite stringify_id_absent.
          - rewrite stringify_id_absent;
              now rewrite stringify_id_other by discriminate. }
        congruence.
  - reflexivity.
Qed.

Lemma listed_prescriptions_have_text_ids_witness :
  exists r,
    get_all_prescriptions reference two_records (fun _ => "error") 0 100 []
    = Ok r
    /\ list_count r = 2
    /\ list_data r
       = [[("_id", PStr "<object>"); ("serialNo", PInt 0)];
          [("_id", PStr "2"); ("userId", PStr "<object>")]].
Proof.
  destruct (proj1 (proj2 (listed_prescriptions_have_text_ids reference two_records
                            (fun _ => "error") 0 100 []))
              _ eq_refl) as (r & Hr & _ & Hc & _).
  exists r. split; [exact Hr|]. split; [exact Hc|].
  injection Hr as <-. reflexivity.
Defined.

(** ** File names with several dots *)

Lemma split_nonempty (sep : ascii) (s : string) : split sep s <> [].
Proof.
  induction s as [|c r IH]; simpl; [discriminate|].
  destruct (Ascii.eqb c sep); [discriminate|].
  destruct (split sep r); [congruence | discriminate].
Qed.

Lemma split_append_sep (sep : ascii) (a b : string) :
  exists l, l <> [] /\ split sep (a ++ String sep b) = l ++ split sep b.
Proof.
  induction a as [|c r (l & Hl & IH)]; simpl.
  - rewrite Ascii.eqb_refl. now exists [""].
  - destruct (Ascii.eqb c sep).
    + exists ("" :: l). split; [discriminate|]. now rewrite IH.
    + rewrite IH. destruct l as [|h t]; [congruence|].
      exists (String c h :: t). split; [discriminate | reflexivity].
Qed.

Lemma last_app_nonempty (l m : list string) (d : string) :
  m <> [] -> last (l ++ m) d = last m d.
Proof.
  intros Hm. induction l as [|x l IH]; simpl; [reflexivity|].
  destruct (l ++ m) eqn:E; [|exact IH].
  apply app_eq_nil in E. tauto.
Qed.

Lemma split_no_sep (s : string) : no_dot s = true -> split "." s = [s].
Proof.
  induction s as [|c r IH]; simpl; [reflexivity|].
  intros H. apply andb_true_iff in H as [Hc Hr].
  apply negb_true_iff in Hc. rewrite Hc, (IH Hr). reflexivity.
Qed.

Lemma lower_append (a b : string) : lower (a ++ b) = (lower a ++ lower b)%string.
Proof. induction a as [|c r IH]; simpl; [reflexivity | now rewrite IH]. Qed.

Lemma lower_char_dot (c : ascii) :
  Ascii.eqb (lower_char c) "." = Ascii.eqb c ".".
Proof. destruct c as [[] [] [] [] [] [] [] []]; reflexivity. Qed.

Lemma no_dot_lower (s : string) : no_dot (lower s) = no_dot s.
Proof.
  induction s as [|c r IH]; simpl; [reflexivity|].
  now rewrite lower_char_dot, IH.
Qed.

Lemma last_component_append (stem ext : string) :
  last_component (stem ++ "." ++ ext) = last_component ext.
Proof.
  unfold last_component. rewrite lower_append.
  change (lower ("." ++ ext)) with (String "." (lower ext)).
  destruct (split_append_sep "." (lower stem) (lower ext)) as (l & _ & ->).
  apply last_app_nonempty, split_nonempty.
Qed.

(** Only what follows the last dot of a file name decides, whatever its
    case: with [ext] free of dots, the name [stem.ext] has the extension of
    [ext], is accepted by the route exactly when the bare name [ext] is, and
    is sent to the model under the same MIME type.  A name without any dot is
    its own extension. *)
Theorem last_dot_decides (stem ext : string) :
  no_dot ext = true ->
  file_extension (stem ++ "." ++ ext) = ("." ++ lower ext)%string
  /\ file_extension ext = ("." ++ lower ext)%string
  /\ allowed (stem ++ "." ++ ext) = allowed ext
  /\ mime_type_of (stem ++ "." ++ ext) = mime_type_of ext.
Proof.
  intros Hext.
  assert (Hlast : last_component ext = lower ext).
  { unfold last_component. rewrite split_no_sep by now rewrite no_dot_lower.
    reflexivity. }
  unfold allowed, file_extension, mime_type_of.
  rewrite last_component_append, Hlast. auto.
Qed.

Lemma last_dot_decides_witness :
  allowed "scan.2024.tar.PNG" = true
  /\ allowed "PNG" = true
  /\ mime_type_of "scan.2024.tar.PNG" = "image/png".
Proof.
  destruct (last_dot_decides "scan.2024.tar" "PNG" eq_refl)
    as (_ & _ & Ha & Hm).
  change ("scan.2024.tar" ++ "." ++ "PNG")%string with "scan.2024.tar.PNG" in *.
  rewrite Ha, Hm. repeat split.
Defined.

(** ** Pagination *)

Lemma ceil_div_bounds (limit total : Z) :
  (0 < limit)%Z ->
  (total <= (total + limit - 1) / limit * limit
   /\ ((total + limit - 1) / limit - 1) * limit < total)%Z.
Proof.
  intros Hl.
  pose proof (Z.div_mod (total + limit - 1) limit ltac:(lia)) as Hdm.
  pose proof (Z.mod_pos_bound (total + limit - 1) limit Hl) as Hb.
  nia.
Qed.

(** With a positive page size and a total that is not negative,
    [calculate_pagination] returns the least number of pages that hold
    [total] items; there is a next page exactly when [get_skip_value] of the
    next page is below the total, that is when the next page is not empty,
    and a previous page exactly when the page skips something. *)
Theorem pages_cover_the_total (page limit total : Z) :
  (0 < limit)%Z -> (0 <= total)%Z ->
  exists p,
    calculate_pagination page limit total = Ok p
    /\ (total <= totalPages p * limit)%Z
    /\ (0 <= totalPages p)%Z
    /\ (forall n, total <= n * limit -> totalPages p <= n)%Z
    /\ (hasNext p = true <-> (get_skip_value (page + 1) limit < total)%Z)
    /\ (hasPrev p = true <-> (0 < get_skip_value page limit)%Z).
Proof.
  intros Hl Ht. unfold calculate_pagination, get_skip_value.
  destruct (0 <? total)%Z eqn:E.
  - apply Z.ltb_lt in E. unfold floordiv.
    replace (limit =? 0)%Z with false by (symmetry; apply Z.eqb_neq; lia).
    simpl. eexists. split; [reflexivity|]. simpl.
    destruct (ceil_div_bounds limit total Hl) as [Hup Hlow].
    set (q := ((total + limit - 1) / limit)%Z) in *.
    split; [exact Hup|]. split; [nia|]. split; [intros n Hn; nia|].
    rewrite !Z.ltb_lt. split; split; intros; nia.
  - apply Z.ltb_ge in E. assert (total = 0%Z) by lia. subst total.
    simpl. eexists. split; [reflexivity|]. simpl.
    split; [lia|]. split; [lia|]. split; [intros n Hn; nia|].
    rewrite !Z.ltb_lt. split; split; intros; nia.
Qed.

Lemma pages_cover_the_total_witness :
  exists p,
    calculate_pagination 2 10 21 = Ok p
    /\ totalPages p = 3%Z /\ hasNext p = true /\ hasPrev p = true.
Proof.
  destruct (pages_cover_the_total 2 10 21 ltac:(lia) ltac:(lia))
    as (p & Hp & _).
  exists p. split; [exact Hp|]. injection Hp as <-. repeat split.
Defined.

(** A page size of zero makes [calculate_pagination] fail on its division as
    soon as there is something to page; without items no division is made
    and the answer has no pages, whatever the page size. *)
Theorem zero_limit_fails_unless_empty (page limit total : Z) :
  ((0 < total)%Z -> limit = 0%Z ->
   calculate_pagination page limit total = Raise (OtherError "ZeroDivisionError"))
  /\ ((total <= 0)%Z ->
      exists p, calculate_pagination page limit total = Ok p
                /\ totalPages p = 0%Z /\ hasNext p = (page <? 0)%Z).
Proof.
  unfold calculate_pagination. split.
  - intros Ht ->. apply Z.ltb_lt in Ht. now rewrite Ht.
  - intros Ht. replace (0 <? total)%Z with false by (symmetry; apply Z.ltb_ge; lia).
    simpl. eexists. repeat split.
Qed.

Lemma zero_limit_fails_unless_empty_witness :
  calculate_pagination 1 0 5 = Raise (OtherError "ZeroDivisionError")
  /\ exists p, calculate_pagination 1 0 0 = Ok p /\ totalPages p = 0%Z.
Proof.
  split.
  - exact (proj1 (zero_limit_fails_unless_empty 1 0 5) ltac:(lia) eq_refl).
  - destruct (proj2 (zero_limit_fails_unless_empty 1 0 0) ltac:(lia))
      as (p & Hp & Ht & _).
    now exists p.
Defined.
